(** * DockLogBC: the AI document-extraction utility [src/lib/utils/ai.ts]

    A shallow embedding of the extraction pipeline: the data-URL decoder,
    the markdown-fence stripper, the field normalisers and the three public
    operations with their primary/backup provider fallback, followed by the
    properties proved about them.

    Conventions of the embedding.
    - A JavaScript string is the sequence of its code units; [string] holds
      the code units below 256, which covers every literal of the module.
    - A JavaScript number is an IEEE 754 binary64 value, [spec_float].
    - Values flowing out of [JSON.parse] are dynamically typed, so they are
      kept as [JSValue] and every property read, truthiness test and
      coercion is written out as the language performs it.
    - The outside world (the two HTTP endpoints, [JSON.parse], the [Date]
      parser, the configured backup key, the engine's wording of a
      [TypeError]) is a record [Env]. The general theorems hold for every
      [Env]; the environments of [Sample] fix one for the concrete runs.
    - The timesheet code of the older [gemini.ts] ([filter], [map],
      [normalizeDate], [normalizeShiftType]) is the same, statement for
      statement, and is covered by the same definitions.

    The second part of the development covers what surrounds that
    pipeline: the two provider adapters and the connectivity probe, the
    older single-provider operations of [gemini.ts] in the module
    [Legacy], with the two regular expressions they rely on, and the
    caller of the paystub operation in the documents page, in the module
    [DocumentsPage]. *)

From Stdlib Require Import ZArith List Bool Ascii String Lia DecimalString.
From Stdlib Require Import Floats.SpecFloat.
Import ListNotations.
Open Scope string_scope.
Open Scope Z_scope.

(* ================================================================== *)
(** * String built-ins *)
(* ================================================================== *)

Module JSString.

Definition len (s : string) : Z := Z.of_nat (String.length s).

(** [String.prototype.indexOf]: first index at which [needle] occurs,
    [-1] when it does not. [i] is the index of the head of [s]. *)
Fixpoint indexOf_from (needle s : string) (i : Z) : Z :=
  if String.prefix needle s then i
  else match s with
       | EmptyString => -1
       | String _ s' => indexOf_from needle s' (i + 1)
       end.

Definition indexOf (s needle : string) : Z := indexOf_from needle s 0.

(** [String.prototype.includes]. *)
Fixpoint includes (s needle : string) : bool :=
  String.prefix needle s
  || match s with
     | EmptyString => false
     | String _ s' => includes s' needle
     end.

Definition clamp (n x : Z) : Z := Z.max 0 (Z.min x n).

(** [s.substring(a, b)]: both ends clamped to [0, length], swapped when
    out of order. *)
Definition substring2 (s : string) (a b : Z) : string :=
  let a' := clamp (len s) a in
  let b' := clamp (len s) b in
  let lo := Z.min a' b' in
  let hi := Z.max a' b' in
  String.substring (Z.to_nat lo) (Z.to_nat (hi - lo)) s.

(** [s.substring(a)]. *)
Definition substring1 (s : string) (a : Z) : string :=
  substring2 s a (len s).

(** [s.slice(a, b)]: a negative index counts from the end. *)
Definition slice_index (n x : Z) : Z :=
  if x <? 0 then Z.max (n + x) 0 else Z.min x n.

Definition slice2 (s : string) (a b : Z) : string :=
  let from := slice_index (len s) a in
  let to := slice_index (len s) b in
  String.substring (Z.to_nat from) (Z.to_nat (Z.max (to - from) 0)) s.

Definition slice1 (s : string) (a : Z) : string := slice2 s a (len s).

Definition startsWith (s p : string) : bool := String.prefix p s.

Definition endsWith (s p : string) : bool :=
  (len p <=? len s)
  && String.eqb (String.substring (String.length s - String.length p)
                                  (String.length p) s) p.

(** White space and line terminators among the code units below 256:
    TAB, LF, VT, FF, CR, SP and NBSP. *)
Definition isWhiteSpace (c : ascii) : bool :=
  let n := N_of_ascii c in
  ((9 <=? n) && (n <=? 13) || (n =? 32) || (n =? 160))%N.

Fixpoint trimStart (s : string) : string :=
  match s with
  | EmptyString => EmptyString
  | String c s' => if isWhiteSpace c then trimStart s' else s
  end.

(** [trimEnd] keeps a character when it is not white space or when
    something remains after it. *)
Fixpoint trimEnd (s : string) : string :=
  match s with
  | EmptyString => EmptyString
  | String c s' =>
      match trimEnd s' with
      | EmptyString => if isWhiteSpace c then EmptyString
                       else String c EmptyString
      | r => String c r
      end
  end.

Definition trim (s : string) : string := trimEnd (trimStart s).

(** [toLowerCase] on one code unit: A-Z, and the Latin-1 capitals
    U+00C0..U+00DE except the multiplication sign U+00D7. *)
Definition lowerChar (c : ascii) : ascii :=
  let n := N_of_ascii c in
  if ((65 <=? n) && (n <=? 90)
      || (192 <=? n) && (n <=? 222) && negb (n =? 215))%N
  then ascii_of_N (n + 32) else c.

Fixpoint toLowerCase (s : string) : string :=
  match s with
  | EmptyString => EmptyString
  | String c s' => String (lowerChar c) (toLowerCase s')
  end.

(** Last index of a character, [-1] when absent. *)
Fixpoint lastIndexOfChar_from (c : ascii) (s : string) (i : Z) : Z :=
  match s with
  | EmptyString => -1
  | String d s' =>
      let r := lastIndexOfChar_from c s' (i + 1) in
      if 0 <=? r then r else if Ascii.eqb c d then i else -1
  end.

(** [s.match(/\{[\s\S]*\}/)]: the class [[\s\S]] accepts every code
    unit and [*] is greedy, so the match runs from the first opening
    brace to the last closing brace after it. *)
Definition matchBraces (s : string) : option string :=
  let i := indexOf s "{" in
  if i <? 0 then None
  else
    let rest := substring1 s (i + 1) in
    let j := lastIndexOfChar_from "}"%char rest 0 in
    if j <? 0 then None
    else Some (substring2 s i (i + 1 + j + 1)).

End JSString.

Import JSString.

(* ================================================================== *)
(** * The media decoder *)
(* ================================================================== *)

Record ParsedDataURL := { mediaType : string; data : string }.

(** [parseDataURL]: [null] is [None]. The two [console] calls write to the
    log only. *)
Definition parseDataURL (dataURL : string) : option ParsedDataURL :=
  let commaIndex := indexOf dataURL "," in
  let semicolonIndex := indexOf dataURL ";" in
  if (commaIndex <=? 0) || (semicolonIndex <=? 0) then None
  else
    let mediaType := substring2 dataURL 5 semicolonIndex in
    let data := substring1 dataURL (commaIndex + 1) in
    let mediaType :=
      if String.eqb mediaType "image/jpg" then "image/jpeg" else mediaType in
    Some {| mediaType := mediaType; data := data |}.


(* ================================================================== *)
(** * Numbers *)
(* ================================================================== *)

Module JSNumber.

(** A JavaScript number is a binary64 value: 53 bits of precision and
    infinities at exponent 1024. *)
Definition number : Type := spec_float.

Definition prec : Z := 53.
Definition emax : Z := 1024.

Definition NaN : number := S754_nan.
Definition posZero : number := S754_zero false.

(** The number nearest to an integer (ties to even). *)
Definition ofZ (z : Z) : number := binary_normalize prec emax z 0 false.

(** The number nearest to [m * 10 ^ e10], signed by [neg]. A negative power
    of ten is one correctly rounded division of two exact integers. *)
Definition ofDecimal (neg : bool) (m e10 : Z) : number :=
  match m with
  | Zpos p =>
      if 0 <=? e10
      then binary_normalize prec emax
             (if neg then - (m * 10 ^ e10) else m * 10 ^ e10) 0 false
      else SFdiv prec emax (S754_finite neg p 0)
                 (S754_finite false (Z.to_pos (10 ^ (- e10))) 0)
  | _ => S754_zero neg
  end.

(** [ToBoolean] of a number: false at [+0], [-0] and [NaN]. *)
Definition truthyNumber (n : number) : bool :=
  match n with
  | S754_zero _ | S754_nan => false
  | _ => true
  end.

(** [n > 0]. *)
Definition isPositive (n : number) : bool := SFltb posZero n.

Definition isNaN (n : number) : bool :=
  match n with S754_nan => true | _ => false end.

Definition isZero (n : number) : bool :=
  match n with S754_zero _ => true | _ => false end.

(** ** [StringToNumber] *)

Definition digitOf (radix : Z) (c : ascii) : option Z :=
  let n := Z.of_N (N_of_ascii c) in
  let d := if (48 <=? n) && (n <=? 57) then n - 48
           else if (97 <=? n) && (n <=? 102) then n - 87
           else if (65 <=? n) && (n <=? 70) then n - 55
           else radix in
  if d <? radix then Some d else None.

(** Reads the longest run of digits: the accumulated value, the number of
    digits read and what follows them. *)
Fixpoint readDigits (radix : Z) (s : string) (acc count : Z)
  : Z * Z * string :=
  match s with
  | EmptyString => (acc, count, EmptyString)
  | String c s' =>
      match digitOf radix c with
      | Some d => readDigits radix s' (radix * acc + d) (count + 1)
      | None => (acc, count, s)
      end
  end.

Definition readSign (s : string) : bool * string :=
  match s with
  | String "-" s' => (true, s')
  | String "+" s' => (false, s')
  | _ => (false, s)
  end.

(** [ExponentPart]: absent, or [e]/[E], an optional sign and at least one
    digit. [None] when an exponent marker is not followed by digits. *)
Definition readExponent (s : string) : option (Z * string) :=
  match s with
  | String c s' =>
      if Ascii.eqb c "e" || Ascii.eqb c "E" then
        let '(neg, s'') := readSign s' in
        let '(v, n, rest) := readDigits 10 s'' 0 0 in
        if n =? 0 then None else Some (if neg then - v else v, rest)
      else Some (0, s)
  | EmptyString => Some (0, s)
  end.

(** [StrUnsignedDecimalLiteral] other than [Infinity]. *)
Definition readUnsignedDecimal (neg : bool) (s : string) : number :=
  let '(ip, n1, r1) := readDigits 10 s 0 0 in
  let '(m, n2, r2) :=
    match r1 with
    | String "." r1' => readDigits 10 r1' ip 0
    | _ => (ip, 0, r1)
    end in
  if n1 + n2 =? 0 then NaN
  else match readExponent r2 with
       | Some (e, EmptyString) => ofDecimal neg m (e - n2)
       | _ => NaN
       end.

Definition readRadix (radix : Z) (s : string) : number :=
  let '(v, n, rest) := readDigits radix s 0 0 in
  match rest with
  | EmptyString => if n =? 0 then NaN else ofZ v
  | _ => NaN
  end.

(** [StringToNumber]: white space is trimmed, the empty string is [+0],
    a hexadecimal, octal or binary literal carries no sign. *)
Definition StringToNumber (str : string) : number :=
  let s := trim str in
  match s with
  | EmptyString => posZero
  | String "0" (String "x" r) | String "0" (String "X" r) => readRadix 16 r
  | String "0" (String "o" r) | String "0" (String "O" r) => readRadix 8 r
  | String "0" (String "b" r) | String "0" (String "B" r) => readRadix 2 r
  | _ =>
      let '(neg, u) := readSign s in
      if String.eqb u "Infinity" then S754_infinity neg
      else readUnsignedDecimal neg u
  end.

End JSNumber.

Import JSNumber.


(* ================================================================== *)
(** * Dynamically typed values *)
(* ================================================================== *)

#[local] Set Warnings "-register-all".

(** What [JSON.parse] can return, plus [undefined]. An array carries its
    elements and the named properties assigned to it afterwards ([own] is
    empty for a freshly parsed or freshly built array); an object is the
    list of its properties, looked up by first match. *)
Inductive JSValue : Type :=
| JUndefined
| JNull
| JBool (b : bool)
| JNum (n : number)
| JStr (s : string)
| JArr (elems : list JSValue) (own : list (string * JSValue))
| JObj (props : list (string * JSValue)).

(** A thrown value: an instance of [Error] (or of a subclass such as
    [TypeError] and [SyntaxError]) with its message, or anything else. *)
Inductive Thrown : Type :=
| ErrorInstance (message : string)
| NonError (v : JSValue).

(** The outcome of an expression that may throw. *)
Inductive Result (A : Type) : Type :=
| Ok (a : A)
| Throw (e : Thrown).

Arguments Ok {A} a.
Arguments Throw {A} e.

Definition rbind {A B} (r : Result A) (f : A -> Result B) : Result B :=
  match r with
  | Ok a => f a
  | Throw e => Throw e
  end.

Declare Scope result_scope.
Delimit Scope result_scope with result.
Notation "x <- r ;; k" := (rbind r (fun x => k))
  (at level 61, r at next level, right associativity) : result_scope.

Module JS.

(** [ToBoolean]. *)
Definition truthy (v : JSValue) : bool :=
  match v with
  | JUndefined | JNull => false
  | JBool b => b
  | JNum n => truthyNumber n
  | JStr s => negb (String.eqb s EmptyString)
  | JArr _ _ | JObj _ => true
  end.

(** [a || b] on values. *)
Definition or (a b : JSValue) : JSValue := if truthy a then a else b.

Definition isArray (v : JSValue) : bool :=
  match v with JArr _ _ => true | _ => false end.

Fixpoint lookup (k : string) (props : list (string * JSValue))
  : option JSValue :=
  match props with
  | [] => None
  | (k', v) :: rest => if String.eqb k k' then Some v else lookup k rest
  end.

Definition has (k : string) (props : list (string * JSValue)) : bool :=
  match lookup k props with Some _ => true | None => false end.

(** Turning an object into a primitive calls its [valueOf], which gives
    the object back, and then its [toString]. A parsed object with a
    property named [toString] has that property, never callable, in place
    of the inherited method, and the conversion throws a [TypeError]. An
    array prints its elements, and throws when one of them does. *)
Fixpoint toPrimitiveThrows (v : JSValue) : bool :=
  match v with
  | JObj props => has "toString" props
  | JArr elems own =>
      has "toString" own
      || (fix any (l : list JSValue) : bool :=
            match l with
            | [] => false
            | x :: l' => toPrimitiveThrows x || any l'
            end) elems
  | _ => false
  end.

(** The number a value stands for, when it can be turned into a
    primitive. A primitive follows [ToNumber]. An object is printed first:
    a plain object prints as [[object Object]], which is not numeric; an
    array prints its elements joined by commas, [null] and [undefined]
    printing as nothing, so an array of two or more elements is not
    numeric and an array of one element reads as that element printed.
    A number printed and read back is itself, but for [-0], which prints
    as [0]. *)
Fixpoint numericValue (v : JSValue) : number :=
  match v with
  | JUndefined => NaN
  | JNull => posZero
  | JBool b => if b then ofZ 1 else posZero
  | JNum n => n
  | JStr s => StringToNumber s
  | JObj _ => NaN
  | JArr [] _ => posZero
  | JArr [x] _ =>
      match x with
      | JUndefined | JNull => posZero
      | JBool _ | JObj _ => NaN
      | JNum n => if isZero n then posZero else n
      | JStr s => StringToNumber s
      | JArr _ _ => numericValue x
      end
  | JArr _ _ => NaN
  end.

(** [Number(v)]; [None] stands for the [TypeError] of a value that has no
    primitive. *)
Definition ToNumber (v : JSValue) : option number :=
  if toPrimitiveThrows v then None else Some (numericValue v).

(** Writes [k] in place when the property exists, appends it otherwise. *)
Fixpoint assign (k : string) (v : JSValue) (props : list (string * JSValue))
  : list (string * JSValue) :=
  match props with
  | [] => [(k, v)]
  | (k', v') :: rest =>
      if String.eqb k k' then (k, v) :: rest else (k', v') :: assign k v rest
  end.

Definition orUndefined (o : option JSValue) : JSValue :=
  match o with Some v => v | None => JUndefined end.

(** [v.k] for the property names this module reads other than [length]
    (which [lengthPositive] answers); none of them is found on a built-in
    prototype, so only an object, or an array that was assigned named
    properties, has any. [None] stands for the [TypeError] of reading
    through [null] or [undefined]. *)
Definition get (v : JSValue) (k : string) : option JSValue :=
  match v with
  | JUndefined | JNull => None
  | JObj props => Some (orUndefined (lookup k props))
  | JArr _ own => Some (orUndefined (lookup k own))
  | JBool _ | JNum _ | JStr _ => Some JUndefined
  end.

(** [v.length > 0]. The length of an array or of a string is an integer
    below 2^32 and is compared exactly; [undefined > 0] is false. [None]
    stands for a [TypeError]: [v] is [null] or [undefined], or its length
    has no primitive. *)
Definition lengthPositive (v : JSValue) : option bool :=
  match v with
  | JUndefined | JNull => None
  | JArr elems _ => Some (0 <? Z.of_nat (List.length elems))
  | JStr s => Some (0 <? len s)
  | JObj props =>
      option_map isPositive (ToNumber (orUndefined (lookup "length" props)))
  | JBool _ | JNum _ => Some false
  end.

(** [v?.k]. *)
Definition optGet (v : JSValue) (k : string) : JSValue :=
  orUndefined (get v k).

(** [v?.[0]]. *)
Definition optFirst (v : JSValue) : JSValue :=
  match v with
  | JArr (x :: _) _ => x
  | JStr (String c _) => JStr (String c EmptyString)
  | JObj props => orUndefined (lookup "0" props)
  | _ => JUndefined
  end.

(** [v.k = x] in strict code (an ES module): [None] stands for the
    [TypeError] of writing through [null], [undefined] or a primitive. *)
Definition set (v : JSValue) (k : string) (x : JSValue) : option JSValue :=
  match v with
  | JObj props => Some (JObj (assign k x props))
  | JArr elems own => Some (JArr elems (assign k x own))
  | _ => None
  end.

(** The own enumerable properties copied by [{...v}]. *)
Fixpoint indexed (i : nat) (l : list JSValue) : list (string * JSValue) :=
  match l with
  | [] => []
  | x :: l' => (NilEmpty.string_of_uint (Nat.to_uint i), x) :: indexed (S i) l'
  end.

Fixpoint chars (s : string) : list JSValue :=
  match s with
  | EmptyString => []
  | String c s' => JStr (String c EmptyString) :: chars s'
  end.

Definition spread (v : JSValue) : list (string * JSValue) :=
  match v with
  | JObj props => props
  | JArr elems own => indexed 0 elems ++ own
  | JStr s => indexed 0 (chars s)
  | _ => []
  end.

End JS.

(* ================================================================== *)
(** * Dates *)
(* ================================================================== *)

Module JSDate.

Definition msPerDay : Z := 86400000.

(** Year, month and day of a day number counted from 1970-01-01, in the
    proleptic Gregorian calendar. *)
Definition civilFromDays (day : Z) : Z * Z * Z :=
  let z := day + 719468 in
  let era := z / 146097 in
  let doe := z - era * 146097 in
  let yoe := (doe - doe / 1460 + doe / 36524 - doe / 146096) / 365 in
  let doy := doe - (365 * yoe + yoe / 4 - yoe / 100) in
  let mp := (5 * doy + 2) / 153 in
  let d := doy - (153 * mp + 2) / 5 + 1 in
  let m := if mp <? 10 then mp + 3 else mp - 9 in
  let y := yoe + era * 400 in
  (if m <=? 2 then y + 1 else y, m, d).

(** The inverse, used to build time values. *)
Definition daysFromCivil (y m d : Z) : Z :=
  let y' := if m <=? 2 then y - 1 else y in
  let era := y' / 400 in
  let yoe := y' - era * 400 in
  let mp := if 2 <? m then m - 3 else m + 9 in
  let doy := (153 * mp + 2) / 5 + d - 1 in
  let doe := yoe * 365 + yoe / 4 - yoe / 100 + doy in
  era * 146097 + doe - 719468.

Definition digitChar (d : Z) : ascii := ascii_of_N (48 + Z.to_N (d mod 10)).

(** The last [n] decimal digits of [z], zero padded. *)
Fixpoint pad (n : nat) (z : Z) : string :=
  match n with
  | O => EmptyString
  | S n' => pad n' (z / 10) ++ String (digitChar z) EmptyString
  end.

(** Four digits for the years 0 to 9999, a sign and six digits beyond. *)
Definition yearString (y : Z) : string :=
  if (0 <=? y) && (y <=? 9999) then pad 4 y
  else if y <? 0 then String "-" (pad 6 (- y))
  else String "+" (pad 6 y).

(** [Date.prototype.toISOString] of a valid time value (milliseconds
    since the epoch, UTC). *)
Definition toISOString (t : Z) : string :=
  let '(y, m, d) := civilFromDays (t / msPerDay) in
  let ms := t mod msPerDay in
  yearString y ++ "-" ++ pad 2 m ++ "-" ++ pad 2 d
  ++ "T" ++ pad 2 (ms / 3600000) ++ ":" ++ pad 2 (ms / 60000 mod 60)
  ++ ":" ++ pad 2 (ms / 1000 mod 60) ++ "." ++ pad 3 (ms mod 1000) ++ "Z".

(** [s.split('T')[0]]: what precedes the first [T]. *)
Fixpoint beforeT (s : string) : string :=
  match s with
  | EmptyString => EmptyString
  | String c s' => if Ascii.eqb c "T" then EmptyString
                   else String c (beforeT s')
  end.

End JSDate.

Import JSDate.

(* ================================================================== *)
(** * The outside world *)
(* ================================================================== *)

(** One entry of the [content] array sent to the primary provider. *)
Inductive ContentPart : Type :=
| DocumentPart (media_type data : string)
| ImagePart (media_type data : string)
| TextPart (text : string).

(** One entry of the [parts] array sent to the backup provider. *)
Inductive GeminiPart : Type :=
| InlineData (mime_type data : string)
| GeminiText (text : string).

(** A network request, as it is logged in the trace of an operation. *)
Inductive NetCall : Type :=
| AnthropicPost (apiKey : string) (content : list ContentPart)
| GeminiFetch (apiKey : string) (parts : list GeminiPart).

(** What [CapacitorHttp.post] resolves to. *)
Record HttpResponse := { status : Z; responseData : JSValue }.

(** What [fetch] resolves to; [json] is the outcome of [response.json()]. *)
Record FetchResponse := { ok : bool; json : Result JSValue }.

(** Where the language itself raises a [TypeError]. *)
Inductive TypeErrorSite : Type :=
| ReadOfNullish (prop : string)
| NotAFunction (callee : string)
| WriteOnPrimitive (prop : string)
| NoPrimitiveValue.

Record Env := {
  (** [import.meta.env.VITE_GEMINI_API_KEY || ''] *)
  ENV_GEMINI_KEY : string;
  (** the primary endpoint: rejects, or resolves to a response *)
  CapacitorHttp_post : string -> list ContentPart -> Result HttpResponse;
  (** the backup endpoint *)
  fetch : string -> list GeminiPart -> Result FetchResponse;
  JSON_parse : string -> Result JSValue;
  (** the time value of [new Date(v)] for a value that has a primitive,
      [None] for an invalid date *)
  Date_new : JSValue -> option Z;
  (** [String(v)] of a value that is not a string and has a primitive *)
  String_of : JSValue -> string;
  (** the message the engine gives a [TypeError] *)
  typeErrorMessage : TypeErrorSite -> string
}.

(** ** Effects: a trace of network calls, and exceptions *)

Definition Trace : Type := list NetCall.

Definition M (A : Type) : Type := Trace -> Result A * Trace.

Definition ret {A} (a : A) : M A := fun t => (Ok a, t).

Definition throw {A} (e : Thrown) : M A := fun t => (Throw e, t).

Definition lift {A} (r : Result A) : M A := fun t => (r, t).

Definition bind {A B} (c : M A) (f : A -> M B) : M B :=
  fun t => match c t with
           | (Ok a, t') => f a t'
           | (Throw e, t') => (Throw e, t')
           end.

(** [try { body } catch (e) { handler e }] *)
Definition tryCatch {A} (body : M A) (handler : Thrown -> M A) : M A :=
  fun t => match body t with
           | (Ok a, t') => (Ok a, t')
           | (Throw e, t') => handler e t'
           end.

(** Issues a request: it is appended to the trace whatever its outcome. *)
Definition request {A} (c : NetCall) (outcome : Result A) : M A :=
  fun t => (outcome, (t ++ [c])%list).

Declare Scope effect_scope.
Delimit Scope effect_scope with effect.
Notation "x <- c ;; k" := (bind c (fun x => k))
  (at level 61, c at next level, right associativity) : effect_scope.

(** [error instanceof Error ? error.message : fallback] *)
Definition messageOr (error : Thrown) (fallback : string) : string :=
  match error with
  | ErrorInstance message => message
  | NonError _ => fallback
  end.

(* ================================================================== *)
(** * [ai.ts] *)
(* ================================================================== *)

(** The parsed records, as the callers see them. *)
Inductive ShiftType : Type := day | afternoon | graveyard.

Definition shiftName (s : ShiftType) : string :=
  match s with
  | day => "day"
  | afternoon => "afternoon"
  | graveyard => "graveyard"
  end.

(** [AIResponse]: [{ success: true, data }] or [{ success: false, error }]. *)
Inductive AIResponse : Type :=
| AISuccess (data : JSValue)
| AIFailure (error : string).

(** [StatScheduleResponse]: [{ success: true, year, holidays }] or
    [{ success: false, error }]. The failure built from the model's own
    [error] field forwards that field as it was parsed. *)
Inductive StatScheduleResponse : Type :=
| StatSuccess (year : JSValue) (holidays : list JSValue)
| StatFailure (error : JSValue).

(** The double quote, which the prompt texts contain. *)
Definition dq : string := String "034"%char EmptyString.

Definition paystubPrompt : string :=
  "You are a JSON data extractor for Canadian longshoreman (ILWU) paystubs. Extract pay information and return ONLY a JSON object.

IMPORTANT - Date format on these paystubs:
Dates are 5 digits: YMMDD where Y = last digit of year. Example: " ++ dq ++ "60129" ++ dq ++ " means 2026-01-29 (6=2026, 01=January, 29=day). Convert ALL dates to YYYY-MM-DD format.

IMPORTANT - Current period vs Year-to-Date:
These paystubs show BOTH " ++ dq ++ "Current" ++ dq ++ " amounts and " ++ dq ++ "Year-to-Date" ++ dq ++ " (YTD) amounts. Extract ONLY the CURRENT PERIOD values, NOT year-to-date totals.

Extract TWO things:

1. LINE ITEMS - Each row in the earnings table. Each line has:
   - Earnings type: " ++ dq ++ "Regular" ++ dq ++ " or " ++ dq ++ "Overtime" ++ dq ++ " (overtime = extra hour or big hour bonus)
   - Date: 5-digit format (convert to YYYY-MM-DD)
   - Rate: hourly pay rate (number)
   - Current hrs/units: hours worked or overtime units (number)
   - Current amount: total pay for that line (number)

   For each line item, extract:
   - date: converted to " ++ dq ++ "YYYY-MM-DD" ++ dq ++ "
   - type: " ++ dq ++ "regular" ++ dq ++ " or " ++ dq ++ "overtime" ++ dq ++ "
   - rate: the hourly rate (number)
   - hours: the hrs/units value (number)
   - amount: the current amount (number)

2. TOTALS (current period only, NOT year-to-date):
   - gross_pay: Current period total gross earnings
   - net_pay: Current period net pay (take-home)
   - total_hours: Current period total hours
   - federal_tax, provincial_tax, cpp, ei, union_dues, pension_contribution: Current period deduction amounts
   - pay_period_start: First date in YYYY-MM-DD
   - pay_period_end: Last date in YYYY-MM-DD

Return ONLY this JSON structure:
{" ++ dq ++ "line_items" ++ dq ++ ":[{" ++ dq ++ "date" ++ dq ++ ":" ++ dq ++ "2026-01-29" ++ dq ++ "," ++ dq ++ "type" ++ dq ++ ":" ++ dq ++ "regular" ++ dq ++ "," ++ dq ++ "rate" ++ dq ++ ":45.50," ++ dq ++ "hours" ++ dq ++ ":8," ++ dq ++ "amount" ++ dq ++ ":364.00}]," ++ dq ++ "gross_pay" ++ dq ++ ":0," ++ dq ++ "net_pay" ++ dq ++ ":0," ++ dq ++ "total_hours" ++ dq ++ ":0," ++ dq ++ "federal_tax" ++ dq ++ ":null," ++ dq ++ "provincial_tax" ++ dq ++ ":null," ++ dq ++ "cpp" ++ dq ++ ":null," ++ dq ++ "ei" ++ dq ++ ":null," ++ dq ++ "union_dues" ++ dq ++ ":null," ++ dq ++ "pension_contribution" ++ dq ++ ":null," ++ dq ++ "pay_period_start" ++ dq ++ ":null," ++ dq ++ "pay_period_end" ++ dq ++ ":null}

Replace values with actual data. Use null for fields not found. NO explanations, NO markdown, ONLY the JSON object.".

Definition timesheetPromptHead : string :=
  "You are a timesheet data extractor. Analyze the provided timesheet data (image or text) and extract work entries.

For each entry, extract:
- date: The work date in YYYY-MM-DD format
- shift_type: Classify as " ++ dq ++ "day" ++ dq ++ " (morning shifts, typically 8am-4:30pm), " ++ dq ++ "afternoon" ++ dq ++ " (evening shifts, typically 4:30pm-1am), or " ++ dq ++ "graveyard" ++ dq ++ " (night shifts, typically 1am-8am)
- hours: Number of hours worked (decimal, e.g., 8 or 6.5)
- job_name: The job title, position, or work description
- earnings: Total earnings for that shift if shown (number only, no currency symbols)
- location: Work location if mentioned
- ship: Ship name if mentioned (this is for longshoremen/dock workers)

Return ONLY a valid JSON array of objects. No markdown, no explanation, just the JSON array.
Example format:
[{" ++ dq ++ "date" ++ dq ++ ":" ++ dq ++ "2024-01-15" ++ dq ++ "," ++ dq ++ "shift_type" ++ dq ++ ":" ++ dq ++ "day" ++ dq ++ "," ++ dq ++ "hours" ++ dq ++ ":8," ++ dq ++ "job_name" ++ dq ++ ":" ++ dq ++ "Crane Operator" ++ dq ++ "," ++ dq ++ "earnings" ++ dq ++ ":450.00," ++ dq ++ "location" ++ dq ++ ":" ++ dq ++ "Deltaport" ++ dq ++ "," ++ dq ++ "ship" ++ dq ++ ":" ++ dq ++ "MSC Oscar" ++ dq ++ "}]

If no valid timesheet data is found, return an empty array: []

".

Definition statSchedulePrompt : string :=
  "Analyze this image. If it contains a statutory holiday schedule (stat holidays, stat pay schedule, BC statutory holidays), extract the holiday information.

Look for tables or lists showing:
- Holiday names (New Year's Day, Family Day, Good Friday, Victoria Day, Canada Day, BC Day, Labour Day, Thanksgiving, Remembrance Day, Christmas Day, Boxing Day, etc.)
- Holiday dates
- Qualifying period dates (30-day qualifying window, qualification period)
- Pay dates (when stat pay is issued)

For each holiday found, extract:
- name: The holiday name
- date: Holiday date in YYYY-MM-DD format
- qualification_start: First day of qualifying period in YYYY-MM-DD format
- qualification_end: Last day of qualifying period in YYYY-MM-DD format
- pay_date: Pay date in YYYY-MM-DD format (if shown, otherwise null)

Determine the year from the dates shown.

Return ONLY a JSON object (no markdown, no explanation):
{" ++ dq ++ "year" ++ dq ++ ":2026," ++ dq ++ "holidays" ++ dq ++ ":[{" ++ dq ++ "name" ++ dq ++ ":" ++ dq ++ "New Year's Day" ++ dq ++ "," ++ dq ++ "date" ++ dq ++ ":" ++ dq ++ "2026-01-01" ++ dq ++ "," ++ dq ++ "qualification_start" ++ dq ++ ":" ++ dq ++ "2025-11-30" ++ dq ++ "," ++ dq ++ "qualification_end" ++ dq ++ ":" ++ dq ++ "2025-12-29" ++ dq ++ "," ++ dq ++ "pay_date" ++ dq ++ ":" ++ dq ++ "2026-01-15" ++ dq ++ "}]}

If this is NOT a stat holiday schedule, return exactly:
{" ++ dq ++ "error" ++ dq ++ ":" ++ dq ++ "not_stat_schedule" ++ dq ++ "}".

(** [extractJSON]: strips the markdown fence around the reply. *)
Definition extractJSON (response : string) : string :=
  let jsonStr := trim response in
  let jsonStr :=
    if startsWith jsonStr "```json" then slice1 jsonStr 7
    else if startsWith jsonStr "```" then slice1 jsonStr 3
    else jsonStr in
  let jsonStr :=
    if endsWith jsonStr "```" then slice2 jsonStr 0 (-3) else jsonStr in
  trim jsonStr.

(** [jsonStr.match(/\{[\s\S]*\}/)] and the rebinding that follows it. *)
Definition firstObject (jsonStr : string) : string :=
  match matchBraces jsonStr with
  | Some m => m
  | None => jsonStr
  end.

(** The keyword test of [normalizeShiftType] on the lowered string. *)
Definition classifyShift (s : string) : ShiftType :=
  if includes s "grave" || includes s "night" || includes s "mid"
  then graveyard
  else if includes s "after" || includes s "evening" || includes s "pm"
          || includes s "swing"
  then afternoon
  else day.

Section Pipeline.

Context (env : Env).

Definition typeError {A} (site : TypeErrorSite) : Result A :=
  Throw (ErrorInstance (typeErrorMessage env site)).

(** [v.k], throwing through [null] and [undefined]. *)
Definition getR (v : JSValue) (k : string) : Result JSValue :=
  match JS.get v k with
  | Some x => Ok x
  | None => typeError (ReadOfNullish k)
  end.

(** [v.k = x]. *)
Definition setR (v : JSValue) (k : string) (x : JSValue) : Result JSValue :=
  match JS.set v k x with
  | Some v' => Ok v'
  | None =>
      match v with
      | JUndefined | JNull => typeError (ReadOfNullish k)
      | _ => typeError (WriteOnPrimitive k)
      end
  end.

(** [String(v)], as [new Error(v)] applies it to its message. *)
Definition toStr (v : JSValue) : Result string :=
  match v with
  | JStr s => Ok s
  | _ => if JS.toPrimitiveThrows v then typeError NoPrimitiveValue
         else Ok (String_of env v)
  end.

(** [throw new Error(v)] *)
Definition throwError {A} (v : JSValue) : Result A :=
  match toStr v with
  | Ok message => Throw (ErrorInstance message)
  | Throw e => Throw e
  end.

(** [Number(v)] *)
Definition toNumber (v : JSValue) : Result number :=
  match JS.ToNumber v with
  | Some n => Ok n
  | None => typeError NoPrimitiveValue
  end.

(** ** Helpers *)

(** [normalizeDate]: the date part of the ISO form when [new Date] accepts
    the value, the value itself otherwise. [new Date] turns its argument
    into a primitive first. *)
Definition normalizeDate (dateStr : JSValue) : Result JSValue :=
  if JS.toPrimitiveThrows dateStr then typeError NoPrimitiveValue
  else Ok match Date_new env dateStr with
          | Some t => JStr (beforeT (toISOString t))
          | None => dateStr
          end.

(** [normalizeShiftType]: [(shift || '').toLowerCase()] exists on strings
    only. *)
Definition normalizeShiftType (shift : JSValue) : Result ShiftType :=
  match JS.or shift (JStr EmptyString) with
  | JStr s => Ok (classifyShift (toLowerCase s))
  | _ => typeError (NotAFunction "(shift || '').toLowerCase")
  end.

(** ** Provider adapters *)

Definition claudeContent (prompt : string) (imageBase64 : option string)
  : list ContentPart :=
  (match imageBase64 with
   | Some img =>
       if String.eqb img EmptyString then []
       else match parseDataURL img with
            | Some parsed =>
                if String.eqb (mediaType parsed) "application/pdf"
                then [DocumentPart "application/pdf" (data parsed)]
                else if existsb (String.eqb (mediaType parsed))
                          ["image/jpeg"; "image/png"; "image/gif";
                           "image/webp"]
                then [ImagePart (mediaType parsed) (data parsed)]
                else [ImagePart "image/jpeg" (data parsed)]
            | None => []
            end
   | None => []
   end ++ [TextPart prompt])%list.

Definition geminiParts (prompt : string) (imageBase64 : option string)
  : list GeminiPart :=
  (match imageBase64 with
   | Some img =>
       if String.eqb img EmptyString then []
       else match parseDataURL img with
            | Some parsed => [InlineData (mediaType parsed) (data parsed)]
            | None => []
            end
   | None => []
   end ++ [GeminiText prompt])%list.

Definition statusString (status : Z) : string :=
  NilZero.string_of_int (Z.to_int status).

Local Open Scope effect_scope.

(** [callClaude]: one POST, then the reply is decoded. *)
Definition callClaude (apiKey prompt : string) (imageBase64 : option string)
  : M string :=
  let content := claudeContent prompt imageBase64 in
  response <- request (AnthropicPost apiKey content)
                      (CapacitorHttp_post env apiKey content) ;;
  responseData <-
    lift (match responseData response with
          | JStr text =>
              match JSON_parse env text with
              | Ok v => Ok v
              | Throw _ => Throw (ErrorInstance "Invalid response from API")
              end
          | v => Ok v
          end) ;;
  if negb (status response =? 200) then
    let errorMsg :=
      JS.or (JS.optGet (JS.optGet responseData "error") "message")
            (JStr ("API request failed with status "
                   ++ statusString (status response))) in
    lift (throwError errorMsg)
  else
    let text :=
      JS.or (JS.optGet (JS.optFirst (JS.optGet responseData "content"))
                       "text")
            (JStr EmptyString) in
    match text with
    | JStr s => ret s
    | _ => lift (typeError (NotAFunction "text.substring"))
    end.

(** [callGemini]: one [fetch]; the first candidate's first text part is
    returned as it was parsed, whatever its type. *)
Definition callGemini (apiKey prompt : string) (imageBase64 : option string)
  : M JSValue :=
  let parts := geminiParts prompt imageBase64 in
  response <- request (GeminiFetch apiKey parts) (fetch env apiKey parts) ;;
  if negb (ok response) then
    error <- lift (json response) ;;
    inner <- lift (getR error "error") ;;
    lift (throwError (JS.or (JS.optGet inner "message")
                            (JStr "Gemini API request failed")))
  else
    result <- lift (json response) ;;
    candidates <- lift (getR result "candidates") ;;
    ret (JS.or
           (JS.optGet
              (JS.optFirst
                 (JS.optGet
                    (JS.optGet (JS.optFirst candidates) "content")
                    "parts"))
              "text")
           (JStr EmptyString)).

Local Close Scope effect_scope.
Local Open Scope result_scope.

(** [extractJSON(response)] on the backup reply: [response.trim] exists on
    strings only. *)
Definition extractJSONOf (response : JSValue) : Result string :=
  match response with
  | JStr s => Ok (extractJSON s)
  | JUndefined | JNull => typeError (ReadOfNullish "trim")
  | _ => typeError (NotAFunction "response.trim")
  end.

(** ** Array callbacks *)

Fixpoint filterR {A} (f : A -> Result bool) (l : list A) : Result (list A) :=
  match l with
  | [] => Ok []
  | x :: l' =>
      b <- f x ;;
      rest <- filterR f l' ;;
      Ok (if b then x :: rest else rest)
  end.

Fixpoint mapR {A B} (f : A -> Result B) (l : list A) : Result (list B) :=
  match l with
  | [] => Ok []
  | x :: l' =>
      y <- f x ;;
      rest <- mapR f l' ;;
      Ok (y :: rest)
  end.

(** [x.filter(f)]: the elements when [x] is an array. *)
Definition elementsOf (callee : string) (x : JSValue)
  : Result (list JSValue) :=
  match x with
  | JArr elems _ => Ok elems
  | JUndefined | JNull => typeError (ReadOfNullish "filter")
  | _ => typeError (NotAFunction callee)
  end.

(** ** Timesheet entries *)

(** [e => e.date && e.hours] *)
Definition keepEntry (e : JSValue) : Result bool :=
  date <- getR e "date" ;;
  if JS.truthy date then
    hours <- getR e "hours" ;;
    Ok (JS.truthy hours)
  else Ok false.

(** [Number(e.hours) || 8] *)
Definition hoursOf (hours : JSValue) : Result number :=
  n <- toNumber hours ;;
  Ok (if truthyNumber n then n else ofZ 8).

(** [e.earnings ? Number(e.earnings) : undefined] *)
Definition earningsOf (earnings : JSValue) : Result JSValue :=
  if JS.truthy earnings then
    n <- toNumber earnings ;;
    Ok (JNum n)
  else Ok JUndefined.

(** The object literal of the [map] callback: the spread of [e], then the
    five rewritten properties in source order. *)
Definition normalizeEntry (e : JSValue) : Result JSValue :=
  date <- getR e "date" ;;
  date <- normalizeDate date ;;
  shift_type <- getR e "shift_type" ;;
  shift <- normalizeShiftType shift_type ;;
  hours <- getR e "hours" ;;
  hours <- hoursOf hours ;;
  job_name <- getR e "job_name" ;;
  earnings <- getR e "earnings" ;;
  earnings <- earningsOf earnings ;;
  Ok (JObj
        (JS.assign "earnings" earnings
           (JS.assign "job_name" (JS.or job_name (JStr "Imported"))
              (JS.assign "hours" (JNum hours)
                 (JS.assign "shift_type" (JStr (shiftName shift))
                    (JS.assign "date" date
                       (JS.spread e))))))).

(** [entries.filter(...).map(...)] *)
Definition validEntries (entries : JSValue) : Result (list JSValue) :=
  elems <- elementsOf "entries.filter" entries ;;
  kept <- filterR keepEntry elems ;;
  mapR normalizeEntry kept.

(** The part of both paths of [parseTimesheetWithAI] that follows the
    provider call. *)
Definition timesheetOfJSON (jsonStr : string) : Result AIResponse :=
  entries <- JSON_parse env jsonStr ;;
  valid <- validEntries entries ;;
  Ok (AISuccess (JArr valid [])).

(** ** Paystub *)

(** The two in-place repairs of the parsed paystub. *)
Definition normalizePaystub (data : JSValue) : Result JSValue :=
  total_hours <- getR data "total_hours" ;;
  hours_worked <- getR data "hours_worked" ;;
  data <- (if JS.truthy total_hours && negb (JS.truthy hours_worked)
           then setR data "hours_worked" total_hours
           else Ok data) ;;
  line_items <- getR data "line_items" ;;
  if JS.isArray line_items then Ok data
  else setR data "line_items" (JArr [] []).

(** [data.gross_pay || data.net_pay || data.line_items.length > 0] *)
Definition hasPayData (data : JSValue) : Result bool :=
  gross_pay <- getR data "gross_pay" ;;
  if JS.truthy gross_pay then Ok true
  else
    net_pay <- getR data "net_pay" ;;
    if JS.truthy net_pay then Ok true
    else
      line_items <- getR data "line_items" ;;
      match JS.lengthPositive line_items with
      | Some b => Ok b
      | None =>
          match line_items with
          | JUndefined | JNull => typeError (ReadOfNullish "length")
          | _ => typeError NoPrimitiveValue
          end
      end.

Definition noPayData (response : string) : string :=
  "No pay data found. Claude returned: " ++ substring2 response 0 200.

(** What [parsePaystubWithClaude] does with the parsed [data]. *)
Definition paystubOfData (response : string) (data : JSValue)
  : Result AIResponse :=
  data <- normalizePaystub data ;;
  found <- hasPayData data ;;
  Ok (if found then AISuccess data else AIFailure (noPayData response)).

(** ** Statutory holidays *)

(** [h.name && h.date && h.qualification_start && h.qualification_end] *)
Definition keepHoliday (h : JSValue) : Result bool :=
  name <- getR h "name" ;;
  if JS.truthy name then
    date <- getR h "date" ;;
    if JS.truthy date then
      qualification_start <- getR h "qualification_start" ;;
      if JS.truthy qualification_start then
        qualification_end <- getR h "qualification_end" ;;
        Ok (JS.truthy qualification_end)
      else Ok false
    else Ok false
  else Ok false.

(** What both paths of [parseStatScheduleWithAI] do with the parsed
    [data]. *)
Definition statScheduleOfData (data : JSValue) : Result StatScheduleResponse :=
  error <- getR data "error" ;;
  if JS.truthy error then Ok (StatFailure error)
  else
    year <- getR data "year" ;;
    holidays <- getR data "holidays" ;;
    if negb (JS.truthy year) || negb (JS.truthy holidays)
       || negb (JS.isArray holidays)
    then Ok (StatFailure (JStr "Invalid data format"))
    else
      elems <- elementsOf "data.holidays.filter" holidays ;;
      validHolidays <- filterR keepHoliday elems ;;
      match validHolidays with
      | [] => Ok (StatFailure (JStr "No valid holidays found"))
      | _ => Ok (StatSuccess year validHolidays)
      end.

Local Close Scope result_scope.
Local Open Scope effect_scope.

(** ** Public operations *)

(** The [try] block of [parsePaystubWithClaude]. *)
Definition paystubPrimary (apiKey imageBase64 : string) : M AIResponse :=
  response <- callClaude apiKey paystubPrompt (Some imageBase64) ;;
  let jsonStr := firstObject (extractJSON response) in
  data <- lift (JSON_parse env jsonStr) ;;
  lift (paystubOfData response data).

Definition parsePaystubWithClaude (apiKey imageBase64 : string)
  : M AIResponse :=
  tryCatch (paystubPrimary apiKey imageBase64)
           (fun error =>
              ret (AIFailure (messageOr error "Failed to parse paystub"))).

(** [getGeminiApiKey()], called without a user key. *)
Definition getGeminiApiKey (userKey : option string) : string :=
  match userKey with
  | Some k => if String.eqb k EmptyString then ENV_GEMINI_KEY env else k
  | None => ENV_GEMINI_KEY env
  end.

(** [if (!geminiKey) throw new Error('No Gemini API key available')] *)
Definition requireGeminiKey : M string :=
  let geminiKey := getGeminiApiKey None in
  if String.eqb geminiKey EmptyString
  then throw (ErrorInstance "No Gemini API key available")
  else ret geminiKey.

Definition timesheetPrompt (content : option string) : string :=
  timesheetPromptHead
  ++ match content with
     | Some c =>
         if String.eqb c EmptyString then EmptyString
         else String "010"%char "Text content to parse:"
              ++ String "010"%char c
     | None => EmptyString
     end.

(** The outer [try] block of [parseTimesheetWithAI]. *)
Definition timesheetPrimary (apiKey : string) (content imageBase64 : option string)
  : M AIResponse :=
  response <- callClaude apiKey (timesheetPrompt content) imageBase64 ;;
  lift (timesheetOfJSON (extractJSON response)).

(** The inner [try] block. *)
Definition timesheetBackup (content imageBase64 : option string)
  : M AIResponse :=
  geminiKey <- requireGeminiKey ;;
  response <- callGemini geminiKey (timesheetPrompt content) imageBase64 ;;
  jsonStr <- lift (extractJSONOf response) ;;
  lift (timesheetOfJSON jsonStr).

Definition parseTimesheetWithAI (apiKey : string)
  (content imageBase64 : option string) : M AIResponse :=
  tryCatch (timesheetPrimary apiKey content imageBase64)
    (fun error =>
       tryCatch (timesheetBackup content imageBase64)
         (fun geminiError =>
            ret (AIFailure (messageOr error "Failed to parse timesheet")))).

Definition statScheduleOfJSON (jsonStr : string)
  : Result StatScheduleResponse :=
  rbind (JSON_parse env (firstObject jsonStr)) statScheduleOfData.

(** The outer [try] block of [parseStatScheduleWithAI]. *)
Definition statSchedulePrimary (apiKey imageBase64 : string)
  : M StatScheduleResponse :=
  response <- callClaude apiKey statSchedulePrompt (Some imageBase64) ;;
  lift (statScheduleOfJSON (extractJSON response)).

(** The inner [try] block. *)
Definition statScheduleBackup (imageBase64 : string)
  : M StatScheduleResponse :=
  geminiKey <- requireGeminiKey ;;
  response <- callGemini geminiKey statSchedulePrompt (Some imageBase64) ;;
  jsonStr <- lift (extractJSONOf response) ;;
  lift (statScheduleOfJSON jsonStr).

Definition parseStatScheduleWithAI (apiKey imageBase64 : string)
  : M StatScheduleResponse :=
  tryCatch (statSchedulePrimary apiKey imageBase64)
    (fun error =>
       tryCatch (statScheduleBackup imageBase64)
         (fun geminiError =>
            ret (StatFailure
                   (JStr (messageOr error "Failed to parse stat schedule"))))).

(** [testApiConnection] *)
Definition testApiConnection (apiKey : string) : M bool :=
  tryCatch (_ <- callClaude apiKey
                   ("Reply with just the word " ++ dq ++ "OK" ++ dq) None ;;
            ret true)
           (fun _ => ret false).

Local Close Scope effect_scope.

End Pipeline.

(* ================================================================== *)
(** * Specifications *)
(* ================================================================== *)

(** [u] occurs in [s], in any letter case when [u] is lower case. *)
Definition occursIgnoringCase (s u : string) : Prop :=
  exists a w b, s = a ++ w ++ b /\ toLowerCase w = u.

(** A semicolon followed, later, by a comma: the order of a data URL. *)
Definition semicolonThenComma (s : string) : bool :=
  let i := indexOf s ";" in
  (0 <=? i) && includes (substring1 s (i + 1)) ",".

(** The entries the [filter] keeps: date and hours both truthy. *)
Definition hasDateAndHours (e : JSValue) : bool :=
  JS.truthy (JS.optGet e "date") && JS.truthy (JS.optGet e "hours").

(** A JSON number, boolean or [null], or a missing property: the values
    whose truthiness already says whether they are a non-zero number. *)
Definition numericOrAbsent (v : JSValue) : bool :=
  match v with
  | JUndefined | JNull | JBool _ | JNum _ => true
  | _ => false
  end.

Definition isZeroValue (v : JSValue) : bool :=
  match v with JNum n => isZero n | _ => false end.

(** An entry that the callbacks of [validEntries] accept without a
    [TypeError]: not [null] and, when it is kept, with a shift type that
    is a string or falsy, and with a date, hours and truthy earnings that
    have a primitive. *)
Definition entryShape (e : JSValue) : bool :=
  match e with
  | JUndefined | JNull => false
  | _ =>
      negb (hasDateAndHours e)
      || (match JS.or (JS.optGet e "shift_type") (JStr EmptyString) with
          | JStr _ => true
          | _ => false
          end
          && negb (JS.toPrimitiveThrows (JS.optGet e "date"))
          && negb (JS.toPrimitiveThrows (JS.optGet e "hours"))
          && negb (JS.truthy (JS.optGet e "earnings")
                   && JS.toPrimitiveThrows (JS.optGet e "earnings")))
  end.

Definition notNullish (v : JSValue) : bool :=
  match v with JUndefined | JNull => false | _ => true end.

(** What a returned timesheet entry [o] owes to the parsed entry [e] it
    comes from: the normalised date, still truthy, and the hours as a
    number that is neither zero nor [NaN], 8 standing in when the coercion
    gives either. *)
Definition entryNormalized (env : Env) (e o : JSValue) : Prop :=
  normalizeDate env (JS.optGet e "date") = Ok (JS.optGet o "date")
  /\ JS.truthy (JS.optGet o "date") = true
  /\ exists coerced n : number,
       JS.ToNumber (JS.optGet e "hours") = Some coerced
       /\ JS.optGet o "hours" = JNum n
       /\ truthyNumber n = true
       /\ n = (if truthyNumber coerced then coerced else ofZ 8).

(** The earnings of a returned entry: [undefined] for a falsy source, the
    coerced number otherwise, and never zero when the source is a JSON
    number, a boolean, [null] or missing. *)
Definition earningsForwarded (e o : JSValue) : Prop :=
  (if JS.truthy (JS.optGet e "earnings")
   then exists n, JS.ToNumber (JS.optGet e "earnings") = Some n
                  /\ JS.optGet o "earnings" = JNum n
   else JS.optGet o "earnings" = JUndefined)
  /\ (numericOrAbsent (JS.optGet e "earnings") = true ->
      isZeroValue (JS.optGet o "earnings") = false).

(** The paystub success criterion in the spec's words: a gross pay, a net
    pay or a non-empty list of line items. *)
Definition payPresent (data : JSValue) : bool :=
  JS.truthy (JS.optGet data "gross_pay")
  || JS.truthy (JS.optGet data "net_pay")
  || match JS.optGet data "line_items" with
     | JArr (_ :: _) _ => true
     | _ => false
     end.

(** A holiday with its four required fields. *)
Definition holidayComplete (h : JSValue) : bool :=
  JS.truthy (JS.optGet h "name") && JS.truthy (JS.optGet h "date")
  && JS.truthy (JS.optGet h "qualification_start")
  && JS.truthy (JS.optGet h "qualification_end").

Definition holidaysOf (data : JSValue) : list JSValue :=
  match JS.optGet data "holidays" with
  | JArr elems _ => elems
  | _ => []
  end.

(** The stat-schedule outcome in the spec's words. *)
Definition statScheduleSpec (data : JSValue) : StatScheduleResponse :=
  if JS.truthy (JS.optGet data "error")
  then StatFailure (JS.optGet data "error")
  else if negb (JS.truthy (JS.optGet data "year")
                && JS.isArray (JS.optGet data "holidays"))
  then StatFailure (JStr "Invalid data format")
  else match filter holidayComplete (holidaysOf data) with
       | [] => StatFailure (JStr "No valid holidays found")
       | valid => StatSuccess (JS.optGet data "year") valid
       end.


(* ================================================================== *)
(** * Sample environments *)
(* ================================================================== *)

Module Sample.

(** The wording V8 gives its [TypeError]s. *)
Definition typeErrorText (site : TypeErrorSite) : string :=
  match site with
  | ReadOfNullish p => "Cannot read properties of null (reading '" ++ p ++ "')"
  | NotAFunction c => c ++ " is not a function"
  | WriteOnPrimitive p => "Cannot create property '" ++ p ++ "'"
  | NoPrimitiveValue => "Cannot convert object to primitive value"
  end.

Definition twoDigits (a b : ascii) : option Z :=
  match digitOf 10 a, digitOf 10 b with
  | Some x, Some y => Some (10 * x + y)
  | _, _ => None
  end.

Definition daysInMonth (y m : Z) : Z :=
  if m =? 2 then
    if ((y mod 4 =? 0) && negb (y mod 100 =? 0)) || (y mod 400 =? 0)
    then 29 else 28
  else if (m =? 4) || (m =? 6) || (m =? 9) || (m =? 11) then 30 else 31.

(** The date-only ISO form [YYYY-MM-DD], read as UTC midnight. *)
Definition parseISODate (s : string) : option Z :=
  match s with
  | String a (String b (String c (String d (String "-"
      (String e (String f (String "-" (String g (String h EmptyString))))))))) =>
      match twoDigits a b, twoDigits c d, twoDigits e f, twoDigits g h with
      | Some hi, Some lo, Some m, Some dd =>
          let y := 100 * hi + lo in
          if (1 <=? m) && (m <=? 12) && (1 <=? dd) && (dd <=? daysInMonth y m)
          then Some (daysFromCivil y m dd * msPerDay)
          else None
      | _, _, _, _ => None
      end
  | _ => None
  end.

(** The integer part of a finite number. *)
Definition toInteger (n : number) : option Z :=
  match n with
  | S754_zero _ => Some 0
  | S754_finite s m e =>
      let v := if 0 <=? e then Zpos m * 2 ^ e else Zpos m / 2 ^ (- e) in
      Some (if s then - v else v)
  | _ => None
  end.

(** [new Date(v)] of an engine that reads numbers, booleans, [null] and
    date-only ISO strings; engines accept further string formats. *)
Definition dateOf (v : JSValue) : option Z :=
  match v with
  | JStr s => parseISODate s
  | JNum n =>
      match toInteger n with
      | Some t => if Z.abs t <=? 8640000000000000 then Some t else None
      | None => None
      end
  | JBool b => Some (if b then 1 else 0)
  | JNull => Some 0
  | _ => None
  end.

(** [String(v)] for the values the sample replies carry in an error
    message; whatever else prints as an object does. *)
Definition stringOf (v : JSValue) : string :=
  match v with
  | JUndefined => "undefined"
  | JNull => "null"
  | JBool b => if b then "true" else "false"
  | JStr s => s
  | JNum n =>
      match n with
      | S754_nan => "NaN"
      | S754_infinity s => if s then "-Infinity" else "Infinity"
      | S754_zero _ => "0"
      | _ => match toInteger n with
             | Some z => NilZero.string_of_int (Z.to_int z)
             | None => "NaN"
             end
      end
  | JArr [] _ => EmptyString
  | _ => "[object Object]"
  end.

(** An environment is fixed by the backup key, the outcome of the two
    endpoints and the one text [JSON.parse] accepts, with its value. *)
Definition world (backupKey : string) (primary : Result HttpResponse)
  (backup : Result FetchResponse) (json : string) (parsed : JSValue) : Env :=
  {| ENV_GEMINI_KEY := backupKey;
     CapacitorHttp_post := fun _ _ => primary;
     fetch := fun _ _ => backup;
     JSON_parse := fun s =>
       if String.eqb s json then Ok parsed
       else Throw (ErrorInstance "Unexpected token in JSON");
     Date_new := dateOf;
     String_of := stringOf;
     typeErrorMessage := typeErrorText |}.

(** The body of a successful reply of the primary provider. *)
Definition claudeReply (text : string) : Result HttpResponse :=
  Ok {| status := 200;
        responseData :=
          JObj [("content",
                 JArr [JObj [("type", JStr "text"); ("text", JStr text)]] [])]
     |}.

(** A successful reply of the backup provider. *)
Definition geminiReply (text : string) : Result FetchResponse :=
  Ok {| ok := true;
        json := Ok (JObj [("candidates",
                  JArr [JObj [("content",
                    JObj [("parts", JArr [JObj [("text", JStr text)]] [])])]]
                       [])]) |}.

Definition networkDown : Result HttpResponse :=
  Throw (ErrorInstance "Network request failed").

Definition fetchFailed : Result FetchResponse :=
  Throw (ErrorInstance "Failed to fetch").

(** A quoted JSON string or key. *)
Definition q (s : string) : string := dq ++ s ++ dq.

(** No connectivity, with and without a backup key. *)
Definition offline (backupKey : string) : Env :=
  world backupKey networkDown fetchFailed EmptyString JNull.

(** The primary provider answers [json], which parses to [parsed]; no
    backup key is configured. *)
Definition answering (json : string) (parsed : JSValue) : Env :=
  world EmptyString (claudeReply json) fetchFailed json parsed.


Definition jpegScan : string := "data:image/jpeg;base64,/9j/4AAQSkZJRg==".

(** [[{"date":"2024-01-15","hours":-5}]] *)
Definition negativeHoursJSON : string :=
  "[{" ++ q "date" ++ ":" ++ q "2024-01-15" ++ "," ++ q "hours" ++ ":-5}]".

Definition negativeHours : JSValue :=
  JArr [JObj [("date", JStr "2024-01-15"); ("hours", JNum (ofZ (-5)))]] [].

(** [[{"date":"2024-01-15","hours":8,"earnings":"0"}]] *)
Definition zeroEarningsJSON : string :=
  "[{" ++ q "date" ++ ":" ++ q "2024-01-15" ++ "," ++ q "hours" ++ ":8,"
  ++ q "earnings" ++ ":" ++ q "0" ++ "}]".

Definition zeroEarnings : JSValue :=
  JArr [JObj [("date", JStr "2024-01-15"); ("hours", JNum (ofZ 8));
              ("earnings", JStr "0")]] [].

(** The third scenario of the spec:
    one entry dated 2024-01-15 with the shift type [Night Shift], the
    hours given as the string [8] and an empty job name *)
Definition nightShiftJSON : string :=
  "[{" ++ q "date" ++ ":" ++ q "2024-01-15" ++ "," ++ q "shift_type" ++ ":"
  ++ q "Night Shift" ++ "," ++ q "hours" ++ ":" ++ q "8" ++ ","
  ++ q "job_name" ++ ":" ++ q EmptyString ++ "}]".

Definition nightShift : JSValue :=
  JArr [JObj [("date", JStr "2024-01-15"); ("shift_type", JStr "Night Shift");
              ("hours", JStr "8"); ("job_name", JStr EmptyString)]] [].

(** [{"year":2026,"holidays":[null]}] *)
Definition nullHolidayJSON : string :=
  "{" ++ q "year" ++ ":2026," ++ q "holidays" ++ ":[null]}".

Definition nullHoliday : JSValue :=
  JObj [("year", JNum (ofZ 2026)); ("holidays", JArr [JNull] [])].

(** [{"error":42}] *)
Definition numericErrorJSON : string := "{" ++ q "error" ++ ":42}".

Definition numericError : JSValue := JObj [("error", JNum (ofZ 42))].

(** [{"error":"not_stat_schedule"}] *)
Definition notScheduleJSON : string :=
  "{" ++ q "error" ++ ":" ++ q "not_stat_schedule" ++ "}".

Definition notSchedule : JSValue := JObj [("error", JStr "not_stat_schedule")].

(** The Canada Day scenario of the spec. *)
Definition canadaDayJSON : string :=
  "{" ++ q "year" ++ ":2026," ++ q "holidays" ++ ":[{" ++ q "name" ++ ":"
  ++ q "Canada Day" ++ "," ++ q "date" ++ ":" ++ q "2026-07-01" ++ ","
  ++ q "qualification_start" ++ ":" ++ q "2026-05-04" ++ ","
  ++ q "qualification_end" ++ ":" ++ q "2026-06-02" ++ "}]}".

Definition canadaDay : JSValue :=
  JObj [("name", JStr "Canada Day"); ("date", JStr "2026-07-01");
        ("qualification_start", JStr "2026-05-04");
        ("qualification_end", JStr "2026-06-02")].

Definition canadaDaySchedule : JSValue :=
  JObj [("year", JNum (ofZ 2026)); ("holidays", JArr [canadaDay] [])].

(** [{"line_items":[],"gross_pay":1234.5,"net_pay":null}] *)
Definition grossOnlyJSON : string :=
  "{" ++ q "line_items" ++ ":[]," ++ q "gross_pay" ++ ":1234.5,"
  ++ q "net_pay" ++ ":null}".

Definition grossOnly : JSValue :=
  JObj [("line_items", JArr [] []);
        ("gross_pay", JNum (StringToNumber "1234.5")); ("net_pay", JNull)].

(** [{"line_items":[],"gross_pay":0,"net_pay":0}], the totals of the
    prompt's template left as they are *)
Definition noPayJSON : string :=
  "{" ++ q "line_items" ++ ":[]," ++ q "gross_pay" ++ ":0," ++ q "net_pay"
  ++ ":0}".

Definition noPay : JSValue :=
  JObj [("line_items", JArr [] []); ("gross_pay", JNum posZero);
        ("net_pay", JNum posZero)].

(** A reply wrapped in a markdown fence. *)
Definition fenced (json : string) : string :=
  "```json" ++ String "010"%char json ++ String "010"%char "```".

(** The primary provider answers [json] inside a fence. *)
Definition answeringFenced (json : string) (parsed : JSValue) : Env :=
  world EmptyString (claudeReply (fenced json)) fetchFailed json parsed.

End Sample.

(* ================================================================== *)
(** * Further specifications *)
(* ================================================================== *)

(** An attachment the primary provider accepts: a PDF document, or an
    image of one of its four types. *)
Definition acceptedByClaude (part : ContentPart) : bool :=
  match part with
  | DocumentPart media_type _ => String.eqb media_type "application/pdf"
  | ImagePart media_type _ =>
      existsb (String.eqb media_type)
              ["image/jpeg"; "image/png"; "image/gif"; "image/webp"]
  | TextPart _ => false
  end.

Definition partData (part : ContentPart) : string :=
  match part with
  | DocumentPart _ data => data
  | ImagePart _ data => data
  | TextPart text => text
  end.

(** The text of a reply of the primary provider:
    [responseData?.content?.[0]?.text]. *)
Definition claudeText (responseData : JSValue) : JSValue :=
  JS.optGet (JS.optFirst (JS.optGet responseData "content")) "text".

(** The message of an error reply: [body?.error?.message]. *)
Definition providerMessage (body : JSValue) : JSValue :=
  JS.optGet (JS.optGet body "error") "message".


Definition isString (v : JSValue) : bool :=
  match v with JStr _ => true | _ => false end.

(** The body [callClaude] reads from a response: the response data
    itself, or what it parses to when it arrives as a string. *)
Definition bodyRead (env : Env) (response : HttpResponse) (body : JSValue)
  : Prop :=
  match responseData response with
  | JStr text => JSON_parse env text = Ok body
  | v => body = v
  end.

(** The prompt of the connectivity probes. *)
Definition probePrompt : string :=
  "Reply with just the word " ++ dq ++ "OK" ++ dq.

(** What a returned timesheet entry [o] holds besides its date, hours and
    earnings: a shift type that is one of the three names, and the job
    name of the parsed entry [e], or the placeholder when that is falsy. *)
Definition entryDefaults (e o : JSValue) : Prop :=
  (exists shift : ShiftType, JS.optGet o "shift_type" = JStr (shiftName shift))
  /\ JS.optGet o "job_name"
     = (if JS.truthy (JS.optGet e "job_name") then JS.optGet e "job_name"
        else JStr "Imported")
  /\ JS.truthy (JS.optGet o "job_name") = true.

(** The properties the [map] callback rewrites. *)
Definition rewrittenKeys : list string :=
  ["date"; "shift_type"; "hours"; "job_name"; "earnings"].

(** Every other property of a parsed object [e] is found unchanged in the
    returned entry [o]. *)
Definition entryForwarded (e o : JSValue) : Prop :=
  forall (props : list (string * JSValue)) (k : string),
    e = JObj props -> ~ In k rewrittenKeys ->
    JS.optGet o k = JS.optGet e k.

(** All that a returned timesheet entry owes to the parsed entry. *)
Definition entryContract (env : Env) (e o : JSValue) : Prop :=
  entryNormalized env e o /\ earningsForwarded e o
  /\ entryDefaults e o /\ entryForwarded e o.

(** The calendar date of a time value, as [toISOString] prints it. *)
Definition isoDate (t : Z) : string :=
  let '(y, m, d) := civilFromDays (t / msPerDay) in
  yearString y ++ "-" ++ pad 2 m ++ "-" ++ pad 2 d.

(* ================================================================== *)
(** * [gemini.ts]: the older operations *)
(* ================================================================== *)

(** The module [src/lib/utils/gemini.ts] that [ai.ts] replaced. It decodes
    a data URL with a regular expression, talks to one provider per
    operation and has no fallback. The prompts of the timesheet and of the
    stat-schedule operation, [normalizeDate], [normalizeShiftType], the
    callbacks of [filter] and [map] and the checks on the parsed schedule
    are those of [ai.ts], character for character, and are shared. *)
Module Legacy.

Definition paystubPrompt : string :=
  "You are a JSON data extractor. Extract pay information from this paystub image and return ONLY a JSON object.

Extract these values as numbers (no currency symbols, just the number):
- gross_pay: Total earnings before deductions
- net_pay: Take-home pay after deductions
- hours_worked: Total hours worked
- federal_tax: Federal/income tax deducted
- provincial_tax: Provincial/state tax deducted
- cpp: Canada Pension Plan contribution
- ei: Employment Insurance contribution
- union_dues: Union dues deducted
- pension_contribution: Pension/retirement contribution
- pay_period_start: Start date as " ++ dq ++ "YYYY-MM-DD" ++ dq ++ "
- pay_period_end: End date as " ++ dq ++ "YYYY-MM-DD" ++ dq ++ "

Respond with ONLY this JSON structure, nothing else:
{" ++ dq ++ "gross_pay" ++ dq ++ ":0," ++ dq ++ "net_pay" ++ dq ++ ":0," ++ dq ++ "hours_worked" ++ dq ++ ":0," ++ dq ++ "federal_tax" ++ dq ++ ":null," ++ dq ++ "provincial_tax" ++ dq ++ ":null," ++ dq ++ "cpp" ++ dq ++ ":null," ++ dq ++ "ei" ++ dq ++ ":null," ++ dq ++ "union_dues" ++ dq ++ ":null," ++ dq ++ "pension_contribution" ++ dq ++ ":null," ++ dq ++ "pay_period_start" ++ dq ++ ":null," ++ dq ++ "pay_period_end" ++ dq ++ ":null}

Replace 0 with actual values found. Use null for fields not found. NO explanations, NO markdown, ONLY the JSON object.".

(** The code units below 256 that the pattern [.] refuses: LF and CR. *)
Definition isLineTerminator (c : ascii) : bool :=
  Ascii.eqb c "010" || Ascii.eqb c "013".

Fixpoint hasLineTerminator (s : string) : bool :=
  match s with
  | EmptyString => false
  | String c s' => isLineTerminator c || hasLineTerminator s'
  end.

(** [(.+);base64,(.+)$] on a string free of line terminators: the first
    group is greedy, so it ends at the last [;base64,] that still leaves
    one code unit to the second group. *)
Fixpoint splitBase64 (r : string) : option (string * string) :=
  match r with
  | EmptyString => None
  | String c r' =>
      match splitBase64 r' with
      | Some (mime, payload) => Some (String c mime, payload)
      | None =>
          if startsWith r' ";base64," && (8 <? len r')
          then Some (String c EmptyString, substring1 r' 8)
          else None
      end
  end.

(** [imageBase64.match(/^data:(.+);base64,(.+)$/)]: the two groups of
    the match, [None] for [null]. *)
Definition matchDataURL (imageBase64 : string) : option (string * string) :=
  if startsWith imageBase64 "data:" then
    let r := substring1 imageBase64 5 in
    if hasLineTerminator r then None else splitBase64 r
  else None.

(** The [content] array of the older [callClaude]. *)
Definition claudeContent (prompt : string) (imageBase64 : option string)
  : list ContentPart :=
  (match imageBase64 with
   | Some img =>
       if String.eqb img EmptyString then []
       else match matchDataURL img with
            | Some (mediaType, data) =>
                let mediaType :=
                  if String.eqb mediaType "image/jpg" then "image/jpeg"
                  else mediaType in
                if String.eqb mediaType "application/pdf"
                then [DocumentPart "application/pdf" data]
                else if existsb (String.eqb mediaType)
                          ["image/jpeg"; "image/png"; "image/gif";
                           "image/webp"]
                then [ImagePart mediaType data]
                else [ImagePart "image/jpeg" data]
            | None => []
            end
   | None => []
   end ++ [TextPart prompt])%list.

(** The [parts] array of the older [callGemini]: the media type goes out
    as it was matched. *)
Definition geminiParts (prompt : string) (imageBase64 : option string)
  : list GeminiPart :=
  (match imageBase64 with
   | Some img =>
       if String.eqb img EmptyString then []
       else match matchDataURL img with
            | Some (mime_type, data) => [InlineData mime_type data]
            | None => []
            end
   | None => []
   end ++ [GeminiText prompt])%list.

(** The fence stripping written out in [parseTimesheetWithGemini] and in
    [parseStatScheduleWithGemini]: the second test is a separate [if]. *)
Definition stripFences (response : string) : string :=
  let jsonStr := trim response in
  let jsonStr :=
    if startsWith jsonStr "```json" then slice1 jsonStr 7 else jsonStr in
  let jsonStr :=
    if startsWith jsonStr "```" then slice1 jsonStr 3 else jsonStr in
  let jsonStr :=
    if endsWith jsonStr "```" then slice2 jsonStr 0 (-3) else jsonStr in
  trim jsonStr.

(** [[^{}]*\}] at the head of [s]: the run of code units that are not
    braces, when a closing brace ends it. *)
Fixpoint closedRun (s : string) : option string :=
  match s with
  | EmptyString => None
  | String c s' =>
      if Ascii.eqb c "}" then Some EmptyString
      else if Ascii.eqb c "{" then None
      else option_map (String c) (closedRun s')
  end.

(** [jsonStr.match(/\{[^{}]*\}/)]: the leftmost opening brace whose next
    brace is a closing one, with what lies between them. *)
Fixpoint matchFlatObject (s : string) : option string :=
  match s with
  | EmptyString => None
  | String c s' =>
      if Ascii.eqb c "{" then
        match closedRun s' with
        | Some run => Some ("{" ++ run ++ "}")
        | None => matchFlatObject s'
        end
      else matchFlatObject s'
  end.

(** The match and the rebinding that follows it. *)
Definition flatObject (jsonStr : string) : string :=
  match matchFlatObject jsonStr with
  | Some m => m
  | None => jsonStr
  end.

Section Operations.

Context (env : Env).

Local Open Scope effect_scope.

(** The older [callClaude]: the body of the reply is read as it comes, a
    string body is not parsed. The request differs from the one of [ai.ts]
    by its model name, which the trace does not record. *)
Definition callClaude (apiKey prompt : string) (imageBase64 : option string)
  : M string :=
  let content := claudeContent prompt imageBase64 in
  response <- request (AnthropicPost apiKey content)
                      (CapacitorHttp_post env apiKey content) ;;
  if negb (status response =? 200) then
    let errorMsg :=
      JS.or (JS.optGet (JS.optGet (responseData response) "error") "message")
            (JStr ("API request failed with status "
                   ++ statusString (status response))) in
    lift (throwError env errorMsg)
  else
    let text :=
      JS.or (JS.optGet (JS.optFirst (JS.optGet (responseData response)
                                               "content"))
                       "text")
            (JStr EmptyString) in
    match text with
    | JStr s => ret s
    | _ => lift (typeError env (NotAFunction "text.substring"))
    end.

(** The older [callGemini]: the request and the decoding of the reply are
    those of [ai.ts]. *)
Definition callGemini (apiKey prompt : string) (imageBase64 : option string)
  : M JSValue :=
  let parts := geminiParts prompt imageBase64 in
  response <- request (GeminiFetch apiKey parts) (fetch env apiKey parts) ;;
  if negb (ok response) then
    error <- lift (json response) ;;
    inner <- lift (getR env error "error") ;;
    lift (throwError env (JS.or (JS.optGet inner "message")
                                (JStr "Gemini API request failed")))
  else
    result <- lift (json response) ;;
    candidates <- lift (getR env result "candidates") ;;
    ret (JS.or
           (JS.optGet
              (JS.optFirst
                 (JS.optGet
                    (JS.optGet (JS.optFirst candidates) "content")
                    "parts"))
              "text")
           (JStr EmptyString)).

(** [response.trim()] and what follows: [trim] exists on strings only. *)
Definition stripFencesOf (response : JSValue) : Result string :=
  match response with
  | JStr s => Ok (stripFences s)
  | JUndefined | JNull => typeError env (ReadOfNullish "trim")
  | _ => typeError env (NotAFunction "response.trim")
  end.

Definition parseTimesheetWithGemini (apiKey : string)
  (content imageBase64 : option string) : M AIResponse :=
  tryCatch
    (response <- callGemini apiKey (timesheetPrompt content) imageBase64 ;;
     jsonStr <- lift (stripFencesOf response) ;;
     lift (timesheetOfJSON env jsonStr))
    (fun error =>
       ret (AIFailure (messageOr error "Failed to parse timesheet"))).

Local Close Scope effect_scope.
Local Open Scope result_scope.

(** [data.gross_pay || data.net_pay || data.hours_worked] *)
Definition hasPayData (data : JSValue) : Result bool :=
  gross_pay <- getR env data "gross_pay" ;;
  if JS.truthy gross_pay then Ok true
  else
    net_pay <- getR env data "net_pay" ;;
    if JS.truthy net_pay then Ok true
    else
      hours_worked <- getR env data "hours_worked" ;;
      Ok (JS.truthy hours_worked).

Local Close Scope result_scope.
Local Open Scope effect_scope.

(** The older [parsePaystubWithClaude]; its fence stripping is, statement
    for statement, the body of [extractJSON]. The parsed data is returned
    as it is. *)
Definition parsePaystubWithClaude (apiKey imageBase64 : string)
  : M AIResponse :=
  tryCatch
    (response <- callClaude apiKey paystubPrompt (Some imageBase64) ;;
     let jsonStr := flatObject (extractJSON response) in
     data <- lift (JSON_parse env jsonStr) ;;
     found <- lift (hasPayData data) ;;
     ret (if found then AISuccess data
          else AIFailure ("No pay data found. Claude returned: "
                          ++ substring2 response 0 200)))
    (fun error =>
       ret (AIFailure (messageOr error "Failed to parse paystub"))).

(** [parsePaystubWithGemini] redirects. *)
Definition parsePaystubWithGemini (apiKey imageBase64 : string)
  : M AIResponse :=
  parsePaystubWithClaude apiKey imageBase64.

Definition testGeminiConnection (apiKey : string) : M bool :=
  tryCatch (_ <- callGemini apiKey
                   ("Reply with just the word " ++ dq ++ "OK" ++ dq) None ;;
            ret true)
           (fun _ => ret false).

Definition parseStatScheduleWithGemini (apiKey imageBase64 : string)
  : M StatScheduleResponse :=
  tryCatch
    (response <- callGemini apiKey statSchedulePrompt (Some imageBase64) ;;
     jsonStr <- lift (stripFencesOf response) ;;
     lift (statScheduleOfJSON env jsonStr))
    (fun error =>
       ret (StatFailure
              (JStr (messageOr error "Failed to parse stat schedule")))).

Local Close Scope effect_scope.

End Operations.

End Legacy.

(** [data.gross_pay || data.net_pay || data.hours_worked], read as the
    older paystub operation tests it. *)
Definition legacyPayPresent (data : JSValue) : bool :=
  JS.truthy (JS.optGet data "gross_pay")
  || JS.truthy (JS.optGet data "net_pay")
  || JS.truthy (JS.optGet data "hours_worked").

Definition braceFree (s : string) : bool :=
  negb (includes s "{") && negb (includes s "}").

(* ================================================================== *)
(** * The documents page: [extractDocumentData] *)
(* ================================================================== *)

(** The caller of [parsePaystubWithClaude] in the documents page
    (a Svelte component), with [getApiKey], which it reaches
    as [getAnthropicApiKey]. *)
Module DocumentsPage.

(** The page state the function reads and writes: the selected category,
    [$user?.anthropic_api_key] ([None] when the user or the key is
    missing) and the progress flag. *)
Record PageState := {
  docCategory : string;
  anthropic_api_key : option string;
  parsingWithAI : bool
}.

Definition setParsingWithAI (page : PageState) (b : bool) : PageState :=
  {| docCategory := docCategory page;
     anthropic_api_key := anthropic_api_key page;
     parsingWithAI := b |}.

(** The integer nearest to [m * 2 ^ e * 100], the larger one of two. *)
Definition nearestHundredths (m : positive) (e : Z) : Z :=
  if 0 <=? e then Zpos m * 2 ^ e * 100
  else (2 * (Zpos m * 100) + 2 ^ (- e)) / (2 * 2 ^ (- e)).

(** [10 ^ 21 <= m * 2 ^ e] *)
Definition atLeast1e21 (m : positive) (e : Z) : bool :=
  if 0 <=? e then 10 ^ 21 <=? Zpos m * 2 ^ e
  else 10 ^ 21 * 2 ^ (- e) <=? Zpos m.

(** The digits of [n] with a point before the last two. *)
Definition twoDecimals (n : Z) : string :=
  NilZero.string_of_int (Z.to_int (n / 100)) ++ "." ++ pad 2 (n mod 100).

Section Page.

Context (env : Env).

(** [import.meta.env.VITE_ANTHROPIC_API_KEY || ''] *)
Context (ENV_ANTHROPIC_KEY : string).

(** [getApiKey] of [ai.ts]. *)
Definition getApiKey (userKey : option string) : string :=
  match userKey with
  | Some k => if String.eqb k EmptyString then ENV_ANTHROPIC_KEY else k
  | None => ENV_ANTHROPIC_KEY
  end.

(** [x.toFixed(2)]: the engine's [String(x)] for a value that is not
    finite or reaches [10 ^ 21], the rounded hundredths otherwise, with
    the sign of [x] kept even when they round to zero. *)
Definition toFixed2 (x : number) : string :=
  match x with
  | S754_zero _ => "0.00"
  | S754_finite s m e =>
      if atLeast1e21 m e then String_of env (JNum x)
      else (if s then "-" else EmptyString)
           ++ twoDecimals (nearestHundredths m e)
  | _ => String_of env (JNum x)
  end.

Local Open Scope result_scope.

(** [if (paystubData.f) extracted[label] = `$${paystubData.f.toFixed(2)}`]:
    numbers alone have [toFixed]. *)
Definition moneyField (paystubData : JSValue) (field label : string)
  (extracted : list (string * JSValue)) : Result (list (string * JSValue)) :=
  v <- getR env paystubData field ;;
  if JS.truthy v then
    match v with
    | JNum x => Ok (JS.assign label (JStr ("$" ++ toFixed2 x)) extracted)
    | _ => typeError env (NotAFunction ("paystubData." ++ field ++ ".toFixed"))
    end
  else Ok extracted.

(** [if (paystubData.f) extracted[label] = paystubData.f] *)
Definition plainField (paystubData : JSValue) (field label : string)
  (extracted : list (string * JSValue)) : Result (list (string * JSValue)) :=
  v <- getR env paystubData field ;;
  Ok (if JS.truthy v then JS.assign label v extracted else extracted).

(** The display record built from a parsed paystub. *)
Definition displayRecord (paystubData : JSValue)
  : Result (list (string * JSValue)) :=
  extracted <- moneyField paystubData "gross_pay" "Gross Pay" [] ;;
  extracted <- moneyField paystubData "net_pay" "Net Pay" extracted ;;
  extracted <- moneyField paystubData "federal_tax" "Federal Tax" extracted ;;
  extracted <- moneyField paystubData "provincial_tax" "Provincial Tax"
                          extracted ;;
  extracted <- moneyField paystubData "cpp" "CPP" extracted ;;
  extracted <- moneyField paystubData "ei" "EI" extracted ;;
  extracted <- moneyField paystubData "union_dues" "Union Dues" extracted ;;
  extracted <- moneyField paystubData "pension_contribution" "Pension"
                          extracted ;;
  extracted <- plainField paystubData "hours_worked" "Hours Worked"
                          extracted ;;
  extracted <- plainField paystubData "pay_period_start" "Period Start"
                          extracted ;;
  plainField paystubData "pay_period_end" "Period End" extracted.

Local Close Scope result_scope.
Local Open Scope effect_scope.

(** [extractDocumentData]: the record and the page state it leaves. The
    flag is raised for the duration of the request and lowered by the
    [finally] block; the [catch] block only logs. *)
Definition extractDocumentData (page : PageState) (data mimeType : string)
  : M (list (string * JSValue) * PageState) :=
  if negb (String.eqb (docCategory page) "pay_stub") then ret ([], page)
  else
    let apiKey := getApiKey (anthropic_api_key page) in
    if String.eqb apiKey EmptyString then ret ([], page)
    else
      let page := setParsingWithAI page true in
      extracted <-
        tryCatch
          (result <- parsePaystubWithClaude env apiKey data ;;
           match result with
           | AISuccess paystubData =>
               if JS.truthy paystubData && negb (JS.isArray paystubData)
               then lift (displayRecord paystubData)
               else ret []
           | AIFailure _ => ret []
           end)
          (fun error => ret []) ;;
      ret (extracted, setParsingWithAI page false).

Local Close Scope effect_scope.

End Page.

End DocumentsPage.

(** How a field of the display record is rendered. *)
Inductive FieldKind : Type := Money | Plain.

(** The fields [extractDocumentData] shows, in source order: the kind, the
    property of the parsed paystub and the label. *)
Definition displayFields : list (FieldKind * string * string) :=
  [(Money, "gross_pay", "Gross Pay");
   (Money, "net_pay", "Net Pay");
   (Money, "federal_tax", "Federal Tax");
   (Money, "provincial_tax", "Provincial Tax");
   (Money, "cpp", "CPP");
   (Money, "ei", "EI");
   (Money, "union_dues", "Union Dues");
   (Money, "pension_contribution", "Pension");
   (Plain, "hours_worked", "Hours Worked");
   (Plain, "pay_period_start", "Period Start");
   (Plain, "pay_period_end", "Period End")].

(** The value shown for a truthy field: a dollar amount for a number, the
    value itself for a plain field; [None] where a money field is not a
    number. *)
Definition rendered (env : Env) (kind : FieldKind) (v : JSValue)
  : option JSValue :=
  match kind, v with
  | Money, JNum x => Some (JStr ("$" ++ DocumentsPage.toFixed2 env x))
  | Money, _ => None
  | Plain, _ => Some v
  end.

Definition displayEntry (env : Env) (d : JSValue)
  (field : FieldKind * string * string) : list (string * JSValue) :=
  let '(kind, name, label) := field in
  let v := JS.optGet d name in
  if JS.truthy v
  then match rendered env kind v with
       | Some r => [(label, r)]
       | None => []
       end
  else [].

(** A money field that is shown is a number. *)
Definition fieldOk (d : JSValue) (field : FieldKind * string * string)
  : bool :=
  let '(kind, name, _) := field in
  let v := JS.optGet d name in
  match kind, v with
  | Money, JNum _ => true
  | Money, _ => negb (JS.truthy v)
  | Plain, _ => true
  end.

Definition displayable (d : JSValue) : bool :=
  forallb (fieldOk d) displayFields.

(** The record of the page in one expression: the truthy fields of a
    successful, displayable result, in source order. *)
Definition displaySpec (env : Env) (result : AIResponse)
  : list (string * JSValue) :=
  match result with
  | AISuccess d =>
      if JS.truthy d && negb (JS.isArray d) && displayable d
      then flat_map (displayEntry env d) displayFields
      else []
  | AIFailure _ => []
  end.

(** One step of [displayRecord], and its steps in a row. *)
Definition fieldR (env : Env) (d : JSValue)
  (field : FieldKind * string * string) (acc : list (string * JSValue))
  : Result (list (string * JSValue)) :=
  match field with
  | (Money, name, label) => DocumentsPage.moneyField env d name label acc
  | (Plain, name, label) => DocumentsPage.plainField env d name label acc
  end.

Fixpoint fieldsR (env : Env) (d : JSValue)
  (fields : list (FieldKind * string * string))
  (acc : list (string * JSValue)) : Result (list (string * JSValue)) :=
  match fields with
  | [] => Ok acc
  | field :: rest =>
      match rest with
      | [] => fieldR env d field acc
      | _ => rbind (fieldR env d field acc) (fieldsR env d rest)
      end
  end.

(* ================================================================== *)
(** * Further sample runs *)
(* ================================================================== *)

Module Scenario.

(** The primary provider refuses the key. *)
Definition unauthorized : Env :=
  Sample.world EmptyString
    (Ok {| status := 401;
           responseData :=
             JObj [("type", JStr "error");
                   ("error",
                    JObj [("type", JStr "authentication_error");
                          ("message", JStr "invalid x-api-key")])] |})
    Sample.fetchFailed EmptyString JNull.

(** A gateway in front of the primary provider answers with a page. *)
Definition badGateway : Env :=
  Sample.world EmptyString
    (Ok {| status := 502;
           responseData := JStr "<html><h1>502 Bad Gateway</h1></html>" |})
    Sample.fetchFailed EmptyString JNull.

(** The request to the primary provider is rejected with a plain object,
    not an [Error]; the backup is unreachable. *)
Definition plainRejection : Env :=
  Sample.world "backup-key"
    (Throw (NonError (JObj [("message", JStr "Request timed out")])))
    Sample.fetchFailed EmptyString JNull.

(** [{"error":{"message":"rate limited"}}], sent as a string with status
    429. *)
Definition rateLimitedJSON : string :=
  "{" ++ Sample.q "error" ++ ":{" ++ Sample.q "message" ++ ":"
  ++ Sample.q "rate limited" ++ "}}".

Definition rateLimitedBody : JSValue :=
  JObj [("error", JObj [("message", JStr "rate limited")])].

Definition rateLimited : Env :=
  Sample.world EmptyString
    (Ok {| status := 429; responseData := JStr rateLimitedJSON |})
    Sample.fetchFailed rateLimitedJSON rateLimitedBody.

(** The backup provider refuses the key. *)
Definition geminiRefuses : Env :=
  Sample.world "backup-key" Sample.networkDown
    (Ok {| ok := false;
           json := Ok (JObj [("error",
                              JObj [("code", JNum (ofZ 400));
                                    ("message", JStr "API key not valid")])])
        |})
    EmptyString JNull.

(** A reply wrapped in a fence whose opening line is followed by another
    fence. *)
Definition doubleFence : string := "```json```[]```".

(** [{"total_hours":40}] as parsed, and after the two repairs. *)
Definition totalOnly : JSValue := JObj [("total_hours", JNum (ofZ 40))].

Definition totalOnlyRepaired : JSValue :=
  JObj [("total_hours", JNum (ofZ 40)); ("hours_worked", JNum (ofZ 40));
        ("line_items", JArr [] [])].

(** One entry with a ship, which the [map] callback does not touch. *)
Definition shipEntryJSON : string :=
  "[{" ++ Sample.q "date" ++ ":" ++ Sample.q "2024-01-15" ++ ","
  ++ Sample.q "hours" ++ ":8," ++ Sample.q "ship" ++ ":"
  ++ Sample.q "MSC Oscar" ++ "}]".

Definition shipEntry : JSValue :=
  JObj [("date", JStr "2024-01-15"); ("hours", JNum (ofZ 8));
        ("ship", JStr "MSC Oscar")].

(** The backup provider answers [json] inside a fence. *)
Definition geminiFenced (json : string) (parsed : JSValue) : Env :=
  Sample.world "backup-key" Sample.networkDown
    (Sample.geminiReply (Sample.fenced json)) json parsed.

(** [{"gross_pay":0,"net_pay":0,"hours_worked":37.5}] *)
Definition hoursOnlyJSON : string :=
  "{" ++ Sample.q "gross_pay" ++ ":0," ++ Sample.q "net_pay" ++ ":0,"
  ++ Sample.q "hours_worked" ++ ":37.5}".

Definition hoursOnly : JSValue :=
  JObj [("gross_pay", JNum posZero); ("net_pay", JNum posZero);
        ("hours_worked", JNum (StringToNumber "37.5"))].

(** A paystub whose gross pay came back as a string:
    [{"line_items":[],"gross_pay":"1,234.50","net_pay":987.65}] *)
Definition stringAmountJSON : string :=
  "{" ++ Sample.q "line_items" ++ ":[]," ++ Sample.q "gross_pay" ++ ":"
  ++ Sample.q "1,234.50" ++ "," ++ Sample.q "net_pay" ++ ":987.65}".

Definition stringAmount : JSValue :=
  JObj [("line_items", JArr [] []); ("gross_pay", JStr "1,234.50");
        ("net_pay", JNum (StringToNumber "987.65"))].

(** The page with the paystub category selected and a key of the user. *)
Definition paystubPage : DocumentsPage.PageState :=
  {| DocumentsPage.docCategory := "pay_stub";
     DocumentsPage.anthropic_api_key := Some "sk-ant-key";
     DocumentsPage.parsingWithAI := false |}.

(** The page as it opens: the timesheet category. *)
Definition timesheetPage : DocumentsPage.PageState :=
  {| DocumentsPage.docCategory := "timesheet";
     DocumentsPage.anthropic_api_key := Some "sk-ant-key";
     DocumentsPage.parsingWithAI := false |}.

End Scenario.

(* ================================================================== *)
(** * Properties *)
(* ================================================================== *)

(** ** Strings *)

Lemma len_app (a b : string) : len (a ++ b) = len a + len b.
Proof.
  unfold len. induction a as [|c a IH]; cbn [append String.length]; [lia|].
  rewrite !Nat2Z.inj_succ. lia.
Qed.

Lemma append_assoc (a b c : string) : (a ++ b) ++ c = a ++ b ++ c.
Proof. induction a as [|d a IH]; simpl; [reflexivity | now rewrite IH]. Qed.

Lemma len_nonneg (s : string) : 0 <= len s.
Proof. unfold len. lia. Qed.

Lemma prefix_char (c d : ascii) (s : string) :
  String.prefix (String c EmptyString) (String d s) = Ascii.eqb c d.
Proof.
  simpl. destruct (ascii_dec c d) as [->|n].
  - rewrite Ascii.eqb_refl. now destruct s.
  - symmetry. now apply Ascii.eqb_neq.
Qed.

Lemma includes_char_app (c : ascii) (a b : string) :
  includes (a ++ b) (String c EmptyString)
  = includes a (String c EmptyString) || includes b (String c EmptyString).
Proof.
  induction a as [|d a IH].
  - simpl. now destruct b.
  - cbn [append includes]. rewrite IH, !prefix_char.
    now destruct (Ascii.eqb c d).
Qed.

(** The first occurrence of a character that the text before it lacks. *)
Lemma indexOf_from_char (c : ascii) (p r : string) (i : Z) :
  includes p (String c EmptyString) = false ->
  indexOf_from (String c EmptyString) (p ++ String c r) i = i + len p.
Proof.
  revert i. induction p as [|d p IH]; intros i H.
  - cbn [append indexOf_from]. rewrite prefix_char, Ascii.eqb_refl.
    unfold len. cbn [String.length]. lia.
  - cbn [append indexOf_from]. cbn [includes] in H.
    rewrite prefix_char in *. apply orb_false_iff in H as [Hc Hp].
    rewrite Hc, IH by assumption.
    unfold len. cbn [String.length]. rewrite Nat2Z.inj_succ. lia.
Qed.

(** A text without the character has no index for it. *)
Lemma indexOf_from_absent (c : ascii) (s : string) (i : Z) :
  includes s (String c EmptyString) = false ->
  indexOf_from (String c EmptyString) s i = -1.
Proof.
  revert i. induction s as [|d s IH]; intros i H.
  - reflexivity.
  - cbn [indexOf_from]. cbn [includes] in H. rewrite prefix_char in *.
    apply orb_false_iff in H as [Hc Hs]. now rewrite Hc, IH.
Qed.

Lemma substring_all (s : string) :
  String.substring 0 (String.length s) s = s.
Proof. induction s as [|c s IH]; simpl; [reflexivity | now rewrite IH]. Qed.

Lemma substring_head (a b : string) :
  String.substring 0 (String.length a) (a ++ b) = a.
Proof.
  induction a as [|c a IH]; simpl.
  - now destruct b.
  - now rewrite IH.
Qed.

Lemma substring_skip (a b : string) (n : nat) :
  String.substring (String.length a) n (a ++ b) = String.substring 0 n b.
Proof. induction a as [|c a IH]; simpl; [reflexivity | exact IH]. Qed.

(** [s.substring(len a)] drops the leading [a]. *)
Lemma substring1_app (a b : string) : substring1 (a ++ b) (len a) = b.
Proof.
  unfold substring1, substring2, clamp. rewrite len_app.
  pose proof (len_nonneg a). pose proof (len_nonneg b).
  replace (Z.min (Z.max 0 (Z.min (len a) (len a + len b)))
                 (Z.max 0 (Z.min (len a + len b) (len a + len b))))
    with (len a) by lia.
  replace (Z.max (Z.max 0 (Z.min (len a) (len a + len b)))
                 (Z.max 0 (Z.min (len a + len b) (len a + len b))) - len a)
    with (len b) by lia.
  unfold len. rewrite !Nat2Z.id, substring_skip. apply substring_all.
Qed.

(** [s.substring(len a, len a + len b)] is the middle part. *)
Lemma substring2_app (a b c : string) :
  substring2 (a ++ b ++ c) (len a) (len a + len b) = b.
Proof.
  unfold substring2, clamp. rewrite !len_app.
  pose proof (len_nonneg a). pose proof (len_nonneg b).
  pose proof (len_nonneg c).
  replace (Z.min (Z.max 0 (Z.min (len a) (len a + (len b + len c))))
                 (Z.max 0 (Z.min (len a + len b) (len a + (len b + len c)))))
    with (len a) by lia.
  replace (Z.max (Z.max 0 (Z.min (len a) (len a + (len b + len c))))
                 (Z.max 0 (Z.min (len a + len b) (len a + (len b + len c))))
           - len a)
    with (len b) by lia.
  unfold len. rewrite !Nat2Z.id, substring_skip. apply substring_head.
Qed.

(** ** The media decoder *)

(** A well-formed data URL decodes to its two parts. *)
Lemma parseDataURL_wellformed (T X : string) :
  includes T "," = false ->
  includes T ";" = false ->
  parseDataURL ("data:" ++ T ++ ";base64," ++ X)
  = Some {| mediaType := if String.eqb T "image/jpg" then "image/jpeg" else T;
            data := X |}.
Proof.
  intros Hc Hs. unfold parseDataURL, indexOf.
  assert (Ecomma : indexOf_from "," ("data:" ++ T ++ ";base64," ++ X) 0
                   = len ("data:" ++ T ++ ";base64")).
  { replace ("data:" ++ T ++ ";base64," ++ X)
      with (("data:" ++ T ++ ";base64") ++ String "," X).
    - rewrite indexOf_from_char; [lia|].
      rewrite !includes_char_app, Hc. reflexivity.
    - rewrite !append_assoc. reflexivity. }
  assert (Esemi : indexOf_from ";" ("data:" ++ T ++ ";base64," ++ X) 0
                  = len ("data:" ++ T)).
  { replace ("data:" ++ T ++ ";base64," ++ X)
      with (("data:" ++ T) ++ String ";" ("base64," ++ X)).
    - rewrite indexOf_from_char; [lia|].
      rewrite !includes_char_app, Hs. reflexivity.
    - rewrite !append_assoc. reflexivity. }
  rewrite Ecomma, Esemi.
  pose proof (len_nonneg T) as HT.
  rewrite !len_app. change (len "data:") with 5. change (len ";base64") with 7.
  replace (5 + (len T + 7) <=? 0) with false by (symmetry; apply Z.leb_gt; lia).
  replace (5 + len T <=? 0) with false by (symmetry; apply Z.leb_gt; lia).
  cbn [orb].
  assert (Em : substring2 ("data:" ++ T ++ ";base64," ++ X) 5 (5 + len T) = T)
    by exact (substring2_app "data:" T (";base64," ++ X)).
  assert (Ed : substring1 ("data:" ++ T ++ ";base64," ++ X)
                          (5 + (len T + 7) + 1) = X).
  { replace (5 + (len T + 7) + 1) with (len ("data:" ++ T ++ ";base64,"))
      by (rewrite !len_app; change (len ";base64,") with 8;
          change (len "data:") with 5; lia).
    replace ("data:" ++ T ++ ";base64," ++ X)
      with (("data:" ++ T ++ ";base64,") ++ X)
      by (rewrite !append_assoc; reflexivity).
    apply substring1_app. }
  rewrite Em, Ed. reflexivity.
Qed.

(** C9. For every payload [X], [data:image/jpg;base64,X] decodes to the
    media type [image/jpeg] and the payload [X]; any other media type [T]
    (free of the two separators) is returned as it is, with the payload
    [X]. *)
Theorem parseDataURL_jpg_only_alias :
  (forall X : string,
      parseDataURL ("data:image/jpg;base64," ++ X)
      = Some {| mediaType := "image/jpeg"; data := X |})
  /\ (forall T X : string,
         includes T "," = false ->
         includes T ";" = false ->
         T <> "image/jpg" ->
         parseDataURL ("data:" ++ T ++ ";base64," ++ X)
         = Some {| mediaType := T; data := X |}).
Proof.
  split.
  - intros X. exact (parseDataURL_wellformed "image/jpg" X eq_refl eq_refl).
  - intros T X Hc Hs Hne.
    rewrite parseDataURL_wellformed by assumption.
    apply String.eqb_neq in Hne. now rewrite Hne.
Qed.

Lemma parseDataURL_jpg_only_alias_witness :
  parseDataURL ("data:" ++ "image/png" ++ ";base64," ++ "iVBORw0KGgo=")
  = Some {| mediaType := "image/png"; data := "iVBORw0KGgo=" |}.
Proof.
  apply (proj2 parseDataURL_jpg_only_alias "image/png" "iVBORw0KGgo=").
  - reflexivity.
  - reflexivity.
  - discriminate.
Defined.

Lemma indexOf_absent (s : string) (c : ascii) :
  includes s (String c EmptyString) = false ->
  indexOf s (String c EmptyString) = -1.
Proof. apply indexOf_from_absent. Qed.

(** C7, as the code has it. A string without a comma, or without a
    semicolon, decodes to [null]; [parseDataURL] is total, so nothing is
    thrown. The order of the two separators is not looked at. *)
Theorem parseDataURL_missing_separator (s : string) :
  includes s "," = false \/ includes s ";" = false ->
  parseDataURL s = None.
Proof.
  intros [H|H]; unfold parseDataURL; rewrite (indexOf_absent _ _ H).
  - reflexivity.
  - cbn. now rewrite orb_true_r.
Qed.

Lemma parseDataURL_missing_separator_witness :
  parseDataURL "data:image/png-base64-iVBORw0KGgo=" = None.
Proof.
  apply (parseDataURL_missing_separator "data:image/png-base64-iVBORw0KGgo=").
  left. reflexivity.
Defined.

(** C7, as the claim has it, fails: this string has its only comma before
    its semicolon, so it lacks a semicolon and a comma in data-URL order,
    and it still decodes. *)
Lemma parseDataURL_ignores_order :
  semicolonThenComma "data:image/png,base64;iVBORw0KGgo=" = false
  /\ parseDataURL "data:image/png,base64;iVBORw0KGgo="
     = Some {| mediaType := "image/png,base64";
               data := "base64;iVBORw0KGgo=" |}.
Proof. split; reflexivity. Qed.

(** ** Shift classification *)

Lemma toLowerCase_app (a b : string) :
  toLowerCase (a ++ b) = toLowerCase a ++ toLowerCase b.
Proof. induction a as [|c a IH]; simpl; [reflexivity | now rewrite IH]. Qed.

Lemma toLowerCase_split (s x y : string) :
  toLowerCase s = x ++ y ->
  exists a b, s = a ++ b /\ toLowerCase a = x /\ toLowerCase b = y.
Proof.
  revert s. induction x as [|c x IH]; intros s H.
  - exists EmptyString, s. auto.
  - destruct s as [|d s]; [discriminate|].
    cbn [toLowerCase append] in H. injection H as Hc Hs.
    destruct (IH s Hs) as (a & b & -> & Ha & Hb).
    exists (String d a), b. cbn [toLowerCase append]. now rewrite Hc, Ha.
Qed.

Lemma prefix_app (u b : string) : String.prefix u (u ++ b) = true.
Proof.
  induction u as [|c u IH]; simpl.
  - now destruct b.
  - destruct (ascii_dec c c); [exact IH | congruence].
Qed.

Lemma prefix_elim (u s : string) :
  String.prefix u s = true -> exists b, s = u ++ b.
Proof.
  revert s. induction u as [|c u IH]; intros s H.
  - now exists s.
  - destruct s as [|d s]; [discriminate|]. simpl in H.
    destruct (ascii_dec c d) as [->|]; [|discriminate].
    destruct (IH s H) as [b ->]. now exists b.
Qed.

(** [includes] finds exactly the strings that decompose around the needle. *)
Lemma includes_iff (s u : string) :
  includes s u = true <-> exists a b, s = a ++ u ++ b.
Proof.
  split.
  - induction s as [|c s IH]; cbn [includes]; intros H.
    + rewrite orb_false_r in H. destruct (prefix_elim _ _ H) as [b E].
      now exists EmptyString, b.
    + apply orb_true_iff in H as [H|H].
      * destruct (prefix_elim _ _ H) as [b E]. now exists EmptyString, b.
      * destruct (IH H) as (a & b & ->). now exists (String c a), b.
  - intros (a & b & ->). induction a as [|c a IH].
    + cbn [append]. destruct (u ++ b) eqn:E; cbn [includes];
        rewrite <- E, prefix_app; reflexivity.
    + cbn [append includes]. rewrite IH. apply orb_true_r.
Qed.

(** What [normalizeShiftType] tests is an occurrence in any letter case. *)
Lemma includes_lower_iff (s u : string) :
  includes (toLowerCase s) u = true <-> occursIgnoringCase s u.
Proof.
  rewrite includes_iff. split.
  - intros (a' & b' & H).
    destruct (toLowerCase_split _ _ _ H) as (a & r & -> & _ & Hr).
    destruct (toLowerCase_split _ _ _ Hr) as (w & b & -> & Hw & _).
    now exists a, w, b.
  - intros (a & w & b & -> & <-).
    exists (toLowerCase a), (toLowerCase b). now rewrite !toLowerCase_app.
Qed.

Lemma includes_lower_false (s u : string) :
  ~ occursIgnoringCase s u -> includes (toLowerCase s) u = false.
Proof.
  intros H. destruct (includes (toLowerCase s) u) eqn:E; [|reflexivity].
  now apply includes_lower_iff in E.
Qed.

(** C8. Classification looks for the keywords in any letter case, the
    graveyard keywords first: a graveyard keyword decides whatever else
    the input holds, so an input with both night and pm is a graveyard
    shift; an afternoon keyword decides when no graveyard keyword occurs;
    an input with no keyword, the empty string and a missing value are day
    shifts. *)
Theorem normalizeShiftType_keyword_priority (env : Env) (s : string) :
  (occursIgnoringCase s "grave" \/ occursIgnoringCase s "night"
   \/ occursIgnoringCase s "mid" ->
   normalizeShiftType env (JStr s) = Ok graveyard)
  /\ (occursIgnoringCase s "night" -> occursIgnoringCase s "pm" ->
      normalizeShiftType env (JStr s) = Ok graveyard)
  /\ (~ occursIgnoringCase s "grave" -> ~ occursIgnoringCase s "night" ->
      ~ occursIgnoringCase s "mid" ->
      occursIgnoringCase s "after" \/ occursIgnoringCase s "evening"
      \/ occursIgnoringCase s "pm" \/ occursIgnoringCase s "swing" ->
      normalizeShiftType env (JStr s) = Ok afternoon)
  /\ (~ occursIgnoringCase s "grave" -> ~ occursIgnoringCase s "night" ->
      ~ occursIgnoringCase s "mid" -> ~ occursIgnoringCase s "after" ->
      ~ occursIgnoringCase s "evening" -> ~ occursIgnoringCase s "pm" ->
      ~ occursIgnoringCase s "swing" ->
      normalizeShiftType env (JStr s) = Ok day)
  /\ normalizeShiftType env (JStr EmptyString) = Ok day
  /\ normalizeShiftType env JUndefined = Ok day
  /\ normalizeShiftType env JNull = Ok day.
Proof.
  assert (G : occursIgnoringCase s "grave" \/ occursIgnoringCase s "night"
              \/ occursIgnoringCase s "mid" ->
              normalizeShiftType env (JStr s) = Ok graveyard).
  { intros H. unfold normalizeShiftType, JS.or. cbn [JS.truthy].
    assert (E : classifyShift (toLowerCase s) = graveyard).
    { unfold classifyShift.
      destruct H as [H|[H|H]]; apply includes_lower_iff in H; rewrite H;
        rewrite ?orb_true_r; reflexivity. }
    destruct (negb (String.eqb s EmptyString)) eqn:Es; [now rewrite E|].
    apply negb_false_iff, String.eqb_eq in Es. subst s.
    destruct H as [H|[H|H]]; apply includes_lower_iff in H; discriminate. }
  assert (N : forall r, classifyShift (toLowerCase s) = r ->
                        r <> graveyard -> r = day \/ s <> EmptyString ->
                        normalizeShiftType env (JStr s) = Ok r).
  { intros r E _ Hs. unfold normalizeShiftType, JS.or. cbn [JS.truthy].
    destruct (negb (String.eqb s EmptyString)) eqn:Es; [now rewrite E|].
    apply negb_false_iff, String.eqb_eq in Es. subst s.
    destruct Hs as [->|Hs]; [reflexivity | congruence]. }
  repeat split.
  - exact G.
  - intros H _. apply G. tauto.
  - intros H1 H2 H3 H. apply N.
    + unfold classifyShift.
      rewrite !includes_lower_false by assumption. cbn [orb].
      destruct H as [H|[H|[H|H]]]; apply includes_lower_iff in H; rewrite H;
        rewrite ?orb_true_r; reflexivity.
    + discriminate.
    + right. intros ->.
      destruct H as [H|[H|[H|H]]]; apply includes_lower_iff in H; discriminate.
  - intros H1 H2 H3 H4 H5 H6 H7. apply N.
    + unfold classifyShift. now rewrite !includes_lower_false by assumption.
    + discriminate.
    + now left.
Qed.

Lemma normalizeShiftType_keyword_priority_witness :
  normalizeShiftType (Sample.offline EmptyString) (JStr "Night shift, 11PM")
  = Ok graveyard.
Proof.
  apply (proj1 (proj2 (normalizeShiftType_keyword_priority
                         (Sample.offline EmptyString) "Night shift, 11PM"))).
  - exists EmptyString, "Night", " shift, 11PM". split; reflexivity.
  - exists "Night shift, 11", "PM", EmptyString. split; reflexivity.
Defined.

(** ** Effects *)

Lemma bind_Ok {A B} (c : M A) (f : A -> M B) (t t' : Trace) (b : B) :
  bind c f t = (Ok b, t') ->
  exists a t1, c t = (Ok a, t1) /\ f a t1 = (Ok b, t').
Proof.
  unfold bind. destruct (c t) as [[a|e] t1]; intros H.
  - now exists a, t1.
  - discriminate.
Qed.

Lemma lift_inv {A} (r r' : Result A) (t t' : Trace) :
  lift r t = (r', t') -> r = r' /\ t' = t.
Proof. unfold lift. intros H. now inversion H. Qed.

(** The two nested handlers of the operations that have a backup. *)
Lemma fallback_run {A} (primary backup : M A) (failure : Thrown -> A)
  (t : Trace) :
  tryCatch primary
    (fun error => tryCatch backup (fun _ => ret (failure error))) t
  = match primary t with
    | (Ok a, t1) => (Ok a, t1)
    | (Throw e, t1) =>
        match backup t1 with
        | (Ok a, t2) => (Ok a, t2)
        | (Throw _, t2) => (Ok (failure e), t2)
        end
    end.
Proof. reflexivity. Qed.

(** ** Property reads and writes *)

Lemma getR_Ok (env : Env) (v x : JSValue) (k : string) :
  getR env v k = Ok x -> x = JS.optGet v k /\ notNullish v = true.
Proof.
  unfold getR, JS.optGet. destruct v; cbn; intros H; inversion H; auto.
Qed.

Lemma getR_notNullish (env : Env) (v : JSValue) (k : string) :
  notNullish v = true -> getR env v k = Ok (JS.optGet v k).
Proof. destruct v; cbn; intros H; try discriminate; reflexivity. Qed.

Lemma optGet_object (props : list (string * JSValue)) (k : string) :
  JS.optGet (JObj props) k = JS.orUndefined (JS.lookup k props).
Proof. reflexivity. Qed.

Lemma lookup_assign_same (k : string) (x : JSValue)
  (props : list (string * JSValue)) :
  JS.lookup k (JS.assign k x props) = Some x.
Proof.
  induction props as [|[k' v'] props IH]; cbn.
  - now rewrite String.eqb_refl.
  - destruct (String.eqb k k') eqn:E; cbn.
    + now rewrite String.eqb_refl.
    + now rewrite E.
Qed.

Lemma lookup_assign_other (k k' : string) (x : JSValue)
  (props : list (string * JSValue)) :
  k <> k' -> JS.lookup k (JS.assign k' x props) = JS.lookup k props.
Proof.
  intros Hne. apply String.eqb_neq in Hne.
  induction props as [|[k2 v2] props IH]; cbn.
  - now rewrite Hne.
  - destruct (String.eqb k' k2) eqn:E; cbn.
    + apply String.eqb_eq in E. subst k2. now rewrite Hne.
    + now rewrite IH.
Qed.

(** ** Dates *)

Lemma digitChar_not_T (d : Z) : Ascii.eqb (digitChar d) "T" = false.
Proof.
  apply Ascii.eqb_neq. unfold digitChar. intros H.
  apply (f_equal N_of_ascii) in H.
  assert (B : 0 <= d mod 10 < 10) by (apply Z.mod_pos_bound; lia).
  rewrite N_ascii_embedding in H by lia.
  change (N_of_ascii "T") with 84%N in H. lia.
Qed.

Lemma yearString_head (y : Z) :
  exists c r, yearString y = String c r /\ Ascii.eqb c "T" = false.
Proof.
  unfold yearString.
  destruct ((0 <=? y) && (y <=? 9999)).
  - cbn [pad append]. eexists _, _. split; [reflexivity|].
    apply digitChar_not_T.
  - destruct (y <? 0); eexists _, _; (split; [reflexivity|reflexivity]).
Qed.

(** The ISO date of a valid time value is never empty. *)
Lemma isoDate_nonempty (t : Z) : beforeT (toISOString t) <> EmptyString.
Proof.
  unfold toISOString.
  destruct (civilFromDays (t / msPerDay)) as [[y m] d].
  destruct (yearString_head y) as (c & r & -> & Hc).
  cbn [append beforeT]. now rewrite Hc.
Qed.

Lemma normalizeDate_truthy (env : Env) (d d' : JSValue) :
  normalizeDate env d = Ok d' -> JS.truthy d = true -> JS.truthy d' = true.
Proof.
  unfold normalizeDate. destruct (JS.toPrimitiveThrows d); [discriminate|].
  intros [= <-] H. destruct (Date_new env d) as [t|]; [|exact H].
  cbn [JS.truthy]. apply negb_true_iff, String.eqb_neq, isoDate_nonempty.
Qed.

(** ** Timesheet entries *)

Lemma keepEntry_Ok (env : Env) (e : JSValue) (b : bool) :
  keepEntry env e = Ok b -> b = hasDateAndHours e.
Proof.
  unfold keepEntry, hasDateAndHours, rbind.
  destruct (getR env e "date") as [date|] eqn:Ed; [|discriminate].
  apply getR_Ok in Ed as [-> Hn].
  destruct (JS.truthy (JS.optGet e "date")); [|now intros [= <-]].
  now rewrite (getR_notNullish env e "hours" Hn); intros [= <-].
Qed.

Lemma keepEntry_total (env : Env) (e : JSValue) :
  notNullish e = true -> keepEntry env e = Ok (hasDateAndHours e).
Proof.
  intros Hn. unfold keepEntry, hasDateAndHours, rbind.
  rewrite (getR_notNullish env e "date" Hn).
  destruct (JS.truthy (JS.optGet e "date")); [|reflexivity].
  now rewrite (getR_notNullish env e "hours" Hn).
Qed.

Lemma filterR_Ok {A} (f : A -> Result bool) (g : A -> bool) (l out : list A) :
  (forall x b, f x = Ok b -> b = g x) ->
  filterR f l = Ok out -> out = filter g l.
Proof.
  intros Hf. revert out. induction l as [|x l IH]; cbn; intros out H.
  - now inversion H.
  - unfold rbind in H. destruct (f x) as [b|] eqn:Ex; [|discriminate].
    destruct (filterR f l) as [rest|]; [|discriminate].
    inversion H. rewrite <- (Hf _ _ Ex), (IH rest eq_refl). reflexivity.
Qed.

Lemma filterR_total {A} (f : A -> Result bool) (g : A -> bool) (l : list A) :
  Forall (fun x => f x = Ok (g x)) l -> filterR f l = Ok (filter g l).
Proof.
  induction 1 as [|x l Hx _ IH]; cbn; [reflexivity|].
  now rewrite Hx, IH.
Qed.

Lemma mapR_Ok {A B} (f : A -> Result B) (l : list A) (out : list B) :
  mapR f l = Ok out -> Forall2 (fun x y => f x = Ok y) l out.
Proof.
  revert out. induction l as [|x l IH]; cbn; intros out H.
  - inversion H. constructor.
  - unfold rbind in H. destruct (f x) as [y|] eqn:Ex; [|discriminate].
    destruct (mapR f l) as [rest|]; [|discriminate].
    inversion H. constructor; auto.
Qed.

Lemma mapR_total {A B} (f : A -> Result B) (l : list A) :
  Forall (fun x => exists y, f x = Ok y) l -> exists out, mapR f l = Ok out.
Proof.
  induction 1 as [|x l [y Hy] _ [rest IH]]; cbn.
  - now exists [].
  - rewrite Hy, IH. now exists (y :: rest).
Qed.

(** Only an array gets through, and its kept entries are mapped in order. *)
Lemma validEntries_Ok (env : Env) (entries : JSValue) (out : list JSValue) :
  validEntries env entries = Ok out ->
  exists elems own,
    entries = JArr elems own
    /\ Forall2 (fun e o => normalizeEntry env e = Ok o)
               (filter hasDateAndHours elems) out.
Proof.
  unfold validEntries, rbind.
  destruct (elementsOf env "entries.filter" entries) as [elems|] eqn:Ee;
    [|discriminate].
  destruct entries; cbn in Ee; try discriminate. inversion Ee; subst.
  destruct (filterR (keepEntry env) elems) as [kept|] eqn:Ek; [|discriminate].
  apply (filterR_Ok _ hasDateAndHours) in Ek; [|apply keepEntry_Ok].
  subst kept. intros H. apply mapR_Ok in H. eauto.
Qed.

Lemma toNumber_Ok (env : Env) (v : JSValue) (n : number) :
  toNumber env v = Ok n <-> JS.ToNumber v = Some n.
Proof.
  unfold toNumber. destruct (JS.ToNumber v); split; intros H;
    inversion H; reflexivity.
Qed.

(** The hours of a returned entry are never zero and never [NaN]. *)
Lemma hoursOf_Ok (env : Env) (h : JSValue) (n : number) :
  hoursOf env h = Ok n ->
  exists coerced,
    JS.ToNumber h = Some coerced
    /\ truthyNumber n = true
    /\ n = (if truthyNumber coerced then coerced else ofZ 8).
Proof.
  unfold hoursOf, rbind.
  destruct (toNumber env h) as [c|] eqn:Ec; [|discriminate].
  apply toNumber_Ok in Ec. intros [= <-]. exists c.
  repeat split; [exact Ec|].
  destruct (truthyNumber c) eqn:E; [exact E | reflexivity].
Qed.

(** A source value that is not numeric gives the default. *)
Lemma hoursOf_not_numeric (env : Env) (h : JSValue) (coerced : number) :
  JS.ToNumber h = Some coerced -> isNaN coerced = true ->
  hoursOf env h = Ok (ofZ 8).
Proof.
  intros Hc Hn. unfold hoursOf, rbind.
  apply (toNumber_Ok env) in Hc. rewrite Hc. now destruct coerced.
Qed.

(** What the object literal of the [map] callback holds. *)
Lemma normalizeEntry_Ok (env : Env) (e o : JSValue) :
  normalizeEntry env e = Ok o ->
  normalizeDate env (JS.optGet e "date") = Ok (JS.optGet o "date")
  /\ (exists n, hoursOf env (JS.optGet e "hours") = Ok n
                /\ JS.optGet o "hours" = JNum n)
  /\ JS.optGet o "job_name"
     = JS.or (JS.optGet e "job_name") (JStr "Imported")
  /\ earningsOf env (JS.optGet e "earnings") = Ok (JS.optGet o "earnings")
  /\ exists shift,
       normalizeShiftType env (JS.optGet e "shift_type") = Ok shift
       /\ JS.optGet o "shift_type" = JStr (shiftName shift).
Proof.
  unfold normalizeEntry, rbind.
  destruct (getR env e "date") as [date|] eqn:Ed; [|discriminate].
  apply getR_Ok in Ed as [-> Hn].
  rewrite !(getR_notNullish env e _ Hn).
  destruct (normalizeDate env (JS.optGet e "date")) as [date|]; [|discriminate].
  destruct (normalizeShiftType env (JS.optGet e "shift_type")) as [shift|]
    eqn:Es; [|discriminate].
  destruct (hoursOf env (JS.optGet e "hours")) as [hours|]; [|discriminate].
  destruct (earningsOf env (JS.optGet e "earnings")) as [earnings|];
    [|discriminate].
  intros [= <-]. rewrite !optGet_object.
  repeat split; try (exists hours; split; [reflexivity|]);
    try (exists shift; split; [reflexivity|]);
    rewrite ?lookup_assign_other by discriminate;
    now rewrite lookup_assign_same.
Qed.

Lemma normalizeEntry_normalized (env : Env) (e o : JSValue) :
  hasDateAndHours e = true ->
  normalizeEntry env e = Ok o -> entryNormalized env e o.
Proof.
  intros Hk H. apply normalizeEntry_Ok in H as (Hd & (n & Hh & Ho) & _).
  unfold hasDateAndHours in Hk. apply andb_true_iff in Hk as [Hdate _].
  apply hoursOf_Ok in Hh as (coerced & Hc & Ht & Hn).
  repeat split.
  - exact Hd.
  - exact (normalizeDate_truthy env _ _ Hd Hdate).
  - exists coerced, n. auto.
Qed.

Lemma normalizeEntry_earnings (env : Env) (e o : JSValue) :
  normalizeEntry env e = Ok o -> earningsForwarded e o.
Proof.
  intros H. apply normalizeEntry_Ok in H as (_ & _ & _ & He & _).
  unfold earningsOf, rbind in He. split.
  - destruct (JS.truthy (JS.optGet e "earnings")).
    + destruct (toNumber env (JS.optGet e "earnings")) as [n|] eqn:En;
        [|discriminate].
      apply toNumber_Ok in En. inversion He. eauto.
    + now inversion He.
  - intros Hnum.
    destruct (JS.optGet e "earnings") as [| |[|]|n|s|l own|props];
      try discriminate Hnum; try destruct n;
      cbn in He; injection He as <-; reflexivity.
Qed.

Lemma Forall2_filter_impl {A B} (g : A -> bool) (P Q : A -> B -> Prop)
  (l : list A) (out : list B) :
  (forall x y, g x = true -> P x y -> Q x y) ->
  Forall2 P (filter g l) out -> Forall2 Q (filter g l) out.
Proof.
  intros HPQ H.
  assert (Hg : Forall (fun x => g x = true) (filter g l)).
  { apply Forall_forall. intros x Hx. now apply filter_In in Hx. }
  induction H as [|x y l' out' Hxy _ IH]; constructor.
  - inversion Hg; subst. now apply HPQ.
  - inversion Hg; subst. now apply IH.
Qed.

(** Both paths of [parseTimesheetWithAI] succeed through [validEntries]. *)
Lemma timesheetOfJSON_Ok (env : Env) (json : string) (d : JSValue) :
  timesheetOfJSON env json = Ok (AISuccess d) ->
  exists elems own out,
    JSON_parse env json = Ok (JArr elems own)
    /\ d = JArr out []
    /\ Forall2 (fun e o => normalizeEntry env e = Ok o)
               (filter hasDateAndHours elems) out.
Proof.
  unfold timesheetOfJSON, rbind.
  destruct (JSON_parse env json) as [entries|]; [|discriminate].
  destruct (validEntries env entries) as [out|] eqn:Ev; [|discriminate].
  intros [= <-]. apply validEntries_Ok in Ev as (elems & own & -> & H).
  now exists elems, own, out.
Qed.

Lemma parseTimesheetWithAI_success (env : Env) (apiKey : string)
  (content image : option string) (t t' : Trace) (d : JSValue) :
  parseTimesheetWithAI env apiKey content image t = (Ok (AISuccess d), t') ->
  exists json, timesheetOfJSON env json = Ok (AISuccess d).
Proof.
  unfold parseTimesheetWithAI. rewrite fallback_run.
  destruct (timesheetPrimary env apiKey content image t) as [[r|e] t1] eqn:Ep.
  - intros [= -> ->]. unfold timesheetPrimary in Ep.
    apply bind_Ok in Ep as (response & t2 & _ & Hl).
    apply lift_inv in Hl as [Hl _]. eauto.
  - destruct (timesheetBackup env content image t1) as [[r|e'] t2] eqn:Eb.
    + intros [= -> ->]. unfold timesheetBackup in Eb.
      apply bind_Ok in Eb as (key & t3 & _ & Eb).
      apply bind_Ok in Eb as (response & t4 & _ & Eb).
      apply bind_Ok in Eb as (jsonStr & t5 & _ & Hl).
      apply lift_inv in Hl as [Hl _]. eauto.
    + discriminate.
Qed.

Lemma entryShape_notNullish (e : JSValue) :
  entryShape e = true -> notNullish e = true.
Proof. destruct e; cbn; intros H; try discriminate; reflexivity. Qed.

Lemma normalizeEntry_total (env : Env) (e : JSValue) :
  entryShape e = true -> hasDateAndHours e = true ->
  exists o, normalizeEntry env e = Ok o.
Proof.
  intros Hs Hk. pose proof (entryShape_notNullish e Hs) as Hn.
  unfold normalizeEntry, rbind. rewrite !(getR_notNullish env e _ Hn).
  assert (E : match JS.or (JS.optGet e "shift_type") (JStr EmptyString) with
              | JStr _ => true
              | _ => false
              end
              && negb (JS.toPrimitiveThrows (JS.optGet e "date"))
              && negb (JS.toPrimitiveThrows (JS.optGet e "hours"))
              && negb (JS.truthy (JS.optGet e "earnings")
                       && JS.toPrimitiveThrows (JS.optGet e "earnings"))
              = true).
  { unfold entryShape in Hs. rewrite Hk in Hs.
    destruct e; try discriminate; exact Hs. }
  apply andb_true_iff in E as [E He]. apply andb_true_iff in E as [E Hh].
  apply andb_true_iff in E as [Est Hd].
  apply negb_true_iff in Hd, Hh, He.
  unfold normalizeDate. rewrite Hd.
  unfold normalizeShiftType.
  destruct (JS.or (JS.optGet e "shift_type") (JStr EmptyString));
    try discriminate.
  unfold hoursOf, earningsOf, toNumber, JS.ToNumber, rbind. rewrite Hh.
  destruct (JS.truthy (JS.optGet e "earnings")); [|eauto].
  cbn [andb] in He. rewrite He. eauto.
Qed.

(** A parsed array whose entries have the expected shape is accepted. *)
Lemma validEntries_total (env : Env) (elems : list JSValue)
  (own : list (string * JSValue)) :
  Forall (fun e => entryShape e = true) elems ->
  exists out, validEntries env (JArr elems own) = Ok out.
Proof.
  intros H. unfold validEntries, rbind. cbn [elementsOf].
  rewrite (filterR_total (keepEntry env) hasDateAndHours).
  - apply mapR_total. apply Forall_forall. intros e He.
    apply filter_In in He as [He Hk].
    rewrite Forall_forall in H. now apply normalizeEntry_total; auto.
  - apply Forall_forall. intros e He. rewrite Forall_forall in H.
    apply keepEntry_total, entryShape_notNullish. auto.
Qed.

(** C1, as the code has it. A success of [parseTimesheetWithAI] carries
    the array obtained from a parsed array by dropping every entry whose
    date or hours is missing (falsy) and rewriting the others one by one,
    in order: each returned entry has a truthy (for a string, non-empty)
    date and hours that are a number, neither zero nor [NaN], namely the
    coerced source value, or 8 when the coercion gives [NaN] or zero. The
    sign of the hours is not looked at. *)
Theorem parseTimesheetWithAI_entries (env : Env) (apiKey : string)
  (content image : option string) (t t' : Trace) (d : JSValue) :
  parseTimesheetWithAI env apiKey content image t = (Ok (AISuccess d), t') ->
  exists json elems own out,
    JSON_parse env json = Ok (JArr elems own)
    /\ d = JArr out []
    /\ Forall2 (entryNormalized env) (filter hasDateAndHours elems) out.
Proof.
  intros H. apply parseTimesheetWithAI_success in H as [json H].
  apply timesheetOfJSON_Ok in H as (elems & own & out & Hp & -> & H).
  exists json, elems, own, out. repeat split; [exact Hp|].
  revert H. apply Forall2_filter_impl. intros e o Hk He.
  now apply normalizeEntry_normalized.
Qed.

Lemma parseTimesheetWithAI_entries_witness :
  exists json elems own out,
    JSON_parse (Sample.answering Sample.nightShiftJSON Sample.nightShift) json
    = Ok (JArr elems own)
    /\ JArr [JObj [("date", JStr "2024-01-15");
                   ("shift_type", JStr "graveyard");
                   ("hours", JNum (ofZ 8));
                   ("job_name", JStr "Imported");
                   ("earnings", JUndefined)]] []
       = JArr out []
    /\ Forall2
         (entryNormalized
            (Sample.answering Sample.nightShiftJSON Sample.nightShift))
         (filter hasDateAndHours elems) out.
Proof.
  apply (parseTimesheetWithAI_entries
           (Sample.answering Sample.nightShiftJSON Sample.nightShift)
           "sk-ant-key" None None []
           (snd (parseTimesheetWithAI
                   (Sample.answering Sample.nightShiftJSON Sample.nightShift)
                   "sk-ant-key" None None []))).
  vm_compute. reflexivity.
Defined.

(** C1, as the claim has it, fails: the model answers
    [[{"date":"2024-01-15","hours":-5}]] and the entry is returned with
    its negative hours. *)
Lemma negative_hours_returned :
  fst (parseTimesheetWithAI
         (Sample.answering Sample.negativeHoursJSON Sample.negativeHours)
         "sk-ant-key" None None [])
  = Ok (AISuccess
          (JArr [JObj [("date", JStr "2024-01-15");
                       ("hours", JNum (ofZ (-5)));
                       ("shift_type", JStr "day");
                       ("job_name", JStr "Imported");
                       ("earnings", JUndefined)]] []))
  /\ isPositive (ofZ (-5)) = false.
Proof. split; vm_compute; reflexivity. Qed.

(** C10, as the code has it. In a success of [parseTimesheetWithAI] the
    earnings of each returned entry are [undefined] when the source
    earnings are falsy and the coerced source value otherwise; they are
    never zero when the source is a JSON number, a boolean, [null] or
    absent. *)
Theorem parseTimesheetWithAI_earnings (env : Env) (apiKey : string)
  (content image : option string) (t t' : Trace) (d : JSValue) :
  parseTimesheetWithAI env apiKey content image t = (Ok (AISuccess d), t') ->
  exists json elems own out,
    JSON_parse env json = Ok (JArr elems own)
    /\ d = JArr out []
    /\ Forall2 earningsForwarded (filter hasDateAndHours elems) out.
Proof.
  intros H. apply parseTimesheetWithAI_success in H as [json H].
  apply timesheetOfJSON_Ok in H as (elems & own & out & Hp & -> & H).
  exists json, elems, own, out. repeat split; [exact Hp|].
  revert H. apply Forall2_filter_impl. intros e o _.
  apply normalizeEntry_earnings.
Qed.

Lemma parseTimesheetWithAI_earnings_witness :
  exists json elems own out,
    JSON_parse (Sample.answering Sample.zeroEarningsJSON Sample.zeroEarnings)
               json
    = Ok (JArr elems own)
    /\ JArr [JObj [("date", JStr "2024-01-15");
                   ("hours", JNum (ofZ 8));
                   ("earnings", JNum posZero);
                   ("shift_type", JStr "day");
                   ("job_name", JStr "Imported")]] []
       = JArr out []
    /\ Forall2 earningsForwarded (filter hasDateAndHours elems) out.
Proof.
  apply (parseTimesheetWithAI_earnings
           (Sample.answering Sample.zeroEarningsJSON Sample.zeroEarnings)
           "sk-ant-key" None None []
           (snd (parseTimesheetWithAI
                   (Sample.answering Sample.zeroEarningsJSON
                                     Sample.zeroEarnings)
                   "sk-ant-key" None None []))).
  vm_compute. reflexivity.
Defined.

(** C10, as the claim has it, fails: the model answers
    [[{"date":"2024-01-15","hours":8,"earnings":"0"}]]; the string is
    truthy and coerces to zero, which the returned entry carries. *)
Lemma zero_earnings_returned :
  fst (parseTimesheetWithAI
         (Sample.answering Sample.zeroEarningsJSON Sample.zeroEarnings)
         "sk-ant-key" None None [])
  = Ok (AISuccess
          (JArr [JObj [("date", JStr "2024-01-15");
                       ("hours", JNum (ofZ 8));
                       ("earnings", JNum posZero);
                       ("shift_type", JStr "day");
                       ("job_name", JStr "Imported")]] []))
  /\ isZeroValue (JNum posZero) = true.
Proof. split; vm_compute; reflexivity. Qed.

(** ** Paystub *)

Lemma setR_Ok (env : Env) (v v' x : JSValue) (k : string) :
  setR env v k x = Ok v' ->
  notNullish v' = true
  /\ JS.optGet v' k = x
  /\ forall k', k' <> k -> JS.optGet v' k' = JS.optGet v k'.
Proof.
  destruct v; cbn; intros H; try discriminate; inversion H; subst;
    unfold JS.optGet; cbn [JS.get JS.orUndefined notNullish];
    (repeat split;
     [now rewrite lookup_assign_same
     | intros k' Hne; now rewrite lookup_assign_other]).
Qed.

(** After the two repairs the line items are an array. *)
Lemma normalizePaystub_Ok (env : Env) (data data' : JSValue) :
  normalizePaystub env data = Ok data' ->
  notNullish data' = true
  /\ JS.isArray (JS.optGet data' "line_items") = true.
Proof.
  unfold normalizePaystub, rbind.
  destruct (getR env data "total_hours") as [th|] eqn:Et; [|discriminate].
  apply getR_Ok in Et as [-> Hn].
  rewrite (getR_notNullish env data "hours_worked" Hn).
  set (c := JS.truthy (JS.optGet data "total_hours")
            && negb (JS.truthy (JS.optGet data "hours_worked"))).
  assert (E : forall d1, (if c then setR env data "hours_worked"
                                     (JS.optGet data "total_hours")
                          else Ok data) = Ok d1 -> notNullish d1 = true).
  { intros d1. destruct c.
    - intros H. now apply setR_Ok in H.
    - now intros [= <-]. }
  destruct (if c then _ else _) as [d1|] eqn:E1; [|discriminate].
  specialize (E d1 eq_refl). rewrite (getR_notNullish env d1 "line_items" E).
  destruct (JS.isArray (JS.optGet d1 "line_items")) eqn:Ea.
  - now intros [= <-].
  - intros H. apply setR_Ok in H as (Hn' & Hl & _). now rewrite Hl.
Qed.

(** An object, and an array, is always repaired. *)
Lemma normalizePaystub_total (env : Env) (data : JSValue) :
  (exists props, data = JObj props)
  \/ (exists elems own, data = JArr elems own) ->
  exists data', normalizePaystub env data = Ok data'.
Proof.
  intros [[props ->]|(elems & own & ->)]; unfold normalizePaystub, rbind;
    cbn [getR JS.get];
    match goal with
    | |- context [if ?c then setR _ _ _ _ else _] => destruct c
    end; cbn [setR JS.set getR JS.get];
    match goal with
    | |- context [if ?c then Ok _ else _] => destruct c
    end; eauto.
Qed.

Lemma hasPayData_normalized (env : Env) (data : JSValue) :
  notNullish data = true ->
  JS.isArray (JS.optGet data "line_items") = true ->
  hasPayData env data = Ok (payPresent data).
Proof.
  intros Hn Ha. unfold hasPayData, payPresent, rbind.
  rewrite !(getR_notNullish env data _ Hn).
  destruct (JS.truthy (JS.optGet data "gross_pay")); [reflexivity|].
  destruct (JS.truthy (JS.optGet data "net_pay")); [reflexivity|].
  destruct (JS.optGet data "line_items") as [| | | | |[|x l] own|];
    try discriminate; reflexivity.
Qed.

Lemma paystubOfData_spec (env : Env) (response : string)
  (data data' : JSValue) :
  normalizePaystub env data = Ok data' ->
  paystubOfData env response data
  = Ok (if payPresent data' then AISuccess data'
        else AIFailure (noPayData response)).
Proof.
  intros H. unfold paystubOfData, rbind. rewrite H.
  apply normalizePaystub_Ok in H as [Hn Ha].
  now rewrite (hasPayData_normalized env data' Hn Ha).
Qed.

Lemma paystubOfData_success (env : Env) (response : string)
  (data d : JSValue) :
  paystubOfData env response data = Ok (AISuccess d) ->
  normalizePaystub env data = Ok d /\ payPresent d = true.
Proof.
  intros H. unfold paystubOfData, rbind in H.
  destruct (normalizePaystub env data) as [data'|] eqn:En; [|discriminate].
  pose proof (normalizePaystub_Ok env data data' En) as [Hn Ha].
  rewrite (hasPayData_normalized env data' Hn Ha) in H.
  destruct (payPresent data') eqn:Ep; [|discriminate].
  inversion H; subst. auto.
Qed.

Lemma substring_prefix (n : nat) (s : string) :
  String.prefix (String.substring 0 n s) s = true
  /\ String.length (String.substring 0 n s) = Nat.min n (String.length s).
Proof.
  revert n. induction s as [|c s IH]; intros [|n]; cbn; auto.
  destruct (IH n) as [Hp Hl]. destruct (ascii_dec c c); [|congruence].
  now rewrite Hl.
Qed.

(** [response.substring(0, 200)] is the response cut at 200 code units. *)
Lemma excerpt_prefix (response : string) :
  String.prefix (substring2 response 0 200) response = true
  /\ len (substring2 response 0 200) = Z.min 200 (len response).
Proof.
  unfold substring2, clamp. pose proof (len_nonneg response) as Hl.
  replace (Z.min (Z.max 0 (Z.min 0 (len response)))
                 (Z.max 0 (Z.min 200 (len response)))) with 0 by lia.
  replace (Z.max (Z.max 0 (Z.min 0 (len response)))
                 (Z.max 0 (Z.min 200 (len response))) - 0)
    with (Z.min 200 (len response)) by lia.
  change (Z.to_nat 0) with 0%nat.
  destruct (substring_prefix (Z.to_nat (Z.min 200 (len response))) response)
    as [Hp Hn].
  split; [exact Hp|]. unfold len in *. rewrite Hn. lia.
Qed.

Lemma paystubPrimary_run (env : Env) (apiKey image response : string)
  (t t1 : Trace) (data : JSValue) :
  callClaude env apiKey paystubPrompt (Some image) t = (Ok response, t1) ->
  JSON_parse env (firstObject (extractJSON response)) = Ok data ->
  paystubPrimary env apiKey image t
  = (paystubOfData env response data, t1).
Proof.
  intros Hc Hp. unfold paystubPrimary, bind, lift. now rewrite Hc, Hp.
Qed.

(** C4. [parsePaystubWithClaude] returns success exactly when the reply
    was obtained, parsed and repaired, and the repaired data holds a gross
    pay, a net pay or a non-empty array of line items (each read as the
    code tests it: zero, [null] and the empty string count as absent);
    when the repaired data holds none of them the failure message ends
    with the first 200 code units of the raw reply. *)
Theorem parsePaystubWithClaude_success_criterion (env : Env)
  (apiKey image : string) (t : Trace) :
  (forall d t',
      parsePaystubWithClaude env apiKey image t = (Ok (AISuccess d), t')
      <-> exists response data,
            callClaude env apiKey paystubPrompt (Some image) t
            = (Ok response, t')
            /\ JSON_parse env (firstObject (extractJSON response)) = Ok data
            /\ normalizePaystub env data = Ok d
            /\ payPresent d = true)
  /\ (forall response t1 data data',
         callClaude env apiKey paystubPrompt (Some image) t
         = (Ok response, t1) ->
         JSON_parse env (firstObject (extractJSON response)) = Ok data ->
         normalizePaystub env data = Ok data' ->
         payPresent data' = false ->
         exists excerpt,
           String.prefix excerpt response = true
           /\ len excerpt = Z.min 200 (len response)
           /\ parsePaystubWithClaude env apiKey image t
              = (Ok (AIFailure
                       ("No pay data found. Claude returned: " ++ excerpt)),
                 t1)).
Proof.
  split.
  - intros d t'. split.
    + unfold parsePaystubWithClaude, tryCatch.
      destruct (paystubPrimary env apiKey image t) as [[r|e] t1] eqn:Ep;
        [|discriminate].
      intros [= -> ->]. unfold paystubPrimary in Ep.
      apply bind_Ok in Ep as (response & t2 & Hc & Ep).
      apply bind_Ok in Ep as (data & t3 & Hp & Ep).
      apply lift_inv in Hp as [Hp ->]. apply lift_inv in Ep as [Ep ->].
      apply paystubOfData_success in Ep as [Hn Hpay].
      exists response, data. auto.
    + intros (response & data & Hc & Hp & Hn & Hpay).
      unfold parsePaystubWithClaude, tryCatch.
      rewrite (paystubPrimary_run env apiKey image response t t' data Hc Hp).
      now rewrite (paystubOfData_spec env response data d Hn), Hpay.
  - intros response t1 data data' Hc Hp Hn Hpay.
    exists (substring2 response 0 200).
    destruct (excerpt_prefix response) as [Hpre Hlen].
    repeat split; [exact Hpre | exact Hlen |].
    unfold parsePaystubWithClaude, tryCatch.
    rewrite (paystubPrimary_run env apiKey image response t t1 data Hc Hp).
    now rewrite (paystubOfData_spec env response data data' Hn), Hpay.
Qed.

Lemma parsePaystubWithClaude_success_criterion_witness :
  exists excerpt,
    String.prefix excerpt Sample.noPayJSON = true
    /\ len excerpt = Z.min 200 (len Sample.noPayJSON)
    /\ parsePaystubWithClaude (Sample.answering Sample.noPayJSON Sample.noPay)
         "sk-ant-key" Sample.jpegScan []
       = (Ok (AIFailure ("No pay data found. Claude returned: " ++ excerpt)),
          snd (parsePaystubWithClaude
                 (Sample.answering Sample.noPayJSON Sample.noPay)
                 "sk-ant-key" Sample.jpegScan [])).
Proof.
  apply (proj2 (parsePaystubWithClaude_success_criterion
                  (Sample.answering Sample.noPayJSON Sample.noPay)
                  "sk-ant-key" Sample.jpegScan [])
               Sample.noPayJSON _ Sample.noPay Sample.noPay).
  - vm_compute. reflexivity.
  - vm_compute. reflexivity.
  - vm_compute. reflexivity.
  - vm_compute. reflexivity.
Defined.

(** ** Statutory holidays *)

Lemma keepHoliday_total (env : Env) (h : JSValue) :
  notNullish h = true -> keepHoliday env h = Ok (holidayComplete h).
Proof.
  intros Hn. unfold keepHoliday, holidayComplete, rbind.
  rewrite (getR_notNullish env h "name" Hn).
  destruct (JS.truthy (JS.optGet h "name")); [|reflexivity].
  rewrite (getR_notNullish env h "date" Hn).
  destruct (JS.truthy (JS.optGet h "date")); [|reflexivity].
  rewrite (getR_notNullish env h "qualification_start" Hn).
  destruct (JS.truthy (JS.optGet h "qualification_start")); [|reflexivity].
  now rewrite (getR_notNullish env h "qualification_end" Hn).
Qed.

(** On a parsed value without [null] where an object is read, the code
    computes the outcome the spec describes. *)
Lemma statScheduleOfData_spec (env : Env) (data : JSValue) :
  notNullish data = true ->
  Forall (fun h => notNullish h = true) (holidaysOf data) ->
  statScheduleOfData env data = Ok (statScheduleSpec data).
Proof.
  intros Hn Hh. unfold statScheduleOfData, statScheduleSpec, rbind.
  rewrite (getR_notNullish env data "error" Hn).
  destruct (JS.truthy (JS.optGet data "error")); [reflexivity|].
  rewrite (getR_notNullish env data "year" Hn).
  rewrite (getR_notNullish env data "holidays" Hn).
  unfold holidaysOf in *.
  destruct (JS.truthy (JS.optGet data "year")); cbn [negb orb andb];
    [|reflexivity].
  destruct (JS.optGet data "holidays") as [| |b|n|s|elems own|props];
    cbn [JS.isArray negb]; rewrite ?orb_true_r; try reflexivity.
  cbn [JS.truthy negb orb elementsOf].
  rewrite (filterR_total (keepHoliday env) holidayComplete).
  - now destruct (filter holidayComplete elems).
  - revert Hh. apply Forall_impl. intros h. apply keepHoliday_total.
Qed.

(** A failure built from the parsed data carries one of the two fixed
    messages or the truthy [error] field of the data. *)
Lemma statScheduleOfData_failure (env : Env) (data err : JSValue) :
  statScheduleOfData env data = Ok (StatFailure err) ->
  (exists m, err = JStr m)
  \/ (JS.truthy err = true /\ err = JS.optGet data "error").
Proof.
  unfold statScheduleOfData, rbind.
  destruct (getR env data "error") as [error|] eqn:Ee; [|discriminate].
  apply getR_Ok in Ee as [-> Hn].
  destruct (JS.truthy (JS.optGet data "error")) eqn:Et.
  - intros [= <-]. now right.
  - rewrite !(getR_notNullish env data _ Hn).
    destruct (negb _ || negb _ || negb _).
    + intros [= <-]. left. eauto.
    + destruct (elementsOf env _ _) as [elems|]; [|discriminate].
      destruct (filterR (keepHoliday env) elems) as [[|h l]|];
        try discriminate.
      intros [= <-]. left. eauto.
Qed.

(** ** The provider adapters and the trace *)

Ltac run_cases :=
  repeat (cbv beta iota zeta;
          match goal with
          | |- context [match ?x with _ => _ end] => destruct x
          end);
  cbv beta iota zeta; try reflexivity.

(** [callClaude] issues its one POST, whatever the outcome. *)
Lemma callClaude_trace (env : Env) (apiKey prompt : string)
  (image : option string) (t : Trace) :
  snd (callClaude env apiKey prompt image t)
  = (t ++ [AnthropicPost apiKey (claudeContent prompt image)])%list.
Proof.
  unfold callClaude, bind, request, lift, throw, ret, typeError.
  generalize (claudeContent prompt image). intros content. run_cases.
Qed.

(** [callGemini] issues its one [fetch], whatever the outcome. *)
Lemma callGemini_trace (env : Env) (apiKey prompt : string)
  (image : option string) (t : Trace) :
  snd (callGemini env apiKey prompt image t)
  = (t ++ [GeminiFetch apiKey (geminiParts prompt image)])%list.
Proof.
  unfold callGemini, bind, request, lift, throw, ret, getR, typeError.
  generalize (geminiParts prompt image). intros parts. run_cases.
Qed.

Lemma bind_lift_trace {A B} (c : M A) (f : A -> Result B) (t : Trace) :
  snd (bind c (fun a => lift (f a)) t) = snd (c t).
Proof. unfold bind, lift. now destruct (c t) as [[a|e] t1]. Qed.

Lemma requireGeminiKey_missing (env : Env) (t : Trace) :
  ENV_GEMINI_KEY env = EmptyString ->
  requireGeminiKey env t
  = (Throw (ErrorInstance "No Gemini API key available"), t).
Proof.
  intros H. unfold requireGeminiKey, getGeminiApiKey, throw. now rewrite H.
Qed.

Lemma requireGeminiKey_present (env : Env) (t : Trace) :
  ENV_GEMINI_KEY env <> EmptyString ->
  requireGeminiKey env t = (Ok (ENV_GEMINI_KEY env), t).
Proof.
  intros H. unfold requireGeminiKey, getGeminiApiKey, ret.
  apply String.eqb_neq in H. now rewrite H.
Qed.

Lemma timesheetPrimary_trace (env : Env) (apiKey : string)
  (content image : option string) (t : Trace) :
  snd (timesheetPrimary env apiKey content image t)
  = (t ++ [AnthropicPost apiKey
                         (claudeContent (timesheetPrompt content) image)])%list.
Proof.
  unfold timesheetPrimary. rewrite bind_lift_trace. apply callClaude_trace.
Qed.

Lemma statSchedulePrimary_trace (env : Env) (apiKey image : string)
  (t : Trace) :
  snd (statSchedulePrimary env apiKey image t)
  = (t ++ [AnthropicPost apiKey
                         (claudeContent statSchedulePrompt (Some image))])%list.
Proof.
  unfold statSchedulePrimary. rewrite bind_lift_trace. apply callClaude_trace.
Qed.

(** What follows the backup call touches the trace no more. *)
Lemma after_call_trace {A B} (c : M JSValue) (f : JSValue -> Result A)
  (g : A -> Result B) (t : Trace) :
  snd (bind c (fun r => bind (lift (f r)) (fun a => lift (g a))) t)
  = snd (c t).
Proof.
  unfold bind, lift. destruct (c t) as [[r|e] t1]; [|reflexivity].
  now destruct (f r).
Qed.

Lemma timesheetBackup_trace (env : Env) (content image : option string)
  (t : Trace) :
  ENV_GEMINI_KEY env <> EmptyString ->
  snd (timesheetBackup env content image t)
  = (t ++ [GeminiFetch (ENV_GEMINI_KEY env)
                       (geminiParts (timesheetPrompt content) image)])%list.
Proof.
  intros H. unfold timesheetBackup. unfold bind at 1.
  rewrite (requireGeminiKey_present env t H).
  rewrite after_call_trace. apply callGemini_trace.
Qed.

Lemma statScheduleBackup_trace (env : Env) (image : string) (t : Trace) :
  ENV_GEMINI_KEY env <> EmptyString ->
  snd (statScheduleBackup env image t)
  = (t ++ [GeminiFetch (ENV_GEMINI_KEY env)
                       (geminiParts statSchedulePrompt (Some image))])%list.
Proof.
  intros H. unfold statScheduleBackup. unfold bind at 1.
  rewrite (requireGeminiKey_present env t H).
  rewrite after_call_trace. apply callGemini_trace.
Qed.


(** ** The statutory-holiday operation *)

Lemma statScheduleOfJSON_spec (env : Env) (jsonStr : string) (data : JSValue) :
  JSON_parse env (firstObject jsonStr) = Ok data ->
  notNullish data = true ->
  Forall (fun h => notNullish h = true) (holidaysOf data) ->
  statScheduleOfJSON env jsonStr = Ok (statScheduleSpec data).
Proof.
  intros Hp Hn Hh. unfold statScheduleOfJSON, rbind. rewrite Hp.
  now apply statScheduleOfData_spec.
Qed.

(** C5, as the code has it. Let the reply parse to a value other than
    [null] whose holidays, when they are an array, hold no [null]. Then
    [parseStatScheduleWithAI] returns, from the primary reply and from
    the backup reply alike: a failure carrying the parsed [error] field
    when that field is truthy; else the failure [Invalid data format]
    when the year is falsy or the holidays are not an array; else the
    failure [No valid holidays found] when no holiday has its four
    required fields truthy; else success with the year and exactly the
    holidays that have them, in order. *)
Theorem parseStatScheduleWithAI_outcome (env : Env) (apiKey image : string)
  (t : Trace) (data : JSValue) :
  notNullish data = true ->
  Forall (fun h => notNullish h = true) (holidaysOf data) ->
  (forall response t1,
      callClaude env apiKey statSchedulePrompt (Some image) t
      = (Ok response, t1) ->
      JSON_parse env (firstObject (extractJSON response)) = Ok data ->
      parseStatScheduleWithAI env apiKey image t
      = (Ok (statScheduleSpec data), t1))
  /\ (forall e t1 response t2,
         statSchedulePrimary env apiKey image t = (Throw e, t1) ->
         ENV_GEMINI_KEY env <> EmptyString ->
         callGemini env (ENV_GEMINI_KEY env) statSchedulePrompt (Some image) t1
         = (Ok (JStr response), t2) ->
         JSON_parse env (firstObject (extractJSON response)) = Ok data ->
         parseStatScheduleWithAI env apiKey image t
         = (Ok (statScheduleSpec data), t2)).
Proof.
  intros Hn Hh. split.
  - intros response t1 Hc Hp.
    unfold parseStatScheduleWithAI. rewrite fallback_run.
    unfold statSchedulePrimary, bind, lift. rewrite Hc.
    now rewrite (statScheduleOfJSON_spec env _ data Hp Hn Hh).
  - intros e t1 response t2 He Hk Hc Hp.
    unfold parseStatScheduleWithAI. rewrite fallback_run, He.
    unfold statScheduleBackup, bind.
    rewrite (requireGeminiKey_present env t1 Hk), Hc.
    unfold lift. cbn [extractJSONOf].
    now rewrite (statScheduleOfJSON_spec env _ data Hp Hn Hh).
Qed.

Lemma parseStatScheduleWithAI_outcome_witness :
  parseStatScheduleWithAI
    (Sample.answering Sample.canadaDayJSON Sample.canadaDaySchedule)
    "sk-ant-key" Sample.jpegScan []
  = (Ok (statScheduleSpec Sample.canadaDaySchedule),
     [AnthropicPost "sk-ant-key"
        (claudeContent statSchedulePrompt (Some Sample.jpegScan))]).
Proof.
  refine (proj1 (parseStatScheduleWithAI_outcome
                   (Sample.answering Sample.canadaDayJSON
                                     Sample.canadaDaySchedule)
                   "sk-ant-key" Sample.jpegScan [] Sample.canadaDaySchedule
                   _ _)
                Sample.canadaDayJSON _ _ _).
  - reflexivity.
  - repeat constructor.
  - vm_compute. reflexivity.
  - vm_compute. reflexivity.
Defined.

(** The two scenarios of the spec. *)
Example stat_schedule_sentinel :
  fst (parseStatScheduleWithAI
         (Sample.answering Sample.notScheduleJSON Sample.notSchedule)
         "sk-ant-key" Sample.jpegScan [])
  = Ok (StatFailure (JStr "not_stat_schedule")).
Proof. vm_compute. reflexivity. Qed.

Example stat_schedule_canada_day :
  statScheduleSpec Sample.canadaDaySchedule
  = StatSuccess (JNum (ofZ 2026)) [Sample.canadaDay]
  /\ JS.optGet Sample.canadaDay "pay_date" = JUndefined.
Proof. split; vm_compute; reflexivity. Qed.

(** C5, as the claim has it, fails: the reply
    [{"year":2026,"holidays":[null]}] holds no holiday with the four
    fields, yet reading [name] through [null] throws in any environment,
    and with no backup key the operation reports that [TypeError] instead
    of [No valid holidays found]. *)
Lemma null_holiday_throws :
  filter holidayComplete (holidaysOf Sample.nullHoliday) = []
  /\ (forall env,
         statScheduleOfData env Sample.nullHoliday
         = Throw (ErrorInstance (typeErrorMessage env (ReadOfNullish "name"))))
  /\ fst (parseStatScheduleWithAI
            (Sample.answering Sample.nullHolidayJSON Sample.nullHoliday)
            "sk-ant-key" Sample.jpegScan [])
     = Ok (StatFailure
             (JStr "Cannot read properties of null (reading 'name')")).
Proof.
  split; [reflexivity|]. split; [intros env; reflexivity|].
  vm_compute. reflexivity.
Qed.

(** ** Fallback *)




(** C3, as the code has it. For the timesheet and the stat-schedule
    operation alike, when the primary block throws and the backup block
    throws after it, whatever the backup block threw: the failure carries
    the message of the primary error when what the primary block threw is
    an [Error], and the fixed text of the operation when it is anything
    else. *)
Theorem primary_error_surfaces (env : Env) :
  (forall (apiKey : string) (content image : option string)
          (t t1 t2 : Trace) (e e' : Thrown),
      timesheetPrimary env apiKey content image t = (Throw e, t1) ->
      timesheetBackup env content image t1 = (Throw e', t2) ->
      (forall message,
          e = ErrorInstance message ->
          parseTimesheetWithAI env apiKey content image t
          = (Ok (AIFailure message), t2))
      /\ (forall v,
             e = NonError v ->
             parseTimesheetWithAI env apiKey content image t
             = (Ok (AIFailure "Failed to parse timesheet"), t2)))
  /\ (forall (apiKey image : string) (t t1 t2 : Trace) (e e' : Thrown),
         statSchedulePrimary env apiKey image t = (Throw e, t1) ->
         statScheduleBackup env image t1 = (Throw e', t2) ->
         (forall message,
             e = ErrorInstance message ->
             parseStatScheduleWithAI env apiKey image t
             = (Ok (StatFailure (JStr message)), t2))
         /\ (forall v,
                e = NonError v ->
                parseStatScheduleWithAI env apiKey image t
                = (Ok (StatFailure (JStr "Failed to parse stat schedule")),
                   t2))).
Proof.
  split.
  - intros apiKey content image t t1 t2 e e' Hp Hb.
    unfold parseTimesheetWithAI. rewrite fallback_run, Hp, Hb.
    split; intros x ->; reflexivity.
  - intros apiKey image t t1 t2 e e' Hp Hb.
    unfold parseStatScheduleWithAI. rewrite fallback_run, Hp, Hb.
    split; intros x ->; reflexivity.
Qed.

Lemma primary_error_surfaces_witness :
  parseTimesheetWithAI (Sample.offline "backup-key") "sk-ant-key" None None []
  = (Ok (AIFailure "Network request failed"),
     [AnthropicPost "sk-ant-key" (claudeContent (timesheetPrompt None) None);
      GeminiFetch "backup-key" (geminiParts (timesheetPrompt None) None)]).
Proof.
  refine (proj1 (proj1 (primary_error_surfaces (Sample.offline "backup-key"))
                   "sk-ant-key" None None []
                   [AnthropicPost "sk-ant-key"
                      (claudeContent (timesheetPrompt None) None)]
                   _ (ErrorInstance "Network request failed")
                   (ErrorInstance "Failed to fetch") _ _)
            "Network request failed" _).
  - vm_compute. reflexivity.
  - vm_compute. reflexivity.
  - reflexivity.
Defined.

(** C3, as the claim has it, fails: the request to the primary provider
    is rejected with a plain object that has a message and is not an
    [Error], the backup fails after it, and the failure carries the fixed
    text of the operation, not the message of the primary rejection. *)
Lemma non_error_message_dropped :
  timesheetPrimary Scenario.plainRejection "sk-ant-key" None None []
  = (Throw (NonError (JObj [("message", JStr "Request timed out")])),
     [AnthropicPost "sk-ant-key" (claudeContent (timesheetPrompt None) None)])
  /\ fst (timesheetBackup Scenario.plainRejection None None
            [AnthropicPost "sk-ant-key"
               (claudeContent (timesheetPrompt None) None)])
     = Throw (ErrorInstance "Failed to fetch")
  /\ parseTimesheetWithAI Scenario.plainRejection "sk-ant-key" None None []
     = (Ok (AIFailure "Failed to parse timesheet"),
        [AnthropicPost "sk-ant-key"
           (claudeContent (timesheetPrompt None) None);
         GeminiFetch "backup-key" (geminiParts (timesheetPrompt None) None)])
  /\ "Failed to parse timesheet" <> "Request timed out".
Proof.
  repeat split; try (vm_compute; reflexivity). discriminate.
Qed.

(** ** Nothing escapes a public operation *)

Lemma statScheduleOfJSON_failure (env : Env) (jsonStr : string)
  (err : JSValue) :
  statScheduleOfJSON env jsonStr = Ok (StatFailure err) ->
  (exists m, err = JStr m)
  \/ (JS.truthy err = true
      /\ exists json data,
           JSON_parse env json = Ok data /\ err = JS.optGet data "error").
Proof.
  unfold statScheduleOfJSON, rbind.
  destruct (JSON_parse env (firstObject jsonStr)) as [data|] eqn:Ep;
    [|discriminate].
  intros H. apply statScheduleOfData_failure in H as [H|[Ht He]]; eauto 6.
Qed.

(** C6, as the code has it. Each public operation returns a value of its
    result type on every input and in every environment: whatever is
    thrown inside is turned into a failure. The failure of the timesheet
    and of the paystub operation carries a string; the failure of the
    stat-schedule operation carries a string, or else the truthy [error]
    field of the parsed reply, forwarded whatever its JSON type. *)
Theorem operations_never_throw (env : Env) :
  (forall (apiKey : string) (content image : option string) (t : Trace),
      exists (r : AIResponse) (t' : Trace),
        parseTimesheetWithAI env apiKey content image t = (Ok r, t'))
  /\ (forall (apiKey image : string) (t : Trace),
         exists (r : AIResponse) (t' : Trace),
           parsePaystubWithClaude env apiKey image t = (Ok r, t'))
  /\ (forall (apiKey image : string) (t : Trace),
         exists (r : StatScheduleResponse) (t' : Trace),
           parseStatScheduleWithAI env apiKey image t = (Ok r, t')
           /\ forall err,
                r = StatFailure err ->
                (exists m, err = JStr m)
                \/ (JS.truthy err = true
                    /\ exists json data,
                         JSON_parse env json = Ok data
                         /\ err = JS.optGet data "error")).
Proof.
  repeat split.
  - intros apiKey content image t.
    unfold parseTimesheetWithAI. rewrite fallback_run.
    destruct (timesheetPrimary env apiKey content image t) as [[r|e] t1];
      [eauto|].
    destruct (timesheetBackup env content image t1) as [[r|e'] t2]; eauto.
  - intros apiKey image t. unfold parsePaystubWithClaude, tryCatch, ret.
    destruct (paystubPrimary env apiKey image t) as [[r|e] t1]; eauto.
  - intros apiKey image t.
    unfold parseStatScheduleWithAI. rewrite fallback_run.
    destruct (statSchedulePrimary env apiKey image t) as [[r|e] t1] eqn:Ep.
    + exists r, t1. split; [reflexivity|]. intros err ->.
      unfold statSchedulePrimary in Ep.
      apply bind_Ok in Ep as (response & t2 & _ & Hl).
      apply lift_inv in Hl as [Hl _].
      now apply statScheduleOfJSON_failure in Hl.
    + destruct (statScheduleBackup env image t1) as [[r|e'] t2] eqn:Eb.
      * exists r, t2. split; [reflexivity|]. intros err ->.
        unfold statScheduleBackup in Eb.
        apply bind_Ok in Eb as (key & t3 & _ & Eb).
        apply bind_Ok in Eb as (response & t4 & _ & Eb).
        apply bind_Ok in Eb as (jsonStr & t5 & _ & Hl).
        apply lift_inv in Hl as [Hl _].
        now apply statScheduleOfJSON_failure in Hl.
      * eexists _, t2. split; [reflexivity|]. intros err [= <-]. eauto.
Qed.

(** C6, as the claim has it, fails: the model answers [{"error":42}] and
    the failure of [parseStatScheduleWithAI] carries the number 42, not a
    message string. *)
Lemma numeric_error_forwarded :
  fst (parseStatScheduleWithAI
         (Sample.answering Sample.numericErrorJSON Sample.numericError)
         "sk-ant-key" Sample.jpegScan [])
  = Ok (StatFailure (JNum (ofZ 42)))
  /\ ~ (exists m, JNum (ofZ 42) = JStr m).
Proof.
  split; [vm_compute; reflexivity|]. intros [m H]. discriminate.
Qed.

(** ** Scenarios *)

(** The fenced timesheet reply of the spec: one graveyard entry of 8
    hours under the placeholder job name. *)
Example timesheet_fenced_night_shift :
  extractJSON (Sample.fenced Sample.nightShiftJSON) = Sample.nightShiftJSON
  /\ fst (parseTimesheetWithAI
            (Sample.answeringFenced Sample.nightShiftJSON Sample.nightShift)
            "sk-ant-key" None None [])
     = Ok (AISuccess
             (JArr [JObj [("date", JStr "2024-01-15");
                          ("shift_type", JStr "graveyard");
                          ("hours", JNum (ofZ 8));
                          ("job_name", JStr "Imported");
                          ("earnings", JUndefined)]] [])).
Proof. split; vm_compute; reflexivity. Qed.

(** A paystub with a gross pay alone is a success and is returned as it
    was parsed. *)
Example paystub_gross_only :
  fst (parsePaystubWithClaude
         (Sample.answering Sample.grossOnlyJSON Sample.grossOnly)
         "sk-ant-key" Sample.jpegScan [])
  = Ok (AISuccess Sample.grossOnly).
Proof. vm_compute. reflexivity. Qed.

(** An empty array is a success. *)
Example timesheet_empty_array :
  validEntries (Sample.offline EmptyString) (JArr [] []) = Ok [].
Proof. reflexivity. Qed.

(* ================================================================== *)
(** * Further properties *)
(* ================================================================== *)

(** ** Fence stripping *)

Lemma trimEnd_cons (c : ascii) (s : string) :
  trimEnd (String c s)
  = match trimEnd s with
    | EmptyString => if isWhiteSpace c then EmptyString
                     else String c EmptyString
    | r => String c r
    end.
Proof. reflexivity. Qed.

Lemma trimEnd_idempotent (s : string) : trimEnd (trimEnd s) = trimEnd s.
Proof.
  induction s as [|c s IH]; [reflexivity|].
  rewrite trimEnd_cons. destruct (trimEnd s) as [|d r] eqn:E.
  - destruct (isWhiteSpace c) eqn:Ec; [reflexivity|].
    rewrite trimEnd_cons. cbn [trimEnd]. now rewrite Ec.
  - rewrite trimEnd_cons, IH. reflexivity.
Qed.

Lemma trimEnd_head (c : ascii) (s : string) :
  isWhiteSpace c = false -> exists r, trimEnd (String c s) = String c r.
Proof.
  intros Hc. rewrite trimEnd_cons. destruct (trimEnd s); [rewrite Hc|]; eauto.
Qed.

Lemma trimStart_head (s : string) :
  trimStart s = EmptyString
  \/ exists c r, trimStart s = String c r /\ isWhiteSpace c = false.
Proof.
  induction s as [|c s IH]; [now left|].
  cbn [trimStart]. destruct (isWhiteSpace c) eqn:Ec; [exact IH|].
  right. eauto.
Qed.

Lemma trimStart_fixed (c : ascii) (r : string) :
  isWhiteSpace c = false -> trimStart (String c r) = String c r.
Proof. intros H. cbn [trimStart]. now rewrite H. Qed.

Lemma trim_idempotent (s : string) : trim (trim s) = trim s.
Proof.
  unfold trim. destruct (trimStart_head s) as [E|(c & r & E & Hc)]; rewrite E.
  - reflexivity.
  - destruct (trimEnd_head c r Hc) as [r' E'].
    rewrite E', (trimStart_fixed c r' Hc), <- E'. apply trimEnd_idempotent.
Qed.

(** [s.slice(len a)] drops the leading [a]. *)
Lemma slice1_app (a b : string) : slice1 (a ++ b) (len a) = b.
Proof.
  unfold slice1, slice2, slice_index. rewrite len_app.
  pose proof (len_nonneg a). pose proof (len_nonneg b).
  replace (len a <? 0) with false by (symmetry; apply Z.ltb_ge; lia).
  replace (len a + len b <? 0) with false by (symmetry; apply Z.ltb_ge; lia).
  replace (Z.min (len a) (len a + len b)) with (len a) by lia.
  replace (Z.max (Z.min (len a + len b) (len a + len b) - len a) 0)
    with (len b) by lia.
  unfold len. rewrite !Nat2Z.id, substring_skip. apply substring_all.
Qed.

(** [s.slice(0, -len b)] drops the trailing [b]. *)
Lemma slice2_drop_end (a b : string) :
  0 < len b -> slice2 (a ++ b) 0 (- len b) = a.
Proof.
  intros Hb. unfold slice2, slice_index. rewrite len_app.
  pose proof (len_nonneg a).
  replace (0 <? 0) with false by reflexivity.
  replace (- len b <? 0) with true by (symmetry; apply Z.ltb_lt; lia).
  replace (Z.min 0 (len a + len b)) with 0 by lia.
  replace (Z.max (Z.max (len a + len b + - len b) 0 - 0) 0) with (len a) by lia.
  unfold len. rewrite Nat2Z.id. apply substring_head.
Qed.

Lemma endsWith_app (a b : string) : endsWith (a ++ b) b = true.
Proof.
  unfold endsWith. apply andb_true_iff. split.
  - apply Z.leb_le. rewrite len_app. pose proof (len_nonneg a). lia.
  - apply String.eqb_eq.
    replace (String.length (a ++ b) - String.length b)%nat
      with (String.length a).
    + rewrite substring_skip. apply substring_all.
    + pose proof (len_app a b) as H. unfold len in H. lia.
Qed.

Lemma prefix_weaken (a b s : string) :
  String.prefix (a ++ b) s = true -> String.prefix a s = true.
Proof.
  revert s. induction a as [|c a IH]; intros s H.
  - now destruct s.
  - destruct s as [|d s]; [discriminate|]. cbn in *.
    destruct (ascii_dec c d); [now apply IH | discriminate].
Qed.

Lemma prefix_app_cancel (a u s : string) :
  String.prefix (a ++ u) (a ++ s) = String.prefix u s.
Proof.
  induction a as [|c a IH]; [reflexivity|].
  cbn [append String.prefix]. destruct (ascii_dec c c); [exact IH|].
  contradiction.
Qed.

(** X1. What [extractJSON] returns for a reply that, once trimmed, is
    wrapped in a [```json] fence, in a bare [```] fence, or in no fence:
    the trimmed inside of the fence, or the trimmed reply. Its result is
    always trimmed. *)
Theorem extractJSON_fences (response body : string) :
  (trim response = "```json" ++ body ++ "```" ->
   extractJSON response = trim body)
  /\ (trim response = "```" ++ body ++ "```" ->
      startsWith (body ++ "```") "json" = false ->
      extractJSON response = trim body)
  /\ (startsWith (trim response) "```" = false ->
      endsWith (trim response) "```" = false ->
      extractJSON response = trim response)
  /\ trim (extractJSON response) = extractJSON response.
Proof.
  split; [|split; [|split]].
  - intros E. unfold extractJSON. rewrite E.
    replace (startsWith ("```json" ++ body ++ "```") "```json") with true
      by (symmetry; apply (prefix_app "```json")).
    pose proof (slice1_app "```json" (body ++ "```")) as H1.
    change (len "```json") with 7 in H1. rewrite H1, endsWith_app.
    pose proof (slice2_drop_end body "```" eq_refl) as H2.
    change (- len "```") with (-3) in H2. now rewrite H2.
  - intros E Hj. unfold extractJSON. rewrite E.
    assert (E1 : startsWith ("```" ++ body ++ "```") "```json" = false)
      by exact Hj.
    rewrite E1.
    replace (startsWith ("```" ++ body ++ "```") "```") with true
      by (symmetry; apply (prefix_app "```")).
    pose proof (slice1_app "```" (body ++ "```")) as H1.
    change (len "```") with 3 in H1. rewrite H1, endsWith_app.
    pose proof (slice2_drop_end body "```" eq_refl) as H2.
    change (- len "```") with (-3) in H2. now rewrite H2.
  - intros Hs He. unfold extractJSON.
    replace (startsWith (trim response) "```json") with false.
    + rewrite Hs, He. apply trim_idempotent.
    + symmetry. unfold startsWith in *.
      destruct (String.prefix "```json" (trim response)) eqn:E;
        [|reflexivity].
      apply (prefix_weaken "```" "json") in E. congruence.
  - unfold extractJSON. apply trim_idempotent.
Qed.

Lemma extractJSON_fences_witness :
  extractJSON (Sample.fenced Sample.notScheduleJSON) = Sample.notScheduleJSON.
Proof.
  apply (proj1 (extractJSON_fences
                  (Sample.fenced Sample.notScheduleJSON)
                  (String "010" Sample.notScheduleJSON
                   ++ String "010" EmptyString))).
  vm_compute. reflexivity.
Defined.

(** ** Brace matching *)

Lemma lastIndexOfChar_from_absent (c : ascii) (s : string) (i : Z) :
  includes s (String c EmptyString) = false ->
  lastIndexOfChar_from c s i = -1.
Proof.
  revert i. induction s as [|d s IH]; intros i H; [reflexivity|].
  cbn [includes] in H. rewrite prefix_char in H.
  apply orb_false_iff in H as [Hc Hs].
  cbn [lastIndexOfChar_from]. rewrite (IH (i + 1) Hs), Hc. reflexivity.
Qed.

(** The last occurrence of a character that the text after it lacks. *)
Lemma lastIndexOfChar_from_last (c : ascii) (p r : string) (i : Z) :
  0 <= i ->
  includes r (String c EmptyString) = false ->
  lastIndexOfChar_from c (p ++ String c r) i = i + len p.
Proof.
  revert i. induction p as [|d p IH]; intros i Hi Hr.
  - cbn [append lastIndexOfChar_from].
    rewrite (lastIndexOfChar_from_absent c r (i + 1) Hr), Ascii.eqb_refl.
    cbn. unfold len. cbn. lia.
  - cbn [append lastIndexOfChar_from]. rewrite IH by (assumption || lia).
    pose proof (len_nonneg p).
    replace (0 <=? i + 1 + len p) with true by (symmetry; apply Z.leb_le; lia).
    unfold len. cbn [String.length]. rewrite Nat2Z.inj_succ. lia.
Qed.

(** X2. An object wrapped in prose is recovered: when the text before the
    first opening brace has none and the text after the last closing brace
    has none, [firstObject] returns the braces and what they enclose,
    nested objects included. A text without an opening brace, or without a
    closing brace after its first opening brace, is returned as it is. *)
Theorem firstObject_recovers (before inside after : string) :
  (includes before "{" = false ->
   includes after "}" = false ->
   firstObject (before ++ "{" ++ inside ++ "}" ++ after)
   = "{" ++ inside ++ "}")
  /\ (includes before "{" = false ->
      firstObject before = before)
  /\ (includes before "{" = false ->
      includes after "}" = false ->
      firstObject (before ++ "{" ++ after) = before ++ "{" ++ after).
Proof.
  split; [|split].
  - intros Hb Ha. unfold firstObject, matchBraces, indexOf.
    change ("{" ++ inside ++ "}" ++ after)
      with (String "{" (inside ++ "}" ++ after)).
    rewrite (indexOf_from_char "{" before _ 0 Hb).
    pose proof (len_nonneg before) as Hl.
    replace (0 + len before <? 0) with false
      by (symmetry; apply Z.ltb_ge; lia).
    assert (Er : substring1 (before ++ String "{" (inside ++ "}" ++ after))
                            (0 + len before + 1)
                 = inside ++ "}" ++ after).
    { replace (0 + len before + 1) with (len (before ++ "{"))
        by (rewrite len_app; change (len "{") with 1; lia).
      replace (before ++ String "{" (inside ++ "}" ++ after))
        with ((before ++ "{") ++ inside ++ "}" ++ after)
        by (rewrite append_assoc; reflexivity).
      apply substring1_app. }
    rewrite Er.
    change (inside ++ "}" ++ after) with (inside ++ String "}" after).
    rewrite (lastIndexOfChar_from_last "}" inside after 0) by (assumption || lia).
    pose proof (len_nonneg inside) as Hi.
    replace (0 + len inside <? 0) with false
      by (symmetry; apply Z.ltb_ge; lia).
    f_equal.
    replace (0 + len before + 1 + (0 + len inside) + 1)
      with (len before + len ("{" ++ inside ++ "}"))
      by (rewrite !len_app; change (len "{") with 1; change (len "}") with 1;
          lia).
    replace (0 + len before) with (len before) by lia.
    replace (before ++ String "{" (inside ++ String "}" after))
      with (before ++ ("{" ++ inside ++ "}") ++ after).
    + apply substring2_app.
    + rewrite !append_assoc. reflexivity.
  - intros Hb. unfold firstObject, matchBraces, indexOf.
    now rewrite (indexOf_from_absent "{" before 0 Hb).
  - intros Hb Ha. unfold firstObject, matchBraces, indexOf.
    change ("{" ++ after) with (String "{" after).
    rewrite (indexOf_from_char "{" before _ 0 Hb).
    pose proof (len_nonneg before) as Hl.
    replace (0 + len before <? 0) with false
      by (symmetry; apply Z.ltb_ge; lia).
    assert (Er : substring1 (before ++ String "{" after) (0 + len before + 1)
                 = after).
    { replace (0 + len before + 1) with (len (before ++ "{"))
        by (rewrite len_app; change (len "{") with 1; lia).
      replace (before ++ String "{" after) with ((before ++ "{") ++ after)
        by (rewrite append_assoc; reflexivity).
      apply substring1_app. }
    rewrite Er, (lastIndexOfChar_from_absent "}" after 0 Ha). reflexivity.
Qed.

Lemma firstObject_recovers_witness :
  firstObject ("Here is the schedule: " ++ "{"
               ++ (Sample.q "year" ++ ":2026," ++ Sample.q "holidays"
                   ++ ":[{" ++ Sample.q "name" ++ ":"
                   ++ Sample.q "Canada Day" ++ "}]")
               ++ "}" ++ " Let me know if anything is missing.")
  = "{" ++ (Sample.q "year" ++ ":2026," ++ Sample.q "holidays"
            ++ ":[{" ++ Sample.q "name" ++ ":" ++ Sample.q "Canada Day"
            ++ "}]") ++ "}".
Proof.
  apply (proj1 (firstObject_recovers
                  "Here is the schedule: "
                  (Sample.q "year" ++ ":2026," ++ Sample.q "holidays"
                   ++ ":[{" ++ Sample.q "name" ++ ":"
                   ++ Sample.q "Canada Day" ++ "}]")
                  " Let me know if anything is missing.")).
  - vm_compute. reflexivity.
  - vm_compute. reflexivity.
Defined.

(** ** The media decoder, continued *)

Lemma indexOf_from_cons (c d : ascii) (s : string) (i : Z) :
  indexOf_from (String c EmptyString) (String d s) i
  = if Ascii.eqb c d then i
    else indexOf_from (String c EmptyString) s (i + 1).
Proof. cbn [indexOf_from]. now rewrite prefix_char. Qed.

Lemma indexOf_from_present (c : ascii) (s : string) (i : Z) :
  includes s (String c EmptyString) = true ->
  i <= indexOf_from (String c EmptyString) s i.
Proof.
  revert i. induction s as [|d s IH]; intros i H; [discriminate|].
  rewrite indexOf_from_cons. cbn [includes] in H. rewrite prefix_char in H.
  destruct (Ascii.eqb c d); [lia|]. cbn [orb] in H.
  specialize (IH (i + 1) H). lia.
Qed.

(** The index of a character is at most zero exactly when the text lacks
    the character or begins with it. *)
Lemma indexOf_le_0 (c : ascii) (s : string) :
  indexOf s (String c EmptyString) <= 0
  <-> includes s (String c EmptyString) = false
      \/ startsWith s (String c EmptyString) = true.
Proof.
  unfold indexOf, startsWith. destruct s as [|d s].
  - cbn. split; [now left | lia].
  - rewrite indexOf_from_cons, prefix_char. cbn [includes].
    rewrite prefix_char. destruct (Ascii.eqb c d); cbn [orb].
    + split; [now right | lia].
    + destruct (includes s (String c EmptyString)) eqn:E.
      * pose proof (indexOf_from_present c s (0 + 1) E) as Hp.
        split; [lia | intros [H|H]; discriminate].
      * rewrite (indexOf_from_absent c s (0 + 1) E). split; [now left | lia].
Qed.

(** X3. [parseDataURL] answers [null] exactly for the strings that have no
    comma, have no semicolon, or begin with one of the two; every other
    string is decoded, whatever it starts with. *)
Theorem parseDataURL_null_iff (s : string) :
  parseDataURL s = None
  <-> includes s "," = false \/ includes s ";" = false
      \/ startsWith s "," = true \/ startsWith s ";" = true.
Proof.
  unfold parseDataURL.
  destruct (indexOf s "," <=? 0) eqn:Ec; destruct (indexOf s ";" <=? 0) eqn:Es;
    cbn [orb].
  all: try apply Z.leb_le in Ec; try apply Z.leb_le in Es;
    try apply Z.leb_gt in Ec; try apply Z.leb_gt in Es.
  all: pose proof (indexOf_le_0 "," s) as Hc;
    pose proof (indexOf_le_0 ";" s) as Hs.
  - split; [intros _|reflexivity]. apply Hc in Ec. tauto.
  - split; [intros _|reflexivity]. apply Hc in Ec. tauto.
  - split; [intros _|reflexivity]. apply Hs in Es. tauto.
  - split; [discriminate|]. intros H.
    assert (indexOf s "," <= 0 \/ indexOf s ";" <= 0) by tauto. lia.
Qed.

Lemma parseDataURL_null_iff_witness :
  parseDataURL ";base64,iVBORw0KGgo=" = None.
Proof.
  apply (proj2 (parseDataURL_null_iff ";base64,iVBORw0KGgo=")).
  right. right. right. reflexivity.
Defined.

(** X4. A decoded media type is never the alias [image/jpg]: whatever the
    string, the two adapters never see it. *)
Theorem parseDataURL_never_jpg (s : string) (parsed : ParsedDataURL) :
  parseDataURL s = Some parsed -> mediaType parsed <> "image/jpg".
Proof.
  unfold parseDataURL. destruct (_ || _); [discriminate|].
  intros [= <-]. cbn [mediaType].
  destruct (String.eqb _ "image/jpg") eqn:E; [discriminate|].
  now apply String.eqb_neq.
Qed.

Lemma parseDataURL_never_jpg_witness :
  mediaType {| mediaType := "image/jpeg"; data := "/9j/4AAQSkZJRg==" |}
  <> "image/jpg".
Proof.
  apply (parseDataURL_never_jpg "data:image/jpg;base64,/9j/4AAQSkZJRg==").
  vm_compute. reflexivity.
Defined.

(** ** The provider adapters *)

(** X5. The content sent to the primary provider is the prompt, preceded
    by at most one attachment; the attachment is a PDF document or an
    image of one of the four accepted types, and its payload is the
    decoded payload of the data URL, unchanged. *)
Theorem claudeContent_shape (prompt : string) (image : option string) :
  claudeContent prompt image = [TextPart prompt]
  \/ exists part img parsed,
       claudeContent prompt image = [part; TextPart prompt]
       /\ acceptedByClaude part = true
       /\ image = Some img
       /\ parseDataURL img = Some parsed
       /\ partData part = data parsed.
Proof.
  unfold claudeContent. destruct image as [img|]; [|now left].
  destruct (String.eqb img EmptyString); [now left|].
  destruct (parseDataURL img) as [parsed|] eqn:Ep; [|now left].
  right.
  destruct (String.eqb (mediaType parsed) "application/pdf") eqn:E1.
  - exists (DocumentPart "application/pdf" (data parsed)), img, parsed.
    repeat split; auto.
  - destruct (existsb _ _) eqn:E2.
    + exists (ImagePart (mediaType parsed) (data parsed)), img, parsed.
      repeat split; auto.
    + exists (ImagePart "image/jpeg" (data parsed)), img, parsed.
      repeat split; auto.
Qed.

(** X6. Routing of a well-formed attachment by its media type [T]. The
    primary provider receives a PDF as a document, an image of one of its
    four types (or [image/jpg], renamed) as that image, and anything else
    relabelled [image/jpeg]; the backup provider receives the media type
    as decoded, whatever it is. The payload is the same in both. *)
Theorem attachment_routing (T X prompt : string) :
  includes T "," = false ->
  includes T ";" = false ->
  claudeContent prompt (Some ("data:" ++ T ++ ";base64," ++ X))
  = [ if String.eqb T "application/pdf"
      then DocumentPart "application/pdf" X
      else if existsb (String.eqb T)
                ["image/jpeg"; "image/png"; "image/gif"; "image/webp"]
      then ImagePart T X
      else ImagePart "image/jpeg" X;
      TextPart prompt ]
  /\ geminiParts prompt (Some ("data:" ++ T ++ ";base64," ++ X))
     = [ InlineData (if String.eqb T "image/jpg" then "image/jpeg" else T) X;
         GeminiText prompt ].
Proof.
  intros Hc Hs. unfold claudeContent, geminiParts.
  change (String.eqb ("data:" ++ T ++ ";base64," ++ X) EmptyString) with false.
  cbv iota. rewrite (parseDataURL_wellformed T X Hc Hs).
  cbn [mediaType data]. split; [|reflexivity].
  destruct (String.eqb T "image/jpg") eqn:Ej.
  - apply String.eqb_eq in Ej. subst T. reflexivity.
  - destruct (String.eqb T "application/pdf"); [reflexivity|].
    now destruct (existsb _ _).
Qed.

Lemma attachment_routing_witness :
  claudeContent "Describe" (Some "data:image/heic;base64,AAAAGGZ0eXA=")
  = [ImagePart "image/jpeg" "AAAAGGZ0eXA="; TextPart "Describe"]
  /\ geminiParts "Describe" (Some "data:image/heic;base64,AAAAGGZ0eXA=")
     = [InlineData "image/heic" "AAAAGGZ0eXA="; GeminiText "Describe"].
Proof.
  apply (attachment_routing "image/heic" "AAAAGGZ0eXA=" "Describe").
  - vm_compute. reflexivity.
  - vm_compute. reflexivity.
Defined.

(** X7. How [callClaude] fails, the POST having been issued in every case:
    a rejected request is rethrown; a body that is a string and is not
    JSON gives the fixed error, whatever the status; a status other than
    200 always throws. The message is then read from the body, parsed
    first when it arrives as a string: it is the [error.message] of the
    body when that is a non-empty string, what [String] makes of it when
    it is truthy and not a string, and the status in a fixed text when it
    is falsy or missing. *)
Theorem callClaude_failures (env : Env) (apiKey prompt : string)
  (image : option string) (t : Trace) :
  let content := claudeContent prompt image in
  let t' := (t ++ [AnthropicPost apiKey content])%list in
  (forall e,
      CapacitorHttp_post env apiKey content = Throw e ->
      callClaude env apiKey prompt image t = (Throw e, t'))
  /\ (forall response text e,
         CapacitorHttp_post env apiKey content = Ok response ->
         responseData response = JStr text ->
         JSON_parse env text = Throw e ->
         callClaude env apiKey prompt image t
         = (Throw (ErrorInstance "Invalid response from API"), t'))
  /\ (forall response,
         CapacitorHttp_post env apiKey content = Ok response ->
         status response <> 200 ->
         exists e, callClaude env apiKey prompt image t = (Throw e, t'))
  /\ (forall response body message,
         CapacitorHttp_post env apiKey content = Ok response ->
         status response <> 200 ->
         bodyRead env response body ->
         providerMessage body = JStr message ->
         message <> EmptyString ->
         callClaude env apiKey prompt image t
         = (Throw (ErrorInstance message), t'))
  /\ (forall response body,
         CapacitorHttp_post env apiKey content = Ok response ->
         status response <> 200 ->
         bodyRead env response body ->
         JS.truthy (providerMessage body) = false ->
         callClaude env apiKey prompt image t
         = (Throw (ErrorInstance
                     ("API request failed with status "
                      ++ statusString (status response))), t'))
  /\ (forall response body,
         CapacitorHttp_post env apiKey content = Ok response ->
         status response <> 200 ->
         bodyRead env response body ->
         JS.truthy (providerMessage body) = true ->
         isString (providerMessage body) = false ->
         callClaude env apiKey prompt image t
         = (if JS.toPrimitiveThrows (providerMessage body)
            then Throw (ErrorInstance (typeErrorMessage env NoPrimitiveValue))
            else Throw (ErrorInstance (String_of env (providerMessage body))),
            t')).
Proof.
  intros content t'. subst content t'.
  assert (R : forall response body,
             CapacitorHttp_post env apiKey (claudeContent prompt image)
             = Ok response ->
             status response <> 200 ->
             bodyRead env response body ->
             callClaude env apiKey prompt image t
             = (throwError env
                  (JS.or (providerMessage body)
                         (JStr ("API request failed with status "
                                ++ statusString (status response)))),
                (t ++ [AnthropicPost apiKey (claudeContent prompt image)])
                  %list)).
  { intros response body H Hs Hb.
    unfold callClaude, bind, request, lift. rewrite H.
    apply Z.eqb_neq in Hs. unfold bodyRead in Hb.
    destruct (responseData response) eqn:Ed;
      try (subst body; rewrite Hs; reflexivity).
    rewrite Hb, Hs. reflexivity. }
  split; [|split; [|split; [|split; [|split]]]].
  - intros e H. unfold callClaude, bind, request. now rewrite H.
  - intros response text e H Hd Hp.
    unfold callClaude, bind, request, lift. now rewrite H, Hd, Hp.
  - intros response H Hs.
    unfold callClaude, bind, request, lift. rewrite H.
    apply Z.eqb_neq in Hs.
    destruct (match responseData response with
              | JStr text => _
              | _ => _
              end) as [body|e]; [|eauto].
    rewrite Hs. cbn [negb]. unfold throwError.
    destruct (toStr env _) as [m|e]; eauto.
  - intros response body message H Hs Hb Hm Hne.
    rewrite (R response body H Hs Hb). unfold JS.or. rewrite Hm.
    cbn [JS.truthy]. apply String.eqb_neq in Hne. now rewrite Hne.
  - intros response body H Hs Hb Hm.
    rewrite (R response body H Hs Hb). unfold JS.or. now rewrite Hm.
  - intros response body H Hs Hb Hm Hn.
    rewrite (R response body H Hs Hb). unfold JS.or. rewrite Hm.
    unfold throwError, toStr.
    destruct (providerMessage body); try discriminate Hn;
      destruct (JS.toPrimitiveThrows _); reflexivity.
Qed.

Lemma callClaude_failures_witness :
  callClaude Scenario.rateLimited "sk-ant-key" probePrompt None []
  = (Throw (ErrorInstance "rate limited"),
     [AnthropicPost "sk-ant-key" [TextPart probePrompt]]).
Proof.
  refine (proj1 (proj2 (proj2 (proj2
            (callClaude_failures Scenario.rateLimited "sk-ant-key"
               probePrompt None []))))
            {| status := 429;
               responseData := JStr Scenario.rateLimitedJSON |}
            Scenario.rateLimitedBody "rate limited" _ _ _ _ _).
  - vm_compute. reflexivity.
  - vm_compute. discriminate.
  - vm_compute. reflexivity.
  - vm_compute. reflexivity.
  - discriminate.
Defined.

(** X8. What [callClaude] returns. With status 200 and a body that is not
    a string, it returns the text of the first content block when that is
    a string, and the empty string when it is falsy or missing. It returns
    only after exactly one POST, answered with status 200. *)
Theorem callClaude_returns (env : Env) (apiKey prompt : string)
  (image : option string) (t : Trace) :
  let content := claudeContent prompt image in
  let t' := (t ++ [AnthropicPost apiKey content])%list in
  (forall response text,
      CapacitorHttp_post env apiKey content = Ok response ->
      status response = 200 ->
      isString (responseData response) = false ->
      claudeText (responseData response) = JStr text ->
      callClaude env apiKey prompt image t = (Ok text, t'))
  /\ (forall response,
         CapacitorHttp_post env apiKey content = Ok response ->
         status response = 200 ->
         isString (responseData response) = false ->
         JS.truthy (claudeText (responseData response)) = false ->
         callClaude env apiKey prompt image t = (Ok EmptyString, t'))
  /\ (forall text t1,
         callClaude env apiKey prompt image t = (Ok text, t1) ->
         t1 = t'
         /\ exists response,
              CapacitorHttp_post env apiKey content = Ok response
              /\ status response = 200).
Proof.
  intros content t'. subst content t'.
  unfold callClaude, bind, request, lift, throw, ret.
  split; [|split].
  - intros response text H Hs Hd Ht. rewrite H, Hs.
    destruct (responseData response) eqn:Ed; try discriminate Hd;
      cbn [Z.eqb Pos.eqb negb]; unfold claudeText in Ht; unfold JS.or;
      rewrite Ht; cbn [JS.truthy];
      destruct (String.eqb text EmptyString) eqn:E; cbn [negb];
      try reflexivity; apply String.eqb_eq in E; now subst.
  - intros response H Hs Hd Ht. rewrite H, Hs.
    destruct (responseData response) eqn:Ed; try discriminate Hd;
      cbn [Z.eqb Pos.eqb negb]; unfold claudeText in Ht; unfold JS.or;
      rewrite Ht; reflexivity.
  - intros text t1.
    destruct (CapacitorHttp_post env _ _) as [response|e];
      [|discriminate].
    destruct (match responseData response with
              | JStr text => _
              | _ => _
              end) as [body|e]; [|discriminate].
    destruct (status response =? 200) eqn:Es; cbn [negb].
    + intros H. split.
      * destruct (JS.or _ _); try discriminate H; unfold typeError in H;
          try discriminate H. now injection H as _ <-.
      * exists response. split; [reflexivity|]. now apply Z.eqb_eq.
    + unfold throwError. destruct (toStr env _); discriminate.
Qed.

Lemma callClaude_returns_witness :
  callClaude (Sample.answering Sample.notScheduleJSON Sample.notSchedule)
    "sk-ant-key" statSchedulePrompt (Some Sample.jpegScan) []
  = (Ok Sample.notScheduleJSON,
     [AnthropicPost "sk-ant-key"
        (claudeContent statSchedulePrompt (Some Sample.jpegScan))]).
Proof.
  refine (proj1 (callClaude_returns
                   (Sample.answering Sample.notScheduleJSON
                                     Sample.notSchedule)
                   "sk-ant-key" statSchedulePrompt (Some Sample.jpegScan) [])
            {| status := 200;
               responseData :=
                 JObj [("content",
                        JArr [JObj [("type", JStr "text");
                                    ("text", JStr Sample.notScheduleJSON)]]
                             [])] |}
            Sample.notScheduleJSON _ _ _ _).
  - vm_compute. reflexivity.
  - vm_compute. reflexivity.
  - vm_compute. reflexivity.
  - vm_compute. reflexivity.
Defined.



(** X10. The connectivity probe [testApiConnection] never throws and
    issues exactly one POST, carrying the probe prompt and no attachment.
    It answers [false] when the request is rejected or answered with a
    status other than 200, and [true] when [callClaude] returns, whatever
    the text is. *)
Theorem testApiConnection_probe (env : Env) (apiKey : string) (t : Trace) :
  let t' := (t ++ [AnthropicPost apiKey [TextPart probePrompt]])%list in
  (exists b : bool, testApiConnection env apiKey t = (Ok b, t'))
  /\ (forall e,
         CapacitorHttp_post env apiKey [TextPart probePrompt] = Throw e ->
         testApiConnection env apiKey t = (Ok false, t'))
  /\ (forall response,
         CapacitorHttp_post env apiKey [TextPart probePrompt] = Ok response ->
         status response <> 200 ->
         testApiConnection env apiKey t = (Ok false, t'))
  /\ (forall text,
         fst (callClaude env apiKey probePrompt None t) = Ok text ->
         testApiConnection env apiKey t = (Ok true, t')).
Proof.
  intros t'. subst t'.
  unfold testApiConnection, tryCatch, bind, ret.
  fold probePrompt.
  pose proof (callClaude_trace env apiKey probePrompt None t) as Ht.
  change (claudeContent probePrompt None) with [TextPart probePrompt] in Ht.
  assert (F : forall response,
             CapacitorHttp_post env apiKey [TextPart probePrompt]
             = Ok response ->
             status response <> 200 ->
             forall text t1,
               callClaude env apiKey probePrompt None t <> (Ok text, t1)).
  { intros response Hp Hs text t1.
    unfold callClaude, bind, request, lift.
    change (claudeContent probePrompt None) with [TextPart probePrompt].
    rewrite Hp. apply Z.eqb_neq in Hs.
    destruct (match responseData response with
              | JStr _ => _
              | _ => _
              end); [|discriminate].
    rewrite Hs. cbn [negb]. unfold throwError.
    destruct (toStr env _); discriminate. }
  assert (G : forall e,
             CapacitorHttp_post env apiKey [TextPart probePrompt] = Throw e ->
             forall text t1,
               callClaude env apiKey probePrompt None t <> (Ok text, t1)).
  { intros e Hp text t1.
    unfold callClaude, bind, request, lift.
    change (claudeContent probePrompt None) with [TextPart probePrompt].
    rewrite Hp. discriminate. }
  destruct (callClaude env apiKey probePrompt None t) as [[text|e] t1] eqn:Ec;
    cbn [snd fst] in *; subst t1.
  - split; [eauto|]. split; [|split].
    + intros e Hp. exfalso. exact (G e Hp _ _ eq_refl).
    + intros response Hp Hs. exfalso. exact (F response Hp Hs _ _ eq_refl).
    + reflexivity.
  - split; [eauto|]. split; [|split]; try reflexivity. discriminate.
Qed.

Lemma testApiConnection_probe_witness :
  testApiConnection Scenario.unauthorized "sk-ant-revoked" []
  = (Ok false, [AnthropicPost "sk-ant-revoked" [TextPart probePrompt]]).
Proof.
  refine (proj1 (proj2 (proj2
            (testApiConnection_probe Scenario.unauthorized "sk-ant-revoked"
               [])))
            {| status := 401;
               responseData :=
                 JObj [("type", JStr "error");
                       ("error",
                        JObj [("type", JStr "authentication_error");
                              ("message", JStr "invalid x-api-key")])] |}
            _ _).
  - vm_compute. reflexivity.
  - vm_compute. discriminate.
Defined.

(** ** Requests issued by the public operations *)

Lemma paystubPrimary_trace (env : Env) (apiKey image : string) (t : Trace) :
  snd (paystubPrimary env apiKey image t)
  = (t ++ [AnthropicPost apiKey
             (claudeContent paystubPrompt (Some image))])%list.
Proof.
  unfold paystubPrimary.
  pose proof (callClaude_trace env apiKey paystubPrompt (Some image) t) as Hc.
  unfold bind, lift.
  destruct (callClaude env apiKey paystubPrompt (Some image) t)
    as [[response|e] t1]; cbn [snd] in *; [|exact Hc].
  destruct (JSON_parse env _); exact Hc.
Qed.

Lemma parsePaystubWithClaude_returns (env : Env) (apiKey image : string)
  (t : Trace) :
  exists result,
    parsePaystubWithClaude env apiKey image t
    = (Ok result,
       (t ++ [AnthropicPost apiKey
                (claudeContent paystubPrompt (Some image))])%list).
Proof.
  unfold parsePaystubWithClaude, tryCatch, ret.
  pose proof (paystubPrimary_trace env apiKey image t) as H.
  destruct (paystubPrimary env apiKey image t) as [[r|e] t1];
    cbn [snd] in H; subst t1; eauto.
Qed.


Lemma fallback_requests {A} (env : Env) (primary : M A)
  (afterKey : string -> M A) (failed : Thrown -> A)
  (primaryCall backupCall : NetCall) (t : Trace) :
  (forall t, snd (primary t) = (t ++ [primaryCall])%list) ->
  (forall t, snd (afterKey (ENV_GEMINI_KEY env) t)
             = (t ++ [backupCall])%list) ->
  let run :=
    tryCatch primary
      (fun error =>
         tryCatch (bind (requireGeminiKey env) afterKey)
           (fun _ => ret (failed error))) in
  snd (run t)
  = (t ++ primaryCall
       :: match fst (primary t) with
          | Ok _ => []
          | Throw _ =>
              if String.eqb (ENV_GEMINI_KEY env) EmptyString then []
              else [backupCall]
          end)%list.
Proof.
  intros Hp Hb run. subst run. rewrite fallback_run.
  specialize (Hp t). destruct (primary t) as [[a|e] t1]; cbn [fst snd] in *.
  - now subst.
  - subst t1. unfold bind.
    destruct (String.eqb (ENV_GEMINI_KEY env) EmptyString) eqn:Ek.
    + apply String.eqb_eq in Ek.
      now rewrite (requireGeminiKey_missing env _ Ek).
    + apply String.eqb_neq in Ek.
      rewrite (requireGeminiKey_present env _ Ek).
      specialize (Hb (t ++ [primaryCall])%list).
      destruct (afterKey (ENV_GEMINI_KEY env) _) as [[a|e'] t2];
        cbn [snd] in *; subst t2; now rewrite <- app_assoc.
Qed.

(** X12. The requests of the two operations that have a backup, on every
    input and in every environment: the POST to the primary provider,
    followed by one request to the backup provider exactly when the
    primary block threw and a backup key is configured. A primary block
    that returns, be it a failure such as the stat-schedule sentinel,
    never leads to a backup request. *)
Theorem fallback_request_count (env : Env) :
  (forall (apiKey : string) (content image : option string) (t : Trace),
      snd (parseTimesheetWithAI env apiKey content image t)
      = (t ++ AnthropicPost apiKey
                 (claudeContent (timesheetPrompt content) image)
           :: match fst (timesheetPrimary env apiKey content image t) with
              | Ok _ => []
              | Throw _ =>
                  if String.eqb (ENV_GEMINI_KEY env) EmptyString then []
                  else [GeminiFetch (ENV_GEMINI_KEY env)
                          (geminiParts (timesheetPrompt content) image)]
              end)%list)
  /\ (forall (apiKey image : string) (t : Trace),
         snd (parseStatScheduleWithAI env apiKey image t)
         = (t ++ AnthropicPost apiKey
                    (claudeContent statSchedulePrompt (Some image))
              :: match fst (statSchedulePrimary env apiKey image t) with
                 | Ok _ => []
                 | Throw _ =>
                     if String.eqb (ENV_GEMINI_KEY env) EmptyString then []
                     else [GeminiFetch (ENV_GEMINI_KEY env)
                             (geminiParts statSchedulePrompt (Some image))]
                 end)%list).
Proof.
  split.
  - intros apiKey content image t.
    apply (fallback_requests env (timesheetPrimary env apiKey content image)
             (fun geminiKey =>
                bind (callGemini env geminiKey (timesheetPrompt content) image)
                  (fun response =>
                     bind (lift (extractJSONOf env response))
                       (fun jsonStr => lift (timesheetOfJSON env jsonStr))))
             (fun error =>
                AIFailure (messageOr error "Failed to parse timesheet"))).
    + apply timesheetPrimary_trace.
    + intros t0. rewrite after_call_trace. apply callGemini_trace.
  - intros apiKey image t.
    apply (fallback_requests env (statSchedulePrimary env apiKey image)
             (fun geminiKey =>
                bind (callGemini env geminiKey statSchedulePrompt (Some image))
                  (fun response =>
                     bind (lift (extractJSONOf env response))
                       (fun jsonStr => lift (statScheduleOfJSON env jsonStr))))
             (fun error =>
                StatFailure
                  (JStr (messageOr error "Failed to parse stat schedule")))).
    + apply statSchedulePrimary_trace.
    + intros t0. rewrite after_call_trace. apply callGemini_trace.
Qed.

(** ** Paystub repairs *)

(** X13. What the two repairs of a parsed paystub change, when they go
    through: [hours_worked] takes the value of [total_hours] when that is
    truthy and [hours_worked] is falsy, and keeps its own otherwise;
    [line_items] is kept when it is an array and replaced by the empty
    array otherwise; every other property is left as parsed. Repairing a
    second time changes nothing. *)
Theorem normalizePaystub_effect (env : Env) (data data' : JSValue) :
  normalizePaystub env data = Ok data' ->
  JS.optGet data' "hours_worked"
  = (if JS.truthy (JS.optGet data "total_hours")
        && negb (JS.truthy (JS.optGet data "hours_worked"))
     then JS.optGet data "total_hours" else JS.optGet data "hours_worked")
  /\ JS.optGet data' "line_items"
     = (if JS.isArray (JS.optGet data "line_items")
        then JS.optGet data "line_items" else JArr [] [])
  /\ (forall k, k <> "hours_worked" -> k <> "line_items" ->
                JS.optGet data' k = JS.optGet data k)
  /\ normalizePaystub env data' = Ok data'.
Proof.
  intros H.
  assert (F : JS.optGet data' "hours_worked"
              = (if JS.truthy (JS.optGet data "total_hours")
                    && negb (JS.truthy (JS.optGet data "hours_worked"))
                 then JS.optGet data "total_hours"
                 else JS.optGet data "hours_worked")
              /\ JS.optGet data' "line_items"
                 = (if JS.isArray (JS.optGet data "line_items")
                    then JS.optGet data "line_items" else JArr [] [])
              /\ (forall k, k <> "hours_worked" -> k <> "line_items" ->
                            JS.optGet data' k = JS.optGet data k)).
  { revert H. unfold normalizePaystub, rbind.
    destruct (getR env data "total_hours") as [th|] eqn:Et; [|discriminate].
    apply getR_Ok in Et as [-> Hn].
    rewrite (getR_notNullish env data "hours_worked" Hn).
    set (c := JS.truthy (JS.optGet data "total_hours")
              && negb (JS.truthy (JS.optGet data "hours_worked"))).
    assert (E : forall d1,
               (if c then setR env data "hours_worked"
                              (JS.optGet data "total_hours")
                else Ok data) = Ok d1 ->
               notNullish d1 = true
               /\ JS.optGet d1 "hours_worked"
                  = (if c then JS.optGet data "total_hours"
                     else JS.optGet data "hours_worked")
               /\ forall k, k <> "hours_worked" ->
                            JS.optGet d1 k = JS.optGet data k).
    { intros d1. destruct c.
      - intros H. apply setR_Ok in H. tauto.
      - intros [= <-]. auto. }
    destruct (if c then _ else _) as [d1|] eqn:E1; [|discriminate].
    destruct (E d1 eq_refl) as (Hn1 & Hw & Hk).
    rewrite (getR_notNullish env d1 "line_items" Hn1).
    rewrite (Hk "line_items") by discriminate.
    destruct (JS.isArray (JS.optGet data "line_items")) eqn:Ea.
    - intros [= <-]. repeat split; auto.
      now apply Hk.
    - intros H. apply setR_Ok in H as (_ & Hl & Ho).
      repeat split; auto.
      + rewrite (Ho "hours_worked") by discriminate. exact Hw.
      + intros k K1 K2. rewrite (Ho k K2). now apply Hk. }
  destruct F as (Hw & Hl & Hk). repeat split; auto.
  pose proof (normalizePaystub_Ok env data data' H) as [Hn Ha].
  unfold normalizePaystub, rbind. rewrite !(getR_notNullish env data' _ Hn).
  rewrite (Hk "total_hours") by discriminate. rewrite Hw.
  replace (JS.truthy (JS.optGet data "total_hours")
           && negb (JS.truthy
                      (if JS.truthy (JS.optGet data "total_hours")
                          && negb (JS.truthy (JS.optGet data "hours_worked"))
                       then JS.optGet data "total_hours"
                       else JS.optGet data "hours_worked")))
    with false.
  - rewrite (getR_notNullish env data' _ Hn). now rewrite Ha.
  - destruct (JS.truthy (JS.optGet data "total_hours")) eqn:E1;
      [|reflexivity].
    destruct (JS.truthy (JS.optGet data "hours_worked")) eqn:E2;
      cbn [andb negb]; [now rewrite E2 | now rewrite E1].
Qed.

Lemma normalizePaystub_effect_witness :
  JS.optGet Scenario.totalOnlyRepaired "hours_worked" = JNum (ofZ 40)
  /\ JS.optGet Scenario.totalOnlyRepaired "line_items" = JArr [] []
  /\ (forall k, k <> "hours_worked" -> k <> "line_items" ->
                JS.optGet Scenario.totalOnlyRepaired k
                = JS.optGet Scenario.totalOnly k)
  /\ normalizePaystub (Sample.offline EmptyString) Scenario.totalOnlyRepaired
     = Ok Scenario.totalOnlyRepaired.
Proof.
  apply (normalizePaystub_effect (Sample.offline EmptyString)
           Scenario.totalOnly Scenario.totalOnlyRepaired).
  vm_compute. reflexivity.
Defined.

(** ** Timesheet entries, continued *)

Lemma normalizeEntry_defaults (env : Env) (e o : JSValue) :
  normalizeEntry env e = Ok o -> entryDefaults e o.
Proof.
  intros H. apply normalizeEntry_Ok in H as (_ & _ & Hj & _ & shift & _ & Hs).
  repeat split.
  - now exists shift.
  - exact Hj.
  - rewrite Hj. unfold JS.or.
    destruct (JS.truthy (JS.optGet e "job_name")) eqn:E; [exact E|reflexivity].
Qed.

Lemma normalizeEntry_forwards (env : Env) (e o : JSValue) :
  normalizeEntry env e = Ok o -> entryForwarded e o.
Proof.
  intros H props k -> Hk. unfold rewrittenKeys in Hk. cbn [In] in Hk.
  revert H. unfold normalizeEntry, rbind. cbn [getR JS.get].
  destruct (normalizeDate env _) as [date|]; [|discriminate].
  destruct (normalizeShiftType env _) as [shift|]; [|discriminate].
  destruct (hoursOf env _) as [hours|]; [|discriminate].
  destruct (earningsOf env _) as [earnings|]; [|discriminate].
  intros [= <-]. rewrite !optGet_object. cbn [JS.spread].
  rewrite !lookup_assign_other by (intros ->; tauto). reflexivity.
Qed.

Lemma normalizeEntry_contract (env : Env) (e o : JSValue) :
  hasDateAndHours e = true ->
  normalizeEntry env e = Ok o -> entryContract env e o.
Proof.
  intros Hk H. repeat split.
  - exact (proj1 (normalizeEntry_normalized env e o Hk H)).
  - exact (proj1 (proj2 (normalizeEntry_normalized env e o Hk H))).
  - exact (proj2 (proj2 (normalizeEntry_normalized env e o Hk H))).
  - exact (proj1 (normalizeEntry_earnings env e o H)).
  - exact (proj2 (normalizeEntry_earnings env e o H)).
  - exact (proj1 (normalizeEntry_defaults env e o H)).
  - exact (proj1 (proj2 (normalizeEntry_defaults env e o H))).
  - exact (proj2 (proj2 (normalizeEntry_defaults env e o H))).
  - exact (normalizeEntry_forwards env e o H).
Qed.

(** X14. In a success of [parseTimesheetWithAI] every returned entry has a
    shift type that is one of [day], [afternoon] and [graveyard], and a
    truthy job name: the one of the parsed entry, or [Imported] when that
    is missing or falsy. *)
Theorem parseTimesheetWithAI_defaults (env : Env) (apiKey : string)
  (content image : option string) (t t' : Trace) (d : JSValue) :
  parseTimesheetWithAI env apiKey content image t = (Ok (AISuccess d), t') ->
  exists json elems own out,
    JSON_parse env json = Ok (JArr elems own)
    /\ d = JArr out []
    /\ Forall2 entryDefaults (filter hasDateAndHours elems) out.
Proof.
  intros H. apply parseTimesheetWithAI_success in H as [json H].
  apply timesheetOfJSON_Ok in H as (elems & own & out & Hp & -> & H).
  exists json, elems, own, out. repeat split; [exact Hp|].
  revert H. apply Forall2_filter_impl. intros e o _.
  apply normalizeEntry_defaults.
Qed.

Lemma parseTimesheetWithAI_defaults_witness :
  exists json elems own out,
    JSON_parse (Sample.answeringFenced Sample.nightShiftJSON Sample.nightShift)
               json
    = Ok (JArr elems own)
    /\ JArr [JObj [("date", JStr "2024-01-15");
                   ("shift_type", JStr "graveyard");
                   ("hours", JNum (ofZ 8));
                   ("job_name", JStr "Imported");
                   ("earnings", JUndefined)]] []
       = JArr out []
    /\ Forall2 entryDefaults (filter hasDateAndHours elems) out.
Proof.
  apply (parseTimesheetWithAI_defaults
           (Sample.answeringFenced Sample.nightShiftJSON Sample.nightShift)
           "sk-ant-key" None None []
           (snd (parseTimesheetWithAI
                   (Sample.answeringFenced Sample.nightShiftJSON
                                           Sample.nightShift)
                   "sk-ant-key" None None []))).
  vm_compute. reflexivity.
Defined.

(** X15. In a success of [parseTimesheetWithAI] a returned entry keeps
    every property of the parsed object it comes from, other than the five
    the callback rewrites ([date], [shift_type], [hours], [job_name],
    [earnings]): a location or a ship is forwarded as parsed. *)
Theorem parseTimesheetWithAI_forwards (env : Env) (apiKey : string)
  (content image : option string) (t t' : Trace) (d : JSValue) :
  parseTimesheetWithAI env apiKey content image t = (Ok (AISuccess d), t') ->
  exists json elems own out,
    JSON_parse env json = Ok (JArr elems own)
    /\ d = JArr out []
    /\ Forall2 entryForwarded (filter hasDateAndHours elems) out.
Proof.
  intros H. apply parseTimesheetWithAI_success in H as [json H].
  apply timesheetOfJSON_Ok in H as (elems & own & out & Hp & -> & H).
  exists json, elems, own, out. repeat split; [exact Hp|].
  revert H. apply Forall2_filter_impl. intros e o _.
  apply normalizeEntry_forwards.
Qed.

Lemma parseTimesheetWithAI_forwards_witness :
  exists json elems own out,
    JSON_parse (Sample.answering Scenario.shipEntryJSON
                                 (JArr [Scenario.shipEntry] []))
               json
    = Ok (JArr elems own)
    /\ JArr [JObj [("date", JStr "2024-01-15");
                   ("hours", JNum (ofZ 8));
                   ("ship", JStr "MSC Oscar");
                   ("shift_type", JStr "day");
                   ("job_name", JStr "Imported");
                   ("earnings", JUndefined)]] []
       = JArr out []
    /\ Forall2 entryForwarded (filter hasDateAndHours elems) out.
Proof.
  apply (parseTimesheetWithAI_forwards
           (Sample.answering Scenario.shipEntryJSON
                             (JArr [Scenario.shipEntry] []))
           "sk-ant-key" None None []
           (snd (parseTimesheetWithAI
                   (Sample.answering Scenario.shipEntryJSON
                                     (JArr [Scenario.shipEntry] []))
                   "sk-ant-key" None None []))).
  vm_compute. reflexivity.
Defined.

(** ** Dates, continued *)

Lemma beforeT_fixed_app (a b : string) :
  beforeT a = a -> beforeT b = b -> beforeT (a ++ b) = a ++ b.
Proof.
  induction a as [|c a IH]; cbn [append beforeT]; intros Ha Hb; [exact Hb|].
  destruct (Ascii.eqb c "T"); [discriminate|].
  injection Ha as Ha. now rewrite IH.
Qed.

Lemma beforeT_cut (a r : string) :
  beforeT a = a -> beforeT (a ++ String "T" r) = a.
Proof.
  induction a as [|c a IH]; cbn [append beforeT]; intros Ha; [reflexivity|].
  destruct (Ascii.eqb c "T"); [discriminate|].
  injection Ha as Ha. now rewrite IH.
Qed.

Lemma beforeT_pad (n : nat) (z : Z) : beforeT (pad n z) = pad n z.
Proof.
  revert z. induction n as [|n IH]; intros z; cbn [pad]; [reflexivity|].
  apply beforeT_fixed_app; [apply IH|].
  cbn [beforeT]. now rewrite digitChar_not_T.
Qed.

Lemma beforeT_yearString (y : Z) : beforeT (yearString y) = yearString y.
Proof.
  unfold yearString. destruct ((0 <=? y) && (y <=? 9999)).
  - apply beforeT_pad.
  - destruct (y <? 0); cbn [beforeT]; cbn [Ascii.eqb Bool.eqb];
      now rewrite beforeT_pad.
Qed.

Lemma len_pad (n : nat) (z : Z) : len (pad n z) = Z.of_nat n.
Proof.
  revert z. induction n as [|n IH]; intros z; [reflexivity|].
  cbn [pad]. rewrite len_app, IH. unfold len. cbn [String.length]. lia.
Qed.

(** [split('T')[0]] of an ISO string is its date. *)
Lemma beforeT_toISOString (t : Z) : beforeT (toISOString t) = isoDate t.
Proof.
  unfold toISOString, isoDate.
  destruct (civilFromDays (t / msPerDay)) as [[y m] d].
  assert (F : beforeT (yearString y ++ "-" ++ pad 2 m ++ "-" ++ pad 2 d)
              = yearString y ++ "-" ++ pad 2 m ++ "-" ++ pad 2 d).
  { apply beforeT_fixed_app; [apply beforeT_yearString|].
    apply (beforeT_fixed_app "-"); [reflexivity|].
    apply beforeT_fixed_app; [apply beforeT_pad|].
    apply (beforeT_fixed_app "-"); [reflexivity|apply beforeT_pad]. }
  set (rest := pad 2 (t mod msPerDay / 3600000) ++ _).
  replace (yearString y ++ "-" ++ pad 2 m ++ "-" ++ pad 2 d ++ "T" ++ rest)
    with ((yearString y ++ "-" ++ pad 2 m ++ "-" ++ pad 2 d)
            ++ String "T" rest)
    by (now rewrite !append_assoc).
  now apply beforeT_cut.
Qed.

(** X16. [normalizeDate] on a value that has a primitive: a value the
    [Date] constructor does not accept is returned as it is; for one it
    accepts, the result is the UTC calendar date of the time value, year,
    month and day separated by hyphens with nothing of the time of day, a
    non-empty string of exactly ten code units for the years 0 to 9999. *)
Theorem normalizeDate_format (env : Env) (dateStr : JSValue) :
  JS.toPrimitiveThrows dateStr = false ->
  (Date_new env dateStr = None -> normalizeDate env dateStr = Ok dateStr)
  /\ (forall t, Date_new env dateStr = Some t ->
        normalizeDate env dateStr = Ok (JStr (isoDate t))
        /\ JS.truthy (JStr (isoDate t)) = true
        /\ (forall y m d, civilFromDays (t / msPerDay) = (y, m, d) ->
              0 <= y <= 9999 -> len (isoDate t) = 10)).
Proof.
  intros Hp. unfold normalizeDate. rewrite Hp. split.
  - now intros ->.
  - intros t ->. rewrite beforeT_toISOString. repeat split.
    + cbn [JS.truthy]. apply negb_true_iff, String.eqb_neq.
      rewrite <- beforeT_toISOString. apply isoDate_nonempty.
    + intros y m d E Hy. unfold isoDate. rewrite E.
      rewrite !len_app, !len_pad. unfold yearString.
      replace ((0 <=? y) && (y <=? 9999)) with true
        by (symmetry; apply andb_true_iff; split; apply Z.leb_le; lia).
      rewrite len_pad. reflexivity.
Qed.

Lemma normalizeDate_format_witness :
  normalizeDate (Sample.offline EmptyString) (JNum (ofZ 1705311000000))
  = Ok (JStr "2024-01-15").
Proof.
  refine (proj1 (proj2 (normalizeDate_format (Sample.offline EmptyString)
                          (JNum (ofZ 1705311000000)) _)
                   1705311000000 _)).
  - vm_compute. reflexivity.
  - vm_compute. reflexivity.
Defined.

(** ** The older module [gemini.ts] *)

Lemma splitBase64_sound (r a b : string) :
  Legacy.splitBase64 r = Some (a, b) ->
  r = a ++ ";base64," ++ b /\ a <> EmptyString /\ b <> EmptyString.
Proof.
  revert a. induction r as [|c r IH]; intros a; cbn [Legacy.splitBase64];
    [discriminate|].
  destruct (Legacy.splitBase64 r) as [[a' b']|].
  - intros [= <- <-]. destruct (IH a' eq_refl) as (-> & _ & Hb).
    repeat split; [discriminate | exact Hb].
  - destruct (startsWith r ";base64,") eqn:Ep; [|discriminate].
    destruct (8 <? len r) eqn:El; [|discriminate].
    cbn [andb]. intros [= <- <-].
    apply prefix_elim in Ep as [rest ->].
    pose proof (substring1_app ";base64," rest) as H.
    change (len ";base64,") with 8 in H. rewrite H.
    repeat split; [discriminate|].
    intros ->. apply Z.ltb_lt in El. rewrite len_app in El.
    unfold len in El. cbn in El. lia.
Qed.

Lemma app_cons_split (a b : string) (c : ascii) (r : string) :
  String c r = a ++ b -> a <> EmptyString ->
  exists a', a = String c a' /\ r = a' ++ b.
Proof.
  destruct a as [|d a]; [congruence|].
  cbn [append]. intros [= -> ->] _. eauto.
Qed.

Lemma splitBase64_complete (r a b : string) :
  r = a ++ ";base64," ++ b -> a <> EmptyString -> b <> EmptyString ->
  exists a' b', Legacy.splitBase64 r = Some (a', b') /\ len a <= len a'.
Proof.
  revert a. induction r as [|c r IH]; intros a Hr Ha Hb.
  - destruct a; [congruence|discriminate].
  - apply app_cons_split in Hr as (a0 & -> & Hr); [|exact Ha].
    cbn [Legacy.splitBase64].
    destruct a0 as [|d a0].
    + cbn [append] in Hr.
      destruct (Legacy.splitBase64 r) as [[a' b']|].
      * exists (String c a'), b'. split; [reflexivity|].
        unfold len. cbn [String.length]. lia.
      * subst r.
        change (String ";" (String "b" (String "a" (String "s" (String "e"
                 (String "6" (String "4" (String "," b))))))))
          with (";base64," ++ b).
        unfold startsWith. rewrite prefix_app.
        replace (8 <? len (";base64," ++ b)) with true.
        -- cbn [andb]. eexists _, _. split; [reflexivity|]. lia.
        -- symmetry. apply Z.ltb_lt. rewrite len_app.
           destruct b; [congruence|]. unfold len. cbn [String.length]. lia.
    + destruct (IH (String d a0) Hr) as (a' & b' & -> & Hl);
        [discriminate | exact Hb |].
      exists (String c a'), b'. split; [reflexivity|].
      unfold len in *. cbn [String.length] in *. lia.
Qed.

Lemma hasLineTerminator_app (a b : string) :
  Legacy.hasLineTerminator (a ++ b)
  = Legacy.hasLineTerminator a || Legacy.hasLineTerminator b.
Proof.
  induction a as [|c a IH]; cbn [append Legacy.hasLineTerminator];
    [reflexivity|].
  now rewrite IH, orb_assoc.
Qed.

Lemma substring1_data (r : string) : substring1 ("data:" ++ r) 5 = r.
Proof. exact (substring1_app "data:" r). Qed.

(** What a match splits. *)
Lemma matchDataURL_sound (s a b : string) :
  Legacy.matchDataURL s = Some (a, b) ->
  s = "data:" ++ a ++ ";base64," ++ b
  /\ a <> EmptyString /\ b <> EmptyString
  /\ Legacy.hasLineTerminator (a ++ b) = false.
Proof.
  unfold Legacy.matchDataURL.
  destruct (startsWith s "data:") eqn:Ep; [|discriminate].
  apply prefix_elim in Ep as [r ->]. rewrite substring1_data.
  destruct (Legacy.hasLineTerminator r) eqn:Et; [discriminate|].
  intros H. apply splitBase64_sound in H as (-> & Ha & Hb).
  repeat split; auto.
  rewrite !hasLineTerminator_app in Et. rewrite hasLineTerminator_app.
  apply orb_false_iff in Et as [Ea Et].
  apply orb_false_iff in Et as [_ Eb]. now rewrite Ea, Eb.
Qed.

(** X17. The pattern [/^data:(.+);base64,(.+)$/] of the older module. A
    match splits the string into [data:], a non-empty media type, the
    marker [;base64,] and a non-empty payload, none holding a line
    terminator, and the media type is the longest one any such split
    allows (the first group is greedy). Every string of that form is
    matched; a string that does not start with [data:], or holds a line
    terminator, is not. *)
Theorem legacy_matchDataURL_greedy :
  (forall s a b,
      Legacy.matchDataURL s = Some (a, b) ->
      s = "data:" ++ a ++ ";base64," ++ b
      /\ a <> EmptyString /\ b <> EmptyString
      /\ Legacy.hasLineTerminator (a ++ b) = false
      /\ forall a' b',
           s = "data:" ++ a' ++ ";base64," ++ b' ->
           a' <> EmptyString -> b' <> EmptyString -> len a' <= len a)
  /\ (forall a b,
         a <> EmptyString -> b <> EmptyString ->
         Legacy.hasLineTerminator (a ++ b) = false ->
         exists a' b',
           Legacy.matchDataURL ("data:" ++ a ++ ";base64," ++ b)
           = Some (a', b'))
  /\ (forall s,
         startsWith s "data:" = false
         \/ Legacy.hasLineTerminator s = true ->
         Legacy.matchDataURL s = None).
Proof.
  split; [|split].
  - intros s a b H.
    destruct (matchDataURL_sound s a b H) as (Hs & Ha & Hb & Ht).
    repeat split; auto.
    intros a' b' Hs' Ha' Hb'. revert H. rewrite Hs'.
    unfold Legacy.matchDataURL, startsWith.
    rewrite (prefix_app "data:"), substring1_data.
    destruct (Legacy.hasLineTerminator (a' ++ ";base64," ++ b'));
      [discriminate|].
    intros H.
    destruct (splitBase64_complete _ a' b' eq_refl Ha' Hb')
      as (a2 & b2 & H2 & Hl).
    rewrite H in H2. injection H2 as <- <-. exact Hl.
  - intros a b Ha Hb Ht. unfold Legacy.matchDataURL.
    unfold startsWith. rewrite (prefix_app "data:").
    rewrite substring1_data.
    rewrite !hasLineTerminator_app in *.
    apply orb_false_iff in Ht as [-> ->].
    cbn [orb Legacy.hasLineTerminator Legacy.isLineTerminator append
         Ascii.eqb Bool.eqb].
    destruct (splitBase64_complete _ a b eq_refl Ha Hb) as (a' & b' & H & _).
    eauto.
  - intros s [H|H]; unfold Legacy.matchDataURL.
    + now rewrite H.
    + destruct (startsWith s "data:") eqn:Ep; [|reflexivity].
      apply prefix_elim in Ep as [r ->]. rewrite substring1_data.
      rewrite hasLineTerminator_app in H. cbn in H. now rewrite H.
Qed.

Lemma legacy_matchDataURL_greedy_witness :
  "data:text/plain;base64,AAAA;base64,BBBB"
  = "data:" ++ "text/plain;base64,AAAA" ++ ";base64," ++ "BBBB"
  /\ "text/plain;base64,AAAA" <> EmptyString /\ "BBBB" <> EmptyString
  /\ Legacy.hasLineTerminator ("text/plain;base64,AAAA" ++ "BBBB") = false
  /\ forall a' b',
       "data:text/plain;base64,AAAA;base64,BBBB"
       = "data:" ++ a' ++ ";base64," ++ b' ->
       a' <> EmptyString -> b' <> EmptyString ->
       len a' <= len "text/plain;base64,AAAA".
Proof.
  apply (proj1 legacy_matchDataURL_greedy
           "data:text/plain;base64,AAAA;base64,BBBB"
           "text/plain;base64,AAAA" "BBBB").
  vm_compute. reflexivity.
Defined.

(** X18. An attachment the older pattern matches, with a media type free
    of the two separators, is decoded by [parseDataURL] to the same
    payload and to the same media type, [image/jpg] excepted: the older
    [callGemini] sends the media type as matched, where the one of [ai.ts]
    sends [image/jpeg] for [image/jpg]. *)
Theorem legacy_attachment_media_type (s a b prompt : string) :
  Legacy.matchDataURL s = Some (a, b) ->
  includes a ";" = false ->
  includes a "," = false ->
  Legacy.geminiParts prompt (Some s) = [InlineData a b; GeminiText prompt]
  /\ geminiParts prompt (Some s)
     = [InlineData (if String.eqb a "image/jpg" then "image/jpeg" else a) b;
        GeminiText prompt].
Proof.
  intros H Hs Hc.
  destruct (matchDataURL_sound s a b H) as (E & _).
  subst s. unfold Legacy.geminiParts, geminiParts.
  rewrite H, (parseDataURL_wellformed a b Hc Hs). split; reflexivity.
Qed.

Lemma legacy_attachment_media_type_witness :
  Legacy.geminiParts probePrompt (Some "data:image/jpg;base64,/9j/4AAQSkZJRg==")
  = [InlineData "image/jpg" "/9j/4AAQSkZJRg=="; GeminiText probePrompt]
  /\ geminiParts probePrompt (Some "data:image/jpg;base64,/9j/4AAQSkZJRg==")
     = [InlineData "image/jpeg" "/9j/4AAQSkZJRg=="; GeminiText probePrompt].
Proof.
  apply (legacy_attachment_media_type
           "data:image/jpg;base64,/9j/4AAQSkZJRg=="
           "image/jpg" "/9j/4AAQSkZJRg==" probePrompt).
  - vm_compute. reflexivity.
  - vm_compute. reflexivity.
  - vm_compute. reflexivity.
Defined.

(** X19. The fence stripping of the older timesheet and stat-schedule
    operations, where the test for a bare fence is a separate [if], agrees
    with [extractJSON] on every reply that does not start, once trimmed,
    with [```json```]. On a reply that does and ends with a fence, the
    older code strips the second fence too, and [extractJSON] keeps it. *)
Theorem legacy_stripFences_agrees (response : string) :
  (startsWith (trim response) "```json```" = false ->
   Legacy.stripFences response = extractJSON response)
  /\ (forall body,
         trim response = "```json```" ++ body ++ "```" ->
         Legacy.stripFences response = trim body
         /\ extractJSON response = trim ("```" ++ body)).
Proof.
  split.
  - intros H. unfold Legacy.stripFences, extractJSON.
    destruct (startsWith (trim response) "```json") eqn:E; [|reflexivity].
    apply prefix_elim in E as [rest E]. rewrite E in *.
    pose proof (slice1_app "```json" rest) as H1.
    change (len "```json") with 7 in H1. rewrite H1.
    assert (E1 : startsWith rest "```" = false).
    { pose proof (prefix_app_cancel "```json" "```" rest) as Hc.
      change ("```json" ++ "```") with "```json```" in Hc.
      unfold startsWith in *. now rewrite <- Hc. }
    now rewrite E1.
  - intros body E. unfold Legacy.stripFences, extractJSON. rewrite E.
    replace (startsWith ("```json```" ++ body ++ "```") "```json") with true
      by (symmetry; apply (prefix_app "```json" ("```" ++ body ++ "```"))).
    pose proof (slice1_app "```json" ("```" ++ body ++ "```")) as H1.
    change (len "```json") with 7 in H1.
    change ("```json" ++ "```" ++ body ++ "```")
      with ("```json```" ++ body ++ "```") in H1.
    rewrite H1.
    replace (startsWith ("```" ++ body ++ "```") "```") with true
      by (symmetry; apply (prefix_app "```")).
    pose proof (slice1_app "```" (body ++ "```")) as H2.
    change (len "```") with 3 in H2. rewrite H2, endsWith_app.
    pose proof (slice2_drop_end body "```" eq_refl) as H3.
    change (- len "```") with (-3) in H3. rewrite H3.
    split; [reflexivity|].
    pose proof (endsWith_app ("```" ++ body) "```") as H4.
    rewrite append_assoc in H4.
    change ("```" ++ body ++ "```") with ("```" ++ (body ++ "```")) in *.
    rewrite H4.
    pose proof (slice2_drop_end ("```" ++ body) "```" eq_refl) as H5.
    change (- len "```") with (-3) in H5. rewrite append_assoc in H5.
    now rewrite H5.
Qed.

Lemma legacy_stripFences_agrees_witness :
  Legacy.stripFences Scenario.doubleFence = "[]"
  /\ extractJSON Scenario.doubleFence = "```[]".
Proof.
  apply (proj2 (legacy_stripFences_agrees Scenario.doubleFence) "[]").
  vm_compute. reflexivity.
Defined.

Lemma legacy_callGemini_trace (env : Env) (apiKey prompt : string)
  (image : option string) (t : Trace) :
  snd (Legacy.callGemini env apiKey prompt image t)
  = (t ++ [GeminiFetch apiKey (Legacy.geminiParts prompt image)])%list.
Proof.
  unfold Legacy.callGemini, bind, request, lift, ret.
  destruct (fetch env _ _) as [response|e]; [|reflexivity].
  destruct (ok response); cbn [negb].
  - destruct (json response) as [result|e]; [|reflexivity].
    destruct (getR env result "candidates"); reflexivity.
  - destruct (json response) as [body|e]; [|reflexivity].
    destruct (getR env body "error"); reflexivity.
Qed.

(** X20. The older timesheet operation never throws and issues exactly
    one request, to the Gemini endpoint. A success carries the array
    obtained from the parsed array as in [ai.ts]: the entries with a
    truthy date and hours, each with its normalised date, its hours as a
    number that is neither zero nor [NaN], its earnings forwarded when
    truthy, a shift type among the three names, a truthy job name, and
    every other property as parsed. *)
Theorem legacy_parseTimesheetWithGemini_run (env : Env) (apiKey : string)
  (content image : option string) (t : Trace) :
  let run := Legacy.parseTimesheetWithGemini env apiKey content image in
  let t' := (t ++ [GeminiFetch apiKey
                     (Legacy.geminiParts (timesheetPrompt content) image)])
              %list in
  (exists r : AIResponse, run t = (Ok r, t'))
  /\ (forall d t1,
         run t = (Ok (AISuccess d), t1) ->
         exists text elems own out,
           fst (Legacy.callGemini env apiKey (timesheetPrompt content)
                                  image t) = Ok (JStr text)
           /\ JSON_parse env (Legacy.stripFences text) = Ok (JArr elems own)
           /\ d = JArr out []
           /\ Forall2 (entryContract env) (filter hasDateAndHours elems) out).
Proof.
  intros run t'. subst run t'.
  unfold Legacy.parseTimesheetWithGemini, tryCatch, bind, lift, ret.
  pose proof (legacy_callGemini_trace env apiKey (timesheetPrompt content)
                image t) as Ht.
  destruct (Legacy.callGemini env apiKey (timesheetPrompt content) image t)
    as [[response|e] t1]; cbn [snd fst] in *; subst t1.
  - destruct (Legacy.stripFencesOf env response) as [jsonStr|e] eqn:Es.
    + destruct (timesheetOfJSON env jsonStr) as [r|e] eqn:Er.
      * split; [eauto|]. intros d t1 [= -> _].
        destruct response; try discriminate Es.
        cbn in Es. injection Es as <-.
        apply timesheetOfJSON_Ok in Er as (elems & own & out & Hp & -> & H).
        exists s, elems, own, out. repeat split; auto.
        revert H. apply Forall2_filter_impl. intros e o Hk H.
        now apply normalizeEntry_contract.
      * split; [eauto|]. discriminate.
    + split; [eauto|]. discriminate.
  - split; [eauto|]. discriminate.
Qed.

Lemma legacy_parseTimesheetWithGemini_run_witness :
  exists text elems own out,
    fst (Legacy.callGemini
           (Scenario.geminiFenced Sample.nightShiftJSON Sample.nightShift)
           "gemini-key" (timesheetPrompt None) None []) = Ok (JStr text)
    /\ JSON_parse
         (Scenario.geminiFenced Sample.nightShiftJSON Sample.nightShift)
         (Legacy.stripFences text) = Ok (JArr elems own)
    /\ JArr [JObj [("date", JStr "2024-01-15");
                   ("shift_type", JStr "graveyard");
                   ("hours", JNum (ofZ 8));
                   ("job_name", JStr "Imported");
                   ("earnings", JUndefined)]] []
       = JArr out []
    /\ Forall2
         (entryContract
            (Scenario.geminiFenced Sample.nightShiftJSON Sample.nightShift))
         (filter hasDateAndHours elems) out.
Proof.
  apply (proj2 (legacy_parseTimesheetWithGemini_run
                  (Scenario.geminiFenced Sample.nightShiftJSON
                                         Sample.nightShift)
                  "gemini-key" None None [])
           _
           (snd (Legacy.parseTimesheetWithGemini
                   (Scenario.geminiFenced Sample.nightShiftJSON
                                          Sample.nightShift)
                   "gemini-key" None None []))).
  vm_compute. reflexivity.
Defined.

(** X21. The older stat-schedule operation never throws and issues
    exactly one request, to the Gemini endpoint. When the reply is a
    string whose first-to-last-brace span parses to a value other than
    [null] with no [null] among its holidays, the outcome is the one of
    [ai.ts]: the forwarded [error], the invalid-format failure, the
    no-valid-holidays failure, or the year with the complete holidays. *)
Theorem legacy_parseStatScheduleWithGemini_run (env : Env)
  (apiKey image : string) (t : Trace) :
  let run := Legacy.parseStatScheduleWithGemini env apiKey image in
  let t' := (t ++ [GeminiFetch apiKey
                     (Legacy.geminiParts statSchedulePrompt (Some image))])
              %list in
  (exists r : StatScheduleResponse, run t = (Ok r, t'))
  /\ (forall text data,
         fst (Legacy.callGemini env apiKey statSchedulePrompt (Some image) t)
         = Ok (JStr text) ->
         JSON_parse env (firstObject (Legacy.stripFences text)) = Ok data ->
         notNullish data = true ->
         Forall (fun h => notNullish h = true) (holidaysOf data) ->
         run t = (Ok (statScheduleSpec data), t')).
Proof.
  intros run t'. subst run t'.
  unfold Legacy.parseStatScheduleWithGemini, tryCatch, bind, lift, ret.
  pose proof (legacy_callGemini_trace env apiKey statSchedulePrompt
                (Some image) t) as Ht.
  destruct (Legacy.callGemini env apiKey statSchedulePrompt (Some image) t)
    as [[response|e] t1]; cbn [snd fst] in *; subst t1.
  - destruct (Legacy.stripFencesOf env response) as [jsonStr|e] eqn:Es.
    + destruct (statScheduleOfJSON env jsonStr) as [r|e] eqn:Er.
      * split; [eauto|]. intros text data [= ->] Hp Hn Hh.
        cbn in Es. injection Es as <-.
        rewrite (statScheduleOfJSON_spec env _ data Hp Hn Hh) in Er.
        now injection Er as <-.
      * split; [eauto|]. intros text data [= ->] Hp Hn Hh.
        cbn in Es. injection Es as <-.
        rewrite (statScheduleOfJSON_spec env _ data Hp Hn Hh) in Er.
        discriminate.
    + split; [eauto|]. intros text data [= ->]. discriminate.
  - split; [eauto|]. discriminate.
Qed.

Lemma legacy_parseStatScheduleWithGemini_run_witness :
  Legacy.parseStatScheduleWithGemini
    (Scenario.geminiFenced Sample.canadaDayJSON Sample.canadaDaySchedule)
    "gemini-key" Sample.jpegScan []
  = (Ok (StatSuccess (JNum (ofZ 2026)) [Sample.canadaDay]),
     [GeminiFetch "gemini-key"
        (Legacy.geminiParts statSchedulePrompt (Some Sample.jpegScan))]).
Proof.
  refine (proj2 (legacy_parseStatScheduleWithGemini_run
                   (Scenario.geminiFenced Sample.canadaDayJSON
                                          Sample.canadaDaySchedule)
                   "gemini-key" Sample.jpegScan [])
            (Sample.fenced Sample.canadaDayJSON) Sample.canadaDaySchedule
            _ _ _ _).
  - vm_compute. reflexivity.
  - vm_compute. reflexivity.
  - vm_compute. reflexivity.
  - repeat constructor.
Defined.

(** X22. The older connectivity probe [testGeminiConnection] never throws
    and issues exactly one request, to the Gemini endpoint, carrying the
    probe prompt and no attachment. It answers [false] when the request
    is rejected or the reply is not [ok], and [true] when the reply is
    [ok] and its body is an object, whatever text it carries. *)
Theorem legacy_testGeminiConnection_probe (env : Env) (apiKey : string)
  (t : Trace) :
  let run := Legacy.testGeminiConnection env apiKey in
  let t' := (t ++ [GeminiFetch apiKey [GeminiText probePrompt]])%list in
  (exists b : bool, run t = (Ok b, t'))
  /\ (forall e,
         fetch env apiKey [GeminiText probePrompt] = Throw e ->
         run t = (Ok false, t'))
  /\ (forall response,
         fetch env apiKey [GeminiText probePrompt] = Ok response ->
         ok response = false ->
         run t = (Ok false, t'))
  /\ (forall response result,
         fetch env apiKey [GeminiText probePrompt] = Ok response ->
         ok response = true ->
         json response = Ok result ->
         notNullish result = true ->
         run t = (Ok true, t')).
Proof.
  intros run t'. subst run t'.
  unfold Legacy.testGeminiConnection, tryCatch, bind, ret.
  fold probePrompt.
  pose proof (legacy_callGemini_trace env apiKey probePrompt None t) as Ht.
  change (Legacy.geminiParts probePrompt None)
    with [GeminiText probePrompt] in Ht.
  assert (G : forall e,
             fetch env apiKey [GeminiText probePrompt] = Throw e ->
             forall v t1,
               Legacy.callGemini env apiKey probePrompt None t
               <> (Ok v, t1)).
  { intros e Hf v t1. unfold Legacy.callGemini, bind, request, lift.
    change (Legacy.geminiParts probePrompt None)
      with [GeminiText probePrompt].
    rewrite Hf. discriminate. }
  assert (F : forall response,
             fetch env apiKey [GeminiText probePrompt] = Ok response ->
             ok response = false ->
             forall v t1,
               Legacy.callGemini env apiKey probePrompt None t
               <> (Ok v, t1)).
  { intros response Hf Hok v t1.
    unfold Legacy.callGemini, bind, request, lift.
    change (Legacy.geminiParts probePrompt None)
      with [GeminiText probePrompt].
    rewrite Hf, Hok. cbn [negb].
    destruct (json response) as [body|]; [|discriminate].
    destruct (getR env body "error"); [|discriminate].
    unfold throwError. destruct (toStr env _); discriminate. }
  assert (K : forall response result,
             fetch env apiKey [GeminiText probePrompt] = Ok response ->
             ok response = true ->
             json response = Ok result ->
             notNullish result = true ->
             forall e t1,
               Legacy.callGemini env apiKey probePrompt None t
               <> (Throw e, t1)).
  { intros response result Hf Hok Hj Hn e t1.
    unfold Legacy.callGemini, bind, request, lift, ret.
    change (Legacy.geminiParts probePrompt None)
      with [GeminiText probePrompt].
    rewrite Hf, Hok, Hj. cbn [negb].
    rewrite (getR_notNullish env result "candidates" Hn). discriminate. }
  destruct (Legacy.callGemini env apiKey probePrompt None t)
    as [[v|e] t1] eqn:Ec; cbn [snd fst] in *; subst t1.
  - split; [eauto|]. split; [|split].
    + intros e Hf. exfalso. exact (G e Hf _ _ eq_refl).
    + intros response Hf Hok. exfalso. exact (F response Hf Hok _ _ eq_refl).
    + reflexivity.
  - split; [eauto|]. split; [|split]; try reflexivity.
    intros response result Hf Hok Hj Hn. exfalso.
    exact (K response result Hf Hok Hj Hn _ _ eq_refl).
Qed.

Lemma legacy_testGeminiConnection_probe_witness :
  Legacy.testGeminiConnection Scenario.geminiRefuses "backup-key" []
  = (Ok false, [GeminiFetch "backup-key" [GeminiText probePrompt]]).
Proof.
  refine (proj1 (proj2 (proj2
            (legacy_testGeminiConnection_probe Scenario.geminiRefuses
               "backup-key" [])))
            {| ok := false;
               json := Ok (JObj [("error",
                                  JObj [("code", JNum (ofZ 400));
                                        ("message",
                                         JStr "API key not valid")])]) |}
            _ _).
  - vm_compute. reflexivity.
  - vm_compute. reflexivity.
Defined.

(** ** The older paystub operation *)

Lemma includes_cons_char (c d : ascii) (s : string) :
  includes (String d s) (String c EmptyString)
  = Ascii.eqb c d || includes s (String c EmptyString).
Proof. cbn [includes]. now rewrite prefix_char. Qed.

Lemma braceFree_cons (c : ascii) (s : string) :
  braceFree (String c s) = true ->
  Ascii.eqb c "{" = false /\ Ascii.eqb c "}" = false /\ braceFree s = true.
Proof.
  unfold braceFree. rewrite !includes_cons_char.
  rewrite (Ascii.eqb_sym "{" c), (Ascii.eqb_sym "}" c).
  destruct (Ascii.eqb c "{"), (Ascii.eqb c "}"); cbn [orb negb andb];
    intros H; try discriminate H.
  - destruct (negb (includes s "{")); discriminate H.
  - auto.
Qed.

Lemma closedRun_closed (body after : string) :
  braceFree body = true ->
  Legacy.closedRun (body ++ "}" ++ after) = Some body.
Proof.
  induction body as [|c body IH]; intros H; [reflexivity|].
  apply braceFree_cons in H as (Ho & Hc & H).
  cbn [append Legacy.closedRun]. rewrite Ho, Hc.
  cbn [append] in IH. now rewrite (IH H).
Qed.

Lemma closedRun_open (pre rest : string) :
  includes pre "}" = false ->
  Legacy.closedRun (pre ++ "{" ++ rest) = None.
Proof.
  induction pre as [|c pre IH]; intros H; [reflexivity|].
  rewrite includes_cons_char in H. apply orb_false_iff in H as [Hc H].
  rewrite Ascii.eqb_sym in Hc.
  cbn [append Legacy.closedRun]. rewrite Hc.
  destruct (Ascii.eqb c "{"); [reflexivity|].
  cbn [append] in IH. now rewrite (IH H).
Qed.

Lemma closedRun_sound (s run : string) :
  Legacy.closedRun s = Some run ->
  braceFree run = true /\ exists after, s = run ++ "}" ++ after.
Proof.
  revert run. induction s as [|c s IH]; intros run; [discriminate|].
  cbn [Legacy.closedRun].
  destruct (Ascii.eqb c "}") eqn:Hc.
  - intros [= <-]. apply Ascii.eqb_eq in Hc as ->.
    split; [reflexivity|]. now exists s.
  - destruct (Ascii.eqb c "{") eqn:Ho; [discriminate|].
    destruct (Legacy.closedRun s) as [r|]; [|discriminate].
    intros [= <-]. destruct (IH r eq_refl) as (Hb & after & ->).
    split; [|now exists after].
    unfold braceFree in *. rewrite !includes_cons_char.
    rewrite (Ascii.eqb_sym "{" c), (Ascii.eqb_sym "}" c), Ho, Hc.
    exact Hb.
Qed.

Lemma matchFlatObject_leftmost (pre body after : string) :
  includes pre "}" = false ->
  braceFree body = true ->
  Legacy.matchFlatObject (pre ++ "{" ++ body ++ "}" ++ after)
  = Some ("{" ++ body ++ "}").
Proof.
  intros Hp Hb. induction pre as [|c pre IH].
  - cbn [append Legacy.matchFlatObject Ascii.eqb Bool.eqb].
    pose proof (closedRun_closed body after Hb) as H.
    cbn [append] in H. now rewrite H.
  - rewrite includes_cons_char in Hp. apply orb_false_iff in Hp as [_ Hp].
    cbn [append Legacy.matchFlatObject].
    pose proof (closedRun_open pre (body ++ "}" ++ after) Hp) as H.
    cbn [append] in H, IH. rewrite H.
    destruct (Ascii.eqb c "{"); exact (IH Hp).
Qed.

Lemma matchFlatObject_sound (s m : string) :
  Legacy.matchFlatObject s = Some m ->
  exists pre body after,
    s = pre ++ "{" ++ body ++ "}" ++ after
    /\ m = "{" ++ body ++ "}"
    /\ braceFree body = true.
Proof.
  induction s as [|c s IH]; [discriminate|].
  cbn [Legacy.matchFlatObject].
  assert (R : Legacy.matchFlatObject s = Some m ->
              exists pre body after,
                String c s = pre ++ "{" ++ body ++ "}" ++ after
                /\ m = "{" ++ body ++ "}" /\ braceFree body = true).
  { intros H. destruct (IH H) as (pre & body & after & -> & -> & Hb).
    exists (String c pre), body, after. auto. }
  destruct (Ascii.eqb c "{") eqn:Ho; [|exact R].
  destruct (Legacy.closedRun s) as [run|] eqn:Er; [|exact R].
  intros [= <-]. apply Ascii.eqb_eq in Ho as ->.
  apply closedRun_sound in Er as (Hb & after & ->).
  exists EmptyString, run, after. auto.
Qed.

Lemma matchFlatObject_none (s : string) :
  includes s "}" = false -> Legacy.matchFlatObject s = None.
Proof.
  intros H. destruct (Legacy.matchFlatObject s) as [m|] eqn:E;
    [|reflexivity].
  apply matchFlatObject_sound in E as (pre & body & after & -> & _).
  rewrite !includes_char_app in H. cbn in H.
  rewrite !orb_true_r in H. discriminate.
Qed.

(** X23. The pattern [/\{[^{}]*\}/] of the older paystub operation picks
    the leftmost pair of braces with no brace between them: when no
    closing brace comes before it, an innermost object is returned, not
    the object around it. Whatever the text, the result is the text
    itself or such a brace-free object lying in it; a text without a
    closing brace is returned as it is. *)
Theorem legacy_flatObject_leftmost :
  (forall pre body after,
      includes pre "}" = false ->
      braceFree body = true ->
      Legacy.flatObject (pre ++ "{" ++ body ++ "}" ++ after)
      = "{" ++ body ++ "}")
  /\ (forall s,
         Legacy.flatObject s = s
         \/ exists pre body after,
              s = pre ++ "{" ++ body ++ "}" ++ after
              /\ Legacy.flatObject s = "{" ++ body ++ "}"
              /\ braceFree body = true)
  /\ (forall s, includes s "}" = false -> Legacy.flatObject s = s).
Proof.
  unfold Legacy.flatObject. split; [|split].
  - intros pre body after Hp Hb.
    now rewrite (matchFlatObject_leftmost pre body after Hp Hb).
  - intros s. destruct (Legacy.matchFlatObject s) as [m|] eqn:E;
      [|now left].
    right. apply matchFlatObject_sound in E as (pre & body & after & H).
    exists pre, body, after. tauto.
  - intros s H. now rewrite (matchFlatObject_none s H).
Qed.

Lemma legacy_flatObject_leftmost_witness :
  Legacy.flatObject
    (("{" ++ Sample.q "line_items" ++ ":[") ++ "{"
     ++ (Sample.q "date" ++ ":" ++ Sample.q "2026-01-29") ++ "}"
     ++ ("]," ++ Sample.q "gross_pay" ++ ":1500}"))
  = "{" ++ (Sample.q "date" ++ ":" ++ Sample.q "2026-01-29") ++ "}".
Proof.
  apply (proj1 legacy_flatObject_leftmost
           ("{" ++ Sample.q "line_items" ++ ":[")
           (Sample.q "date" ++ ":" ++ Sample.q "2026-01-29")
           ("]," ++ Sample.q "gross_pay" ++ ":1500}")).
  - vm_compute. reflexivity.
  - vm_compute. reflexivity.
Defined.

Lemma legacy_callClaude_trace (env : Env) (apiKey prompt : string)
  (image : option string) (t : Trace) :
  snd (Legacy.callClaude env apiKey prompt image t)
  = (t ++ [AnthropicPost apiKey (Legacy.claudeContent prompt image)])%list.
Proof.
  unfold Legacy.callClaude, bind, request, lift, ret.
  destruct (CapacitorHttp_post env _ _) as [response|e]; [|reflexivity].
  destruct (negb (status response =? 200)); [reflexivity|].
  destruct (JS.or _ _); reflexivity.
Qed.

Lemma legacy_hasPayData_Ok (env : Env) (data : JSValue) (b : bool) :
  Legacy.hasPayData env data = Ok b -> b = legacyPayPresent data.
Proof.
  unfold Legacy.hasPayData, legacyPayPresent, rbind.
  destruct (getR env data "gross_pay") as [g|] eqn:Eg; [|discriminate].
  apply getR_Ok in Eg as [-> Hn].
  rewrite !(getR_notNullish env data _ Hn).
  destruct (JS.truthy (JS.optGet data "gross_pay")); [now intros [= <-]|].
  destruct (JS.truthy (JS.optGet data "net_pay")); now intros [= <-].
Qed.

Lemma legacy_hasPayData_total (env : Env) (data : JSValue) :
  notNullish data = true ->
  Legacy.hasPayData env data = Ok (legacyPayPresent data).
Proof.
  intros Hn. unfold Legacy.hasPayData, legacyPayPresent, rbind.
  rewrite !(getR_notNullish env data _ Hn).
  destruct (JS.truthy (JS.optGet data "gross_pay")); [reflexivity|].
  destruct (JS.truthy (JS.optGet data "net_pay")); reflexivity.
Qed.

(** X24. The older paystub operation never throws and issues exactly one
    request, the POST to the primary provider. A success carries the
    parsed value as it is, with no repair, and that value holds a truthy
    gross pay, net pay or hours worked. When the reply parses to a value
    other than [null], the outcome is that success, or else the failure
    whose message ends with the first 200 code units of the reply. *)
Theorem legacy_parsePaystubWithClaude_outcome (env : Env)
  (apiKey image : string) (t : Trace) :
  let run := Legacy.parsePaystubWithClaude env apiKey image in
  let call :=
    Legacy.callClaude env apiKey Legacy.paystubPrompt (Some image) in
  let t' :=
    (t ++ [AnthropicPost apiKey
             (Legacy.claudeContent Legacy.paystubPrompt (Some image))])
      %list in
  (exists r : AIResponse, run t = (Ok r, t'))
  /\ (forall d t1,
         run t = (Ok (AISuccess d), t1) ->
         legacyPayPresent d = true
         /\ exists response,
              fst (call t) = Ok response
              /\ JSON_parse env (Legacy.flatObject (extractJSON response))
                 = Ok d)
  /\ (forall response d,
         fst (call t) = Ok response ->
         JSON_parse env (Legacy.flatObject (extractJSON response)) = Ok d ->
         notNullish d = true ->
         run t
         = (Ok (if legacyPayPresent d then AISuccess d
                else AIFailure ("No pay data found. Claude returned: "
                                ++ substring2 response 0 200)), t')).
Proof.
  intros run call t'. subst run call t'.
  unfold Legacy.parsePaystubWithClaude, tryCatch, bind, lift, ret.
  pose proof (legacy_callClaude_trace env apiKey Legacy.paystubPrompt
                (Some image) t) as Ht.
  destruct (Legacy.callClaude env apiKey Legacy.paystubPrompt
              (Some image) t) as [[response|e] t1];
    cbn [snd fst] in *; subst t1.
  - destruct (JSON_parse env _) as [data|e] eqn:Ep.
    + destruct (Legacy.hasPayData env data) as [found|e] eqn:Eh.
      * split; [eauto|]. split.
        -- intros d t1. apply legacy_hasPayData_Ok in Eh. subst found.
           destruct (legacyPayPresent data) eqn:El; [|discriminate].
           intros [= <- _]. split; [exact El|]. eauto.
        -- intros response' d [= <-] Hp Hn. rewrite Ep in Hp.
           injection Hp as <-.
           rewrite (legacy_hasPayData_total env data Hn) in Eh.
           injection Eh as <-. reflexivity.
      * split; [eauto|]. split; [discriminate|].
        intros response' d [= <-] Hp Hn. rewrite Ep in Hp.
        injection Hp as <-.
        rewrite (legacy_hasPayData_total env data Hn) in Eh. discriminate.
    + split; [eauto|]. split; [discriminate|].
      intros response' d [= <-] Hp. rewrite Ep in Hp. discriminate.
  - split; [eauto|]. split; discriminate.
Qed.

Lemma legacy_parsePaystubWithClaude_outcome_witness :
  Legacy.parsePaystubWithClaude
    (Sample.answering Scenario.hoursOnlyJSON Scenario.hoursOnly)
    "sk-ant-key" Sample.jpegScan []
  = (Ok (AISuccess Scenario.hoursOnly),
     [AnthropicPost "sk-ant-key"
        (Legacy.claudeContent Legacy.paystubPrompt (Some Sample.jpegScan))]).
Proof.
  refine (proj2 (proj2 (legacy_parsePaystubWithClaude_outcome
                          (Sample.answering Scenario.hoursOnlyJSON
                                            Scenario.hoursOnly)
                          "sk-ant-key" Sample.jpegScan []))
            Scenario.hoursOnlyJSON Scenario.hoursOnly _ _ _).
  - vm_compute. reflexivity.
  - vm_compute. reflexivity.
  - vm_compute. reflexivity.
Defined.

(** ** The documents page *)

Lemma assign_fresh (k : string) (v : JSValue)
  (props : list (string * JSValue)) :
  JS.lookup k props = None -> JS.assign k v props = (props ++ [(k, v)])%list.
Proof.
  induction props as [|[k' v'] props IH]; cbn; [reflexivity|].
  destruct (String.eqb k k'); [discriminate|].
  intros H. now rewrite IH.
Qed.

Lemma lookup_app_fresh (k : string) (a b : list (string * JSValue)) :
  JS.lookup k a = None -> JS.lookup k (a ++ b)%list = JS.lookup k b.
Proof.
  induction a as [|[k' v'] a IH]; cbn; [reflexivity|].
  destruct (String.eqb k k'); [discriminate | exact IH].
Qed.

Lemma fieldsR_cons (env : Env) (d : JSValue)
  (field : FieldKind * string * string)
  (rest : list (FieldKind * string * string))
  (acc : list (string * JSValue)) :
  fieldsR env d (field :: rest) acc
  = rbind (fieldR env d field acc) (fieldsR env d rest).
Proof.
  destruct rest; [|reflexivity].
  cbn [fieldsR]. unfold rbind. now destruct (fieldR env d field acc).
Qed.

(** One [if] of the page: the entry is appended, or the read of [toFixed]
    on a value that is not a number throws. *)
Lemma fieldR_spec (env : Env) (d : JSValue)
  (field : FieldKind * string * string) (acc : list (string * JSValue)) :
  notNullish d = true ->
  JS.lookup (snd field) acc = None ->
  (fieldOk d field = true ->
   fieldR env d field acc = Ok (acc ++ displayEntry env d field)%list)
  /\ (fieldOk d field = false -> exists e, fieldR env d field acc = Throw e).
Proof.
  destruct field as [[kind name] label]. cbn [snd]. intros Hn Hl.
  unfold fieldR, fieldOk, displayEntry, DocumentsPage.moneyField,
    DocumentsPage.plainField, rbind.
  rewrite (getR_notNullish env d name Hn).
  destruct kind.
  - destruct (JS.optGet d name) as [| |b|x|s|l own|props] eqn:Ev;
      cbn [JS.truthy rendered negb].
    + split; [intros _; now rewrite app_nil_r | discriminate].
    + split; [intros _; now rewrite app_nil_r | discriminate].
    + destruct b; cbn [negb]; split; try discriminate.
      * intros _. eexists. reflexivity.
      * intros _. now rewrite app_nil_r.
    + split; [|discriminate]. intros _.
      destruct (truthyNumber x); [now rewrite assign_fresh|].
      now rewrite app_nil_r.
    + destruct (negb (String.eqb s EmptyString)); cbn [negb]; split;
        try discriminate.
      * intros _. eexists. reflexivity.
      * intros _. now rewrite app_nil_r.
    + split; [discriminate|]. intros _. eexists. reflexivity.
    + split; [discriminate|]. intros _. eexists. reflexivity.
  - split; [|discriminate]. intros _. cbn [rendered].
    destruct (JS.truthy (JS.optGet d name)); [now rewrite assign_fresh|].
    now rewrite app_nil_r.
Qed.

Lemma displayEntry_keys (env : Env) (d : JSValue)
  (field : FieldKind * string * string) (k : string) :
  k <> snd field -> JS.lookup k (displayEntry env d field) = None.
Proof.
  destruct field as [[kind name] label]. cbn [snd]. intros Hk.
  unfold displayEntry. apply String.eqb_neq in Hk.
  destruct (JS.truthy _); [|reflexivity].
  destruct (rendered env kind _); [|reflexivity].
  cbn. now rewrite Hk.
Qed.

Lemma fieldsR_spec (env : Env) (d : JSValue)
  (fields : list (FieldKind * string * string)) :
  notNullish d = true ->
  NoDup (map snd fields) ->
  forall acc : list (string * JSValue),
    (forall field, In field fields -> JS.lookup (snd field) acc = None) ->
    (forallb (fieldOk d) fields = true ->
     fieldsR env d fields acc
     = Ok (acc ++ flat_map (displayEntry env d) fields)%list)
    /\ (forallb (fieldOk d) fields = false ->
        exists e, fieldsR env d fields acc = Throw e).
Proof.
  intros Hn. induction fields as [|field rest IH]; intros Hd acc Hacc.
  - cbn. split; [now rewrite app_nil_r | discriminate].
  - rewrite fieldsR_cons. cbn [forallb flat_map].
    cbn [map] in Hd. apply NoDup_cons_iff in Hd as [Hfresh Hd].
    destruct (fieldR_spec env d field acc Hn (Hacc field (or_introl eq_refl)))
      as [Hok Hbad].
    destruct (fieldOk d field).
    + rewrite (Hok eq_refl). cbn [rbind andb].
      destruct (IH Hd (acc ++ displayEntry env d field)%list) as [H1 H2].
      * intros f Hf. rewrite lookup_app_fresh by (apply Hacc; now right).
        apply displayEntry_keys. intros E. apply Hfresh.
        rewrite <- E. now apply in_map.
      * split; [|exact H2].
        intros H. rewrite (H1 H). now rewrite app_assoc.
    + destruct (Hbad eq_refl) as [e ->]. cbn [rbind andb].
      split; [discriminate | eauto].
Qed.

Lemma displayRecord_spec (env : Env) (d : JSValue) :
  notNullish d = true ->
  (displayable d = true ->
   DocumentsPage.displayRecord env d
   = Ok (flat_map (displayEntry env d) displayFields))
  /\ (displayable d = false ->
      exists e, DocumentsPage.displayRecord env d = Throw e).
Proof.
  intros Hn.
  change (DocumentsPage.displayRecord env d)
    with (fieldsR env d displayFields []).
  apply (fieldsR_spec env d displayFields Hn).
  - cbn. repeat constructor; cbn; intuition discriminate.
  - reflexivity.
Qed.

(** X25. [extractDocumentData] does nothing unless the paystub category is
    selected and a key is available, the key of the user or else the one
    of the build: it returns the empty record, issues no request and
    leaves the page state, the progress flag included, as it was. *)
Theorem extractDocumentData_guard (env : Env) (envKey : string)
  (page : DocumentsPage.PageState) (data mimeType : string) (t : Trace) :
  DocumentsPage.docCategory page <> "pay_stub"
  \/ DocumentsPage.getApiKey envKey (DocumentsPage.anthropic_api_key page)
     = EmptyString ->
  DocumentsPage.extractDocumentData env envKey page data mimeType t
  = (Ok ([], page), t).
Proof.
  unfold DocumentsPage.extractDocumentData.
  destruct (String.eqb (DocumentsPage.docCategory page) "pay_stub") eqn:Ec;
    cbn [negb]; [|reflexivity].
  apply String.eqb_eq in Ec. intros [H|H]; [contradiction|].
  now rewrite H.
Qed.

Lemma extractDocumentData_guard_witness :
  DocumentsPage.extractDocumentData
    (Sample.answering Sample.grossOnlyJSON Sample.grossOnly) EmptyString
    Scenario.timesheetPage Sample.jpegScan "image/jpeg" []
  = (Ok ([], Scenario.timesheetPage), []).
Proof.
  apply (extractDocumentData_guard
           (Sample.answering Sample.grossOnlyJSON Sample.grossOnly)
           EmptyString Scenario.timesheetPage Sample.jpegScan "image/jpeg" []).
  left. vm_compute. discriminate.
Defined.

(** X26. With the paystub category selected and a key available,
    [extractDocumentData] never throws, issues exactly the one POST of
    [parsePaystubWithClaude] and leaves the progress flag lowered. The
    record it returns is empty unless the operation succeeded with an
    object whose truthy money fields are all numbers; it then holds, in
    source order, a dollar amount with two decimals for each truthy money
    field and the value itself for the truthy hours and period fields. A
    single money field that is truthy and not a number (an amount sent as
    a string) empties the whole record. *)
Theorem extractDocumentData_record (env : Env) (envKey : string)
  (page : DocumentsPage.PageState) (data mimeType : string) (t : Trace) :
  let apiKey :=
    DocumentsPage.getApiKey envKey (DocumentsPage.anthropic_api_key page) in
  let t' := (t ++ [AnthropicPost apiKey
                     (claudeContent paystubPrompt (Some data))])%list in
  DocumentsPage.docCategory page = "pay_stub" ->
  apiKey <> EmptyString ->
  exists result,
    parsePaystubWithClaude env apiKey data t = (Ok result, t')
    /\ DocumentsPage.extractDocumentData env envKey page data mimeType t
       = (Ok (displaySpec env result,
              DocumentsPage.setParsingWithAI page false), t').
Proof.
  intros apiKey t' Hc Hk. subst t'.
  destruct (parsePaystubWithClaude_returns env apiKey data t) as [result Hr].
  exists result. split; [exact Hr|].
  unfold DocumentsPage.extractDocumentData. rewrite Hc.
  replace (String.eqb "pay_stub" "pay_stub") with true by reflexivity.
  cbv zeta. fold apiKey. apply String.eqb_neq in Hk. rewrite Hk.
  cbn [negb]. unfold bind, tryCatch. rewrite Hr. unfold displaySpec.
  destruct result as [d|msg]; [|reflexivity].
  destruct (JS.truthy d) eqn:Et; [|reflexivity].
  destruct (JS.isArray d); [reflexivity|]. cbn [negb andb].
  assert (Hn : notNullish d = true) by (now destruct d).
  destruct (displayRecord_spec env d Hn) as [Hok Hbad].
  unfold lift. destruct (displayable d).
  - now rewrite (Hok eq_refl).
  - destruct (Hbad eq_refl) as [e ->]. reflexivity.
Qed.

Lemma extractDocumentData_record_witness :
  exists result,
    parsePaystubWithClaude
      (Sample.answering Sample.grossOnlyJSON Sample.grossOnly)
      "sk-ant-key" Sample.jpegScan []
    = (Ok result,
       [AnthropicPost "sk-ant-key"
          (claudeContent paystubPrompt (Some Sample.jpegScan))])
    /\ DocumentsPage.extractDocumentData
         (Sample.answering Sample.grossOnlyJSON Sample.grossOnly) EmptyString
         Scenario.paystubPage Sample.jpegScan "image/jpeg" []
       = (Ok (displaySpec
                (Sample.answering Sample.grossOnlyJSON Sample.grossOnly)
                result,
              DocumentsPage.setParsingWithAI Scenario.paystubPage false),
          [AnthropicPost "sk-ant-key"
             (claudeContent paystubPrompt (Some Sample.jpegScan))]).
Proof.
  apply (extractDocumentData_record
           (Sample.answering Sample.grossOnlyJSON Sample.grossOnly)
           EmptyString Scenario.paystubPage Sample.jpegScan "image/jpeg" []).
  - vm_compute. reflexivity.
  - vm_compute. discriminate.
Defined.

(** The record shown for a paystub with a gross pay only, and for one
    whose gross pay came back as a string. *)
Example paystub_record_shown :
  fst (DocumentsPage.extractDocumentData
         (Sample.answering Sample.grossOnlyJSON Sample.grossOnly) EmptyString
         Scenario.paystubPage Sample.jpegScan "image/jpeg" [])
  = Ok ([("Gross Pay", JStr "$1234.50")],
        DocumentsPage.setParsingWithAI Scenario.paystubPage false)
  /\ fst (DocumentsPage.extractDocumentData
            (Sample.answering Scenario.stringAmountJSON Scenario.stringAmount)
            EmptyString Scenario.paystubPage Sample.jpegScan "image/jpeg" [])
     = Ok ([], DocumentsPage.setParsingWithAI Scenario.paystubPage false).
Proof. split; vm_compute; reflexivity. Qed.

(** ** The older [callClaude] *)

(** X27. The older [callClaude] does not parse a body that arrives as a
    string: with status 200 it returns the empty string, and with any
    other status it throws the fixed text with the status, whatever the
    string holds, be it valid JSON carrying a message of the provider.
    One POST is issued in both cases. *)
Theorem legacy_callClaude_string_body (env : Env) (apiKey prompt : string)
  (image : option string) (t : Trace) (response : HttpResponse)
  (text : string) :
  CapacitorHttp_post env apiKey (Legacy.claudeContent prompt image)
  = Ok response ->
  responseData response = JStr text ->
  Legacy.callClaude env apiKey prompt image t
  = (if status response =? 200 then Ok EmptyString
     else Throw (ErrorInstance
                   ("API request failed with status "
                    ++ statusString (status response))),
     (t ++ [AnthropicPost apiKey (Legacy.claudeContent prompt image)])%list).
Proof.
  intros Hp Hd. unfold Legacy.callClaude, bind, request, lift, ret.
  rewrite Hp, Hd. destruct (status response =? 200); reflexivity.
Qed.

Lemma legacy_callClaude_string_body_witness :
  Legacy.callClaude Scenario.badGateway "sk-ant-key" probePrompt None []
  = (Throw (ErrorInstance "API request failed with status 502"),
     [AnthropicPost "sk-ant-key" [TextPart probePrompt]]).
Proof.
  apply (legacy_callClaude_string_body Scenario.badGateway "sk-ant-key"
           probePrompt None []
           {| status := 502;
              responseData := JStr "<html><h1>502 Bad Gateway</h1></html>" |}
           "<html><h1>502 Bad Gateway</h1></html>").
  - vm_compute. reflexivity.
  - vm_compute. reflexivity.
Defined.
